(** * MotherNet / TabPFN training-run lifecycle: schedulers, checkpoint
      callback, configuration reconciliation and tracking handshake.

    A shallow embedding of
      - [tabpfn/utils.py]: the three schedules with warmup, the class
        [ReduceLROnSpike] and [product_dict];
      - [tabpfn/fit_model.py]: the argument check and the warm-start block
        of [main], the nested function [save_callback] and the mlflow
        set-up of [main];
      - [mothernet/fit_model.py]: the warm-start block and the mlflow set-up
        of [main].

    Conventions.  Python [int] is [Z] ([%] and [//] are [Z.modulo] and
    [Z.div], which round like Python's; division by zero raises and is
    written out).  Python [float] is the real line [R] in the scheduler
    code, where [math.cos], [math.pi] and [np.std] are needed, and an
    abstract number type with the two operations the code applies to it in
    the checkpoint callback.  Rounding is therefore not modelled: an
    equality between the results of two different float computations can
    hold here and fail in the code by one unit in the last place.
    Exceptions are values of [Py.exn]; code that
    can raise returns a [Py.result], and code that raises after having
    mutated an object returns the mutated object next to the exception. *)

From Stdlib Require Import Reals Lra ZArith List.
From stdpp Require Import gmap strings list pretty.

(* ===================================================================== *)
(** * Part I.  The programs                                               *)
(* ===================================================================== *)

(** ** Python base: exceptions, results, list indexing *)

Module Py.

Inductive exn : Type :=
| AssertionError
| ZeroDivisionError
| IndexError
| KeyError (key : string)
| NameError (name : string)
| AttributeError (attr : string)
| TypeError (msg : string)
| ValueError (msg : string)
| OSError (call : string)
| ExternalError (call : string).

Inductive result (A : Type) : Type :=
| Ok (a : A)
| Raise (e : exn).

Arguments Ok {A} a.
Arguments Raise {A} e.

Definition bind {A B : Type} (r : result A) (k : A -> result B) : result B :=
  match r with
  | Ok a => k a
  | Raise e => Raise e
  end.

Definition raised {A : Type} (r : result A) : Prop :=
  match r with
  | Ok _ => False
  | Raise _ => True
  end.

Definition returned {A : Type} (r : result A) : Prop :=
  match r with
  | Ok _ => True
  | Raise _ => False
  end.

(** [l[i]] for a Python list: a negative index counts from the end, an
    index outside [-len l, len l) raises [IndexError]. *)
Definition index {A : Type} (l : list A) (i : Z) : result A :=
  let n := Z.of_nat (length l) in
  let j := if (i <? 0)%Z then (i + n)%Z else i in
  if ((0 <=? j) && (j <? n))%Z
  then match l !! Z.to_nat j with
       | Some x => Ok x
       | None => Raise IndexError
       end
  else Raise IndexError.

(** [range(n)] as the list [0; 1; ...; n-1] (empty when [n <= 0]). *)
Definition range (n : Z) : list Z :=
  map Z.of_nat (seq 0 (Z.to_nat n)).

End Py.

#[global] Instance result_ret : MRet Py.result := @Py.Ok.
#[global] Instance result_bind : MBind Py.result :=
  fun A B k r => Py.bind r k.

(** ** [tabpfn/utils.py]: the restarting cosine schedule *)

Module Schedule.

Import Py.
Local Open Scope R_scope.

(** Python's two-argument [max(a, b)]: [b] replaces [a] only when [b > a]. *)
Definition py_max (a b : R) : R :=
  if Rgt_dec b a then b else a.

(** [inner_lr_lambda], the closure shared by every period. *)
Definition inner_lr_lambda (num_cycles : R)
    (current_step num_warmup_steps num_training_steps : Z) : R :=
  if (current_step <? num_warmup_steps)%Z
  then IZR current_step / IZR (Z.max 1 num_warmup_steps)
  else
    let progress :=
      IZR (current_step - num_warmup_steps)
      / IZR (Z.max 1 (num_training_steps - num_warmup_steps)) in
    py_max 0.0 (0.5 * (1.0 + cos (PI * num_cycles * 2.0 * progress))).

(** [lr_lambda], the multiplier handed to [LambdaLR]. *)
Definition lr_lambda (num_warmup_steps steps_per_restart : Z) (num_cycles : R)
    (current_step : Z) : R :=
  let inner_step := (current_step mod steps_per_restart)%Z in
  inner_lr_lambda num_cycles inner_step
    (if (current_step <? steps_per_restart)%Z then num_warmup_steps else 0%Z)
    steps_per_restart.

(** [torch.optim.lr_scheduler.LambdaLR] as far as this file uses it: the
    multiplier function and the epoch counter it was created with. *)
Record LambdaLR : Type := mkLambdaLR {
  lr_lambdas : Z -> R;
  last_epoch : Z
}.

(** [get_restarting_cosine_schedule_with_warmup].  The [assert] evaluates
    [num_training_steps % steps_per_restart], which raises
    [ZeroDivisionError] for a zero period before the comparison is made.
    The [optimizer] argument is only handed on to [LambdaLR], whose
    construction is torch's and is taken to return. *)
Definition get_restarting_cosine_schedule_with_warmup
    (num_warmup_steps num_training_steps steps_per_restart : Z)
    (num_cycles : R) (last_epoch : Z) : result LambdaLR :=
  if (steps_per_restart =? 0)%Z then Raise ZeroDivisionError
  else if (num_training_steps mod steps_per_restart =? 0)%Z
  then Ok (mkLambdaLR (lr_lambda num_warmup_steps steps_per_restart num_cycles)
             last_epoch)
  else Raise AssertionError.

End Schedule.

(** ** [tabpfn/utils.py]: the class [ReduceLROnSpike] *)

Module Spike.

Import Py.
Local Open Scope R_scope.

(** An optimizer parameter group: the ['lr'] entry the scheduler reads and
    writes, and the other hyper-parameters, which it never touches. *)
Record param_group : Type := mkGroup {
  lr : R;
  hyper : list (string * R)
}.

Record Optimizer : Type := mkOptimizer {
  param_groups : list param_group
}.

(** What a caller can pass as [optimizer]: an [Optimizer] instance, or an
    object of another type (named by [type(optimizer).__name__]). *)
Inductive pyobj : Type :=
| AnOptimizer (o : Optimizer)
| Other (type_name : string).

(** What a caller can pass as [min_lr]: a scalar, or a list or tuple. *)
Inductive min_lr_arg : Type :=
| Scalar (x : R)
| Sequence (l : list R).

(** Where a name is found when it is read. *)
Inductive pyref : Type :=
| LocalName (name : string)
| GlobalName (name : string)
| BuiltinName (name : string).

(** Lines printed when [verbose] is set. *)
Inductive line : Type :=
| ThatLossLooksBad
| RecentLosses (l : list R)
| CurrentLoss (c : R)
| Reducing (epoch : Z) (group : nat) (new_lr : R).

(** The instance attributes.  [recent_loses] is the attribute that the
    last branch of [step] assigns; it does not exist before that.
    [stdout] collects what the instance has printed. *)
Record ReduceLROnSpike : Type := mkSpike {
  factor : R;
  optimizer : Optimizer;
  min_lrs : list R;
  smoothing : Z;
  verbose : bool;
  mode : string;
  threshold : pyref;
  threshold_mode : pyref;
  eps : R;
  last_epoch : Z;
  recent_losses : list R;
  recent_loses : option (list R);
  _last_lr : option (list R);
  stdout : list line
}.

(** *** Name resolution inside [__init__] *)

(** The parameters of [__init__], its only local names. *)
Definition init_locals : list string :=
  ["self"; "optimizer"; "mode"; "factor"; "smoothing"; "min_lr"; "eps";
   "verbose"]%string.

(** Every name bound at the top level of [utils.py]. *)
Definition module_globals : list string :=
  ["os"; "math"; "argparse"; "random"; "datetime"; "itertools"; "glob"; "re";
   "torch"; "nn"; "LambdaLR"; "np"; "pd"; "convolve"; "windows"; "Optimizer";
   "get_cosine_schedule_with_warmup";
   "get_restarting_cosine_schedule_with_warmup";
   "get_linear_schedule_with_warmup"; "get_openai_lr";
   "get_weighted_single_eval_pos_sampler";
   "get_uniform_single_eval_pos_sampler"; "SeqBN"; "set_locals_in_self";
   "default_device"; "StoreDictKeyPair"; "get_nan_value"; "to_ranking";
   "to_ranking_low_mem"; "nan_handling_missing_for_unknown_reason_value";
   "nan_handling_missing_for_no_reason_value";
   "nan_handling_missing_for_a_reason_value"; "torch_nanmean";
   "torch_nanstd"; "normalize_data"; "remove_outliers";
   "bool_mask_to_att_mask"; "print_on_master_only"; "init_dist"; "NOP";
   "check_compatibility"; "product_dict"; "normalize_by_used_features_f";
   "compare_dicts"; "get_latest_losses"; "make_long_loss_df";
   "ReduceLROnSpike";
   "__name__"; "__doc__"; "__package__"; "__loader__"; "__spec__";
   "__file__"; "__cached__"; "__builtins__"]%string.

(** The names of the [builtins] module. *)
Definition builtins : list string :=
  ["abs"; "aiter"; "all"; "anext"; "any"; "ascii"; "bin"; "bool";
   "breakpoint"; "bytearray"; "bytes"; "callable"; "chr"; "classmethod";
   "compile"; "complex"; "copyright"; "credits"; "delattr"; "dict"; "dir";
   "divmod"; "enumerate"; "eval"; "exec"; "exit"; "filter"; "float";
   "format"; "frozenset"; "getattr"; "globals"; "hasattr"; "hash"; "help";
   "hex"; "id"; "input"; "int"; "isinstance"; "issubclass"; "iter"; "len";
   "license"; "list"; "locals"; "map"; "max"; "memoryview"; "min"; "next";
   "object"; "oct"; "open"; "ord"; "pow"; "print"; "property"; "quit";
   "range"; "repr"; "reversed"; "round"; "set"; "setattr"; "slice";
   "sorted"; "staticmethod"; "str"; "sum"; "super"; "tuple"; "type"; "vars";
   "zip"; "__import__"; "__build_class__"; "__debug__"; "__doc__";
   "__loader__"; "__name__"; "__package__"; "__spec__";
   "None"; "True"; "False"; "Ellipsis"; "NotImplemented";
   "BaseException"; "BaseExceptionGroup"; "Exception"; "ExceptionGroup";
   "GeneratorExit"; "KeyboardInterrupt"; "SystemExit"; "ArithmeticError";
   "AssertionError"; "AttributeError"; "BlockingIOError";
   "BrokenPipeError"; "BufferError"; "BytesWarning"; "ChildProcessError";
   "ConnectionAbortedError"; "ConnectionError"; "ConnectionRefusedError";
   "ConnectionResetError"; "DeprecationWarning"; "EOFError";
   "EncodingWarning"; "EnvironmentError"; "FileExistsError";
   "FileNotFoundError"; "FloatingPointError"; "FutureWarning"; "IOError";
   "ImportError"; "ImportWarning"; "IndentationError"; "IndexError";
   "InterruptedError"; "IsADirectoryError"; "KeyError"; "LookupError";
   "MemoryError"; "ModuleNotFoundError"; "NameError";
   "NotADirectoryError"; "NotImplementedError"; "OSError";
   "OverflowError"; "PendingDeprecationWarning"; "PermissionError";
   "ProcessLookupError"; "RecursionError"; "ReferenceError";
   "ResourceWarning"; "RuntimeError"; "RuntimeWarning";
   "StopAsyncIteration"; "StopIteration"; "SyntaxError"; "SyntaxWarning";
   "SystemError"; "TabError"; "TimeoutError"; "TypeError";
   "UnboundLocalError"; "UnicodeDecodeError"; "UnicodeEncodeError";
   "UnicodeError"; "UnicodeTranslateError"; "UnicodeWarning";
   "UserWarning"; "ValueError"; "Warning"; "ZeroDivisionError"]%string.

(** Reading a bare name: locals, then module globals, then builtins;
    [NameError] when none binds it. *)
Definition resolve (locals : list string) (name : string) : result pyref :=
  if bool_decide (name ∈ locals) then Ok (LocalName name)
  else if bool_decide (name ∈ module_globals) then Ok (GlobalName name)
  else if bool_decide (name ∈ builtins) then Ok (BuiltinName name)
  else Raise (NameError name).

(** The attributes the class body defines; the class has no base but
    [object], whose attributes are the double-underscore names below. *)
Definition class_attributes : list string :=
  ["__init__"; "step"; "_reduce_lr"; "state_dict"; "load_state_dict";
   "__doc__"; "__module__"; "__dict__"; "__weakref__"; "__qualname__"]%string.

Definition object_attributes : list string :=
  ["__class__"; "__delattr__"; "__dir__"; "__eq__"; "__format__"; "__ge__";
   "__getattribute__"; "__getstate__"; "__gt__"; "__hash__";
   "__init_subclass__"; "__le__"; "__lt__"; "__ne__"; "__new__";
   "__reduce__"; "__reduce_ex__"; "__repr__"; "__setattr__"; "__sizeof__";
   "__str__"; "__subclasshook__"]%string.

(** [self.<name>] on an instance whose own attributes are [instance_attrs]. *)
Definition getattr (instance_attrs : list string) (name : string)
    : result unit :=
  if bool_decide
       (name ∈ instance_attrs ++ class_attributes ++ object_attributes)
  then Ok tt
  else Raise (AttributeError name).

(** The attributes [__init__] has assigned when it reaches its two method
    calls. *)
Definition attrs_before_calls : list string :=
  ["factor"; "optimizer"; "min_lrs"; "smoothing"; "verbose"; "mode";
   "threshold"; "threshold_mode"; "eps"; "last_epoch";
   "recent_losses"]%string.

(** [ReduceLROnSpike.__init__], statement by statement.  The two method
    calls at the end are reached only if every name before them resolves;
    the attribute look-up is what each call starts with. *)
Definition init (optimizer : pyobj) (mode : string) (factor : R)
    (smoothing : Z) (min_lr : min_lr_arg) (eps : R) (verbose : bool)
    : result ReduceLROnSpike :=
  if Rge_dec factor 1.0 then Raise (ValueError "Factor should be < 1.0.")
  else
    match optimizer with
    | Other type_name =>
        Raise (TypeError (type_name +:+ " is not an Optimizer"))
    | AnOptimizer opt =>
        min_lrs ←
          match min_lr with
          | Sequence l =>
              if bool_decide (length l ≠ length (param_groups opt))
              then Raise (ValueError
                     ("expected " +:+ pretty (length (param_groups opt))
                      +:+ " min_lrs, got " +:+ pretty (length l)))
              else Ok l
          | Scalar x => Ok (repeat x (length (param_groups opt)))
          end;
        threshold ← resolve init_locals "threshold";
        threshold_mode ← resolve init_locals "threshold_mode";
        _ ← getattr attrs_before_calls "_init_is_better";
        _ ← getattr attrs_before_calls "_reset";
        Ok {| factor := factor; optimizer := opt; min_lrs := min_lrs;
              smoothing := smoothing; verbose := verbose; mode := mode;
              threshold := threshold; threshold_mode := threshold_mode;
              eps := eps; last_epoch := 0; recent_losses := [];
              recent_loses := None; _last_lr := None; stdout := [] |}
    end.

(** *** [step] and [_reduce_lr] *)

Definition sum (l : list R) : R := fold_right Rplus 0 l.

(** [np.mean] *)
Definition mean (l : list R) : R := sum l / INR (length l).

(** [np.std]: the square root of the mean squared deviation (ddof = 0). *)
Definition std (l : list R) : R :=
  sqrt (mean (map (fun x => Rsqr (x - mean l)) l)).

(** The test [np.abs(np.mean(w) - current) > np.std(w)].  On an empty list
    [np.mean] and [np.std] return nan, and every comparison with nan is
    false. *)
Definition spike (w : list R) (current : R) : bool :=
  match w with
  | [] => false
  | _ :: _ => if Rgt_dec (Rabs (mean w - current)) (std w) then true else false
  end.

Definition with_lr (g : param_group) (new_lr : R) : param_group :=
  {| lr := new_lr; hyper := hyper g |}.

(** The loop of [_reduce_lr] from group number [i] on.  Groups are updated
    in place one after the other, so when [self.min_lrs[i]] raises, the
    groups before [i] keep their new rate. *)
Fixpoint reduce_groups (factor eps : R) (min_lrs : list R) (verbose : bool)
    (epoch : Z) (i : nat) (groups : list param_group)
    : list param_group * list line * result unit :=
  match groups with
  | [] => ([], [], Ok tt)
  | param_group :: rest =>
      let old_lr := lr param_group in
      match index min_lrs (Z.of_nat i) with
      | Raise e => (param_group :: rest, [], Raise e)
      | Ok min_lr_i =>
          let new_lr := Schedule.py_max (old_lr * factor) min_lr_i in
          let changed :=
            if Rgt_dec (old_lr - new_lr) eps then true else false in
          let '(rest', out, r) :=
            reduce_groups factor eps min_lrs verbose epoch (S i) rest in
          ((if changed then with_lr param_group new_lr else param_group)
             :: rest',
           (if changed && verbose then [Reducing epoch i new_lr] else [])
             ++ out,
           r)
      end
  end.

Definition with_optimizer (self : ReduceLROnSpike) (groups : list param_group)
    (out : list line) : ReduceLROnSpike :=
  {| factor := factor self; optimizer := mkOptimizer groups;
     min_lrs := min_lrs self; smoothing := smoothing self;
     verbose := verbose self; mode := mode self;
     threshold := threshold self; threshold_mode := threshold_mode self;
     eps := eps self; last_epoch := last_epoch self;
     recent_losses := recent_losses self;
     recent_loses := recent_loses self; _last_lr := _last_lr self;
     stdout := stdout self ++ out |}.

(** [_reduce_lr]: the instance after the loop, and how the loop ended. *)
Definition _reduce_lr (self : ReduceLROnSpike) (epoch : Z)
    : ReduceLROnSpike * result unit :=
  let '(groups, out, r) :=
    reduce_groups (factor self) (eps self) (min_lrs self) (verbose self)
      epoch 0 (param_groups (optimizer self)) in
  (with_optimizer self groups out, r).

Definition with_last_epoch (self : ReduceLROnSpike) (epoch : Z)
    : ReduceLROnSpike :=
  {| factor := factor self; optimizer := optimizer self;
     min_lrs := min_lrs self; smoothing := smoothing self;
     verbose := verbose self; mode := mode self;
     threshold := threshold self; threshold_mode := threshold_mode self;
     eps := eps self; last_epoch := epoch;
     recent_losses := recent_losses self;
     recent_loses := recent_loses self; _last_lr := _last_lr self;
     stdout := stdout self |}.

Definition with_recent_losses (self : ReduceLROnSpike) (w : list R)
    : ReduceLROnSpike :=
  {| factor := factor self; optimizer := optimizer self;
     min_lrs := min_lrs self; smoothing := smoothing self;
     verbose := verbose self; mode := mode self;
     threshold := threshold self; threshold_mode := threshold_mode self;
     eps := eps self; last_epoch := last_epoch self;
     recent_losses := w;
     recent_loses := recent_loses self; _last_lr := _last_lr self;
     stdout := stdout self |}.

Definition with_recent_loses (self : ReduceLROnSpike) (w : list R)
    : ReduceLROnSpike :=
  {| factor := factor self; optimizer := optimizer self;
     min_lrs := min_lrs self; smoothing := smoothing self;
     verbose := verbose self; mode := mode self;
     threshold := threshold self; threshold_mode := threshold_mode self;
     eps := eps self; last_epoch := last_epoch self;
     recent_losses := recent_losses self;
     recent_loses := Some w; _last_lr := _last_lr self;
     stdout := stdout self |}.

Definition with_last_lr (self : ReduceLROnSpike) : ReduceLROnSpike :=
  {| factor := factor self; optimizer := optimizer self;
     min_lrs := min_lrs self; smoothing := smoothing self;
     verbose := verbose self; mode := mode self;
     threshold := threshold self; threshold_mode := threshold_mode self;
     eps := eps self; last_epoch := last_epoch self;
     recent_losses := recent_losses self;
     recent_loses := recent_loses self;
     _last_lr := Some (map lr (param_groups (optimizer self)));
     stdout := stdout self |}.

Definition print (self : ReduceLROnSpike) (out : list line)
    : ReduceLROnSpike :=
  with_optimizer self (param_groups (optimizer self)) out.

(** [step].  [metrics] is the observed loss, already a float.  When
    [_reduce_lr] raises, the exception leaves [step] at once: the window is
    not reset and [_last_lr] is not refreshed. *)
Definition step (self : ReduceLROnSpike) (metrics : R)
    : ReduceLROnSpike * result unit :=
  let current := metrics in
  let epoch := (last_epoch self + 1)%Z in
  let self := with_last_epoch self epoch in
  if (Z.of_nat (length (recent_losses self)) <? smoothing self)%Z
  then (with_recent_losses self (recent_losses self ++ [current]), Ok tt)
  else if spike (recent_losses self) current
  then
    let self :=
      if verbose self
      then print self [ThatLossLooksBad; RecentLosses (recent_losses self);
                       CurrentLoss current]
      else self in
    let '(self, r) := _reduce_lr self epoch in
    match r with
    | Raise e => (self, Raise e)
    | Ok _ => (with_last_lr (with_recent_losses self []), Ok tt)
    end
  else
    let self :=
      with_recent_loses self (tail (recent_losses self) ++ [current]) in
    (with_last_lr self, Ok tt).

(** A run of [step] calls, one per observed loss; it stops at the first
    call that raises. *)
Fixpoint steps (self : ReduceLROnSpike) (metrics : list R)
    : ReduceLROnSpike * result unit :=
  match metrics with
  | [] => (self, Ok tt)
  | m :: rest =>
      let '(self', r) := step self m in
      match r with
      | Raise e => (self', Raise e)
      | Ok _ => steps self' rest
      end
  end.

(** The learning rates of the live optimizer, group by group. *)
Definition rates (self : ReduceLROnSpike) : list R :=
  map lr (param_groups (optimizer self)).

End Spike.

(** ** [tabpfn/fit_model.py]: the epoch callback [save_callback] *)

Module Checkpoint.

Import Py.

(** The two operations the callback applies to the floats of the training
    history: the comparison [a > b], and [int(a // d)] for an integer [d]. *)
Class Number (F : Type) : Type := {
  gt : F -> F -> bool;
  floordiv_int : F -> Z -> Z
}.

(** Integer-valued histories, as in the retention examples of the design. *)
#[global] Instance Z_Number : Number Z := {|
  gt := Z.gtb;
  floordiv_int := Z.div
|}.

(** The [epoch] argument: the strings ["start"] and ["on_exit"], or an
    integer. *)
Inductive epoch : Type :=
| Start
| OnExit
| Epoch (n : Z).

(** [f'{epoch}'] *)
Definition str_epoch (e : epoch) : string :=
  match e with
  | Start => "start"
  | OnExit => "on_exit"
  | Epoch n => pretty n
  end.

(** The variables of [main] that the nested function closes over. *)
Record closure : Type := mkClosure {
  base_path : string;
  model_string : string;
  no_mlflow : bool;
  checkpoint_dir : option string;
  save_every : Z
}.

(** The calls into the operating system and into other libraries; each may
    raise. *)
Inductive call : Type :=
| MakedirsLog
| OpenLog
| LogMetricCall (key : string)
| ReportCall
| MakedirsModels
| DiskUsage
| OpenLogSaving
| SaveModelCall
| RemoveCall (file : string).

(** The surroundings of one callback invocation: which calls raise (and
    what), and the free space [shutil.disk_usage] reports, in bytes.
    Whether an [open] finds its directory is part of what the surroundings
    say about that call: it is not derived from the directories the
    callback has made, so surroundings in which the log directory cannot
    be made and the log file can still be opened are not excluded here,
    although no file system behaves so. *)
Record env : Type := mkEnv {
  fails : call -> option exn;
  disk_free : Z
}.

Section WithNumber.

Context {F : Type} {num : Number F}.

(** The training-state object as the callback reads it. *)
Record model : Type := mkModel {
  losses : list F;
  learning_rates : list F;
  wallclock_times : list F
}.

(** The run-derived entries the callback stores into [config] before a
    save. *)
Record run_fields : Type := mkRunFields {
  epoch_in_training : epoch;
  cfg_learning_rates : list F;
  cfg_losses : list F;
  cfg_wallclock_times : list F
}.

Inductive message : Type :=
| StartingTraining (model_string : string)
| FailedToWriteLog (log_file : string) (e : exn)
| NotSavingNoDiskSpace
| DiskFull
| SavingModelTo (file_name : string)
| RemovingOld (old_file_name : string)
| FailedToRemoveOld (old_file_name : string) (e : exn)
| NotRemovingOld (old_file_name : string) (loss this_loss : F)
| WritingToModelFileFailed
| TheException (e : exn).

Inductive metric : Type :=
| FloatMetric (x : F)
| IntMetric (n : Z).

Inductive log_line : Type :=
| EpochLine (e : epoch) (loss learning_rate : F)
| SavingLine (file_name : string).

(** What the callback does to the outside, in order. *)
Inductive event : Type :=
| Print (m : message)
| Append (file : string) (text : log_line)
| LogMetric (key : string) (value : metric) (step : Z)
| Report (epoch : Z) (loss : F) (wallclock_time : Z)
| SaveModel (file_name : string) (saved : run_fields)
| Remove (file : string).

(** The mutable surroundings: the files and directories that exist, the
    events so far, the run-derived entries of [config], and the attribute
    [last_saved_epoch] of the model object ([None] while it has none). *)
Record world : Type := mkWorld {
  files : gset string;
  dirs : gset string;
  trace : list event;
  config_run : option run_fields;
  last_saved_epoch : option Z
}.

(** Statements: they change the world and return or raise. *)
Definition M (A : Type) : Type := world -> world * result A.

Definition ret {A : Type} (a : A) : M A := fun w => (w, Ok a).

Definition raise {A : Type} (e : exn) : M A := fun w => (w, Raise e).

Definition lift {A : Type} (r : result A) : M A := fun w => (w, r).

Definition and_then {A B : Type} (m : M A) (k : A -> M B) : M B :=
  fun w =>
    match m w with
    | (w', Ok a) => k a w'
    | (w', Raise e) => (w', Raise e)
    end.

(** [try: body except Exception as e: handler e] *)
Definition try_except (body : M unit) (handler : exn -> M unit) : M unit :=
  fun w =>
    match body w with
    | (w', Ok a) => (w', Ok a)
    | (w', Raise e) => handler e w'
    end.

Definition emit (e : event) : M unit :=
  fun w =>
    ({| files := files w; dirs := dirs w; trace := trace w ++ [e];
        config_run := config_run w;
        last_saved_epoch := last_saved_epoch w |}, Ok tt).

Definition create (file : string) : M unit :=
  fun w =>
    ({| files := {[file]} ∪ files w; dirs := dirs w; trace := trace w;
        config_run := config_run w;
        last_saved_epoch := last_saved_epoch w |}, Ok tt).

Definition unlink (file : string) : M unit :=
  fun w =>
    ({| files := files w ∖ {[file]}; dirs := dirs w; trace := trace w;
        config_run := config_run w;
        last_saved_epoch := last_saved_epoch w |}, Ok tt).

Definition mkdir (dir : string) : M unit :=
  fun w =>
    ({| files := files w; dirs := {[dir]} ∪ dirs w; trace := trace w;
        config_run := config_run w;
        last_saved_epoch := last_saved_epoch w |}, Ok tt).

Definition set_config_run (r : run_fields) : M unit :=
  fun w =>
    ({| files := files w; dirs := dirs w; trace := trace w;
        config_run := Some r;
        last_saved_epoch := last_saved_epoch w |}, Ok tt).

Definition init_last_saved_epoch : M unit :=
  fun w =>
    ({| files := files w; dirs := dirs w; trace := trace w;
        config_run := config_run w;
        last_saved_epoch :=
          match last_saved_epoch w with
          | None => Some 0%Z
          | Some n => Some n
          end |}, Ok tt).

(** [os.path.exists] *)
Definition path_exists (file : string) : M bool :=
  fun w => (w, Ok (bool_decide (file ∈ files w))).

(** An outside call: raises what the surroundings say, else returns. *)
Definition outside (E : env) (c : call) : M unit :=
  fun w =>
    match fails E c with
    | Some e => (w, Raise e)
    | None => (w, Ok tt)
    end.

(** [for x in xs: body x] *)
Fixpoint for_each {A : Type} (xs : list A) (body : A -> M unit) : M unit :=
  match xs with
  | [] => ret tt
  | x :: rest => and_then (body x) (fun _ => for_each rest body)
  end.

#[local] Instance M_ret : MRet M := @ret.
#[local] Instance M_bind : MBind M := fun A B k m => and_then m k.

Section Callback.

Variable E : env.
Variable C : closure.
Variable m : model.

(** *** File names *)

Definition log_dir : string := base_path C +:+ "/log".

Definition log_file : string :=
  base_path C +:+ "/log/" +:+ model_string C +:+ ".log".

Definition models_dir : string := base_path C +:+ "/models_diff".

Definition slot_file : string := base_path C +:+ "/checkpoint.mothernet".

Definition epoch_file (e : epoch) : string :=
  base_path C +:+ "/models_diff/" +:+ model_string C +:+ "_epoch_"
  +:+ str_epoch e +:+ ".cpkt".

(** Modelled from the spec: [save_model] of [tabpfn.model_builder], which
    is not among the sources.  It persists the tuple (model state, optimizer
    state, scheduler state, configuration) as the file [file_name]; the call
    may raise, in which case no file appears. *)
Definition save_model (file_name : string) (saved : run_fields) : M unit :=
  outside E SaveModelCall;;
  create file_name;;
  emit (SaveModel file_name saved).

(** *** The first [try] block: the per-epoch log line *)

Definition log_epoch (e : epoch) : M unit :=
  try_except
    (outside E MakedirsLog;;
     mkdir log_dir;;
     outside E OpenLog;;
     create log_file;;
     loss ← lift (index (losses m) (-1));
     learning_rate ← lift (index (learning_rates m) (-1));
     emit (Append log_file (EpochLine e loss learning_rate)))
    (fun ex => emit (Print (FailedToWriteLog log_file ex))).

(** *** The metrics of an integer epoch *)

Definition report_metrics (n : Z) : M unit :=
  wallclock ← lift (index (wallclock_times m) (-1));
  let wallclock_ticker := Z.max 1 (floordiv_int wallclock (60 * 5)) in
  (if negb (no_mlflow C)
   then
     outside E (LogMetricCall "wallclock_time");;
     emit (LogMetric "wallclock_time" (FloatMetric wallclock) n);;
     loss ← lift (index (losses m) (-1));
     outside E (LogMetricCall "loss");;
     emit (LogMetric "loss" (FloatMetric loss) n);;
     learning_rate ← lift (index (learning_rates m) (-1));
     outside E (LogMetricCall "learning_rate");;
     emit (LogMetric "learning_rate" (FloatMetric learning_rate) n);;
     outside E (LogMetricCall "wallclock_ticker");;
     emit (LogMetric "wallclock_ticker" (IntMetric wallclock_ticker) n)
   else ret tt);;
  loss ← lift (index (losses m) (-1));
  outside E ReportCall;;
  emit (Report n loss wallclock_ticker).

(** *** The second [try] block: saving and pruning *)

(** One round of the pruning loop. *)
Definition prune_one (this_loss : F) (i : Z) : M unit :=
  loss ← lift (index (losses m) (i * save_every C - 1));
  let old_file_name := epoch_file (Epoch (i * save_every C)) in
  present ← path_exists old_file_name;
  if (present : bool)
  then
    if gt loss this_loss
    then
      try_except
        (emit (Print (RemovingOld old_file_name));;
         outside E (RemoveCall old_file_name);;
         unlink old_file_name;;
         emit (Remove old_file_name))
        (fun ex => emit (Print (FailedToRemoveOld old_file_name ex)))
    else emit (Print (NotRemovingOld old_file_name loss this_loss))
  else ret tt.

(** [# remove checkpoints that are worse than current] *)
Definition prune (e : epoch) : M unit :=
  match e with
  | Epoch n =>
      if (n - save_every C >? 0)%Z
      then
        this_loss ← lift (index (losses m) (-1));
        for_each (range (n / save_every C)) (prune_one this_loss)
      else ret tt
  | _ => ret tt
  end.

(** [(epoch == "on_exit") or epoch % save_every == 0] *)
Definition save_point (e : epoch) : M bool :=
  match e with
  | OnExit => ret true
  | Epoch n =>
      if (save_every C =? 0)%Z then raise ZeroDivisionError
      else ret (n mod save_every C =? 0)%Z
  | Start =>
      raise (TypeError
               "not all arguments converted during string formatting")
  end.

(** What follows the choice of [file_name], up to the end of the [try]
    body. *)
Definition write_checkpoint (e : epoch) (file_name : string) : M unit :=
  outside E MakedirsModels;;
  mkdir models_dir;;
  outside E DiskUsage;;
  if (disk_free E <? 1024 * 1024 * 1024 * 2)%Z
  then
    emit (Print NotSavingNoDiskSpace);;
    emit (Print DiskFull)
  else
    outside E OpenLogSaving;;
    create log_file;;
    emit (Append log_file (SavingLine file_name));;
    emit (Print (SavingModelTo file_name));;
    let saved :=
      {| epoch_in_training := e; cfg_learning_rates := learning_rates m;
         cfg_losses := losses m; cfg_wallclock_times := wallclock_times m |} in
    set_config_run saved;;
    save_model file_name saved;;
    prune e.

Definition save_body (e : epoch) : M unit :=
  due ← save_point e;
  if (due : bool)
  then
    match checkpoint_dir C with
    | Some _ =>
        match e with
        | OnExit => ret tt
        | _ => write_checkpoint e slot_file
        end
    | None => write_checkpoint e (epoch_file e)
    end
  else ret tt.

Definition save_block (e : epoch) : M unit :=
  try_except (save_body e)
    (fun ex => emit (Print WritingToModelFileFailed);;
               emit (Print (TheException ex))).

(** *** [save_callback] *)

Definition save_callback (e : epoch) : M unit :=
  init_last_saved_epoch;;
  match e with
  | Start => emit (Print (StartingTraining (model_string C)))
  | _ =>
      log_epoch e;;
      match e with
      | Epoch n => report_metrics n
      | _ => ret tt
      end;;
      save_block e
  end.

End Callback.

End WithNumber.

Arguments model F : clear implicits.
Arguments world F : clear implicits.
Arguments event F : clear implicits.
Arguments message F : clear implicits.
Arguments metric F : clear implicits.
Arguments log_line F : clear implicits.
Arguments run_fields F : clear implicits.
Arguments M F A : clear implicits.

End Checkpoint.

(** ** [fit_model.py], both packages: resuming from a checkpoint *)

Module Reconcile.

Import Py.

(** Configuration values: scalars, and mappings from names to values. *)
#[warnings="-register-all"]
Inductive value : Type :=
| VNone
| VBool (b : bool)
| VInt (n : Z)
| VStr (s : string)
| VDevice (name : string)
| VDict (d : gmap string value).

(** The command-line switches the block reads. *)
Record args : Type := mkArgs {
  continue_run : bool;
  restart_scheduler : bool;
  stop_after_epochs : value
}.

Section WithCheckpoint.

(** The opaque parts of a checkpoint. *)
Variables model_state optimizer_state scheduler : Type.

(** The tuple a checkpoint file holds. *)
Definition checkpoint : Type :=
  (model_state * optimizer_state * scheduler * gmap string value)%type.

(** [torch.load(path, map_location='cpu')]: what each path holds, or the
    exception reading it raises. *)
Variable torch_load : string -> result checkpoint.

(** The dictionary comprehension that drops ['module.'] from the parameter
    names. *)
Variable strip_module_prefix : model_state -> model_state.

(** [compare_dicts] of [utils.py] reports the differences of two
    configurations on standard output (and, unless [all] is set, drops the
    run-derived keys from both); it is called on the warm-start branch
    only, and what it returns or raises there is left open. *)
Variable compare_dicts :
  gmap string value -> gmap string value -> bool ->
  result (gmap string value).

(** What the block leaves in the variables [config], [model_state],
    [optimizer_state] and [scheduler] of [main]. *)
Record resumed : Type := mkResumed {
  config : gmap string value;
  r_model_state : option model_state;
  r_optimizer_state : option optimizer_state;
  r_scheduler : option scheduler
}.

(** [tabpfn/fit_model.py], lines 71-87. *)
Definition tabpfn_resume (a : args) (device : value)
    (warm_start_weights : option string) (config : gmap string value)
    : result resumed :=
  match warm_start_weights with
  | None => Ok (mkResumed config None None None)
  | Some path =>
      '(model_state, old_optimizer_state, old_scheduler, old_config) ←
        torch_load path;
      let model_state := strip_module_prefix model_state in
      if continue_run a
      then
        let config := old_config in
        let config := <["device" := device]> config in
        let config := <["warm_start_from" := VStr path]> config in
        let optimizer_state := Some old_optimizer_state in
        let config := <["stop_after_epochs" := stop_after_epochs a]> config in
        let scheduler :=
          if negb (restart_scheduler a) then Some old_scheduler else None in
        Ok (mkResumed config (Some model_state) optimizer_state scheduler)
      else
        config ← compare_dicts config old_config true;
        Ok (mkResumed config (Some model_state) None None)
  end.

(** [config[group][key] = v]: [KeyError] when [group] is missing,
    [TypeError] when it is not a mapping. *)
Definition set_nested (config : gmap string value) (group key : string)
    (v : value) : result (gmap string value) :=
  match config !! group with
  | None => Raise (KeyError group)
  | Some (VDict d) => Ok (<[group := VDict (<[key := v]> d)]> config)
  | Some _ => Raise (TypeError "object does not support item assignment")
  end.

(** [mothernet/fit_model.py], lines 68-85. *)
Definition mothernet_resume (a : args) (device : value)
    (warm_start_weights : option string) (config : gmap string value)
    : result resumed :=
  match warm_start_weights with
  | None => Ok (mkResumed config None None None)
  | Some path =>
      '(model_state, old_optimizer_state, old_scheduler, old_config) ←
        torch_load path;
      let model_state := strip_module_prefix model_state in
      if continue_run a
      then
        let config := old_config in
        let config := <["device" := device]> config in
        config ← set_nested config "orchestration" "warm_start_from"
                   (VStr path);
        let optimizer_state := Some old_optimizer_state in
        config ← set_nested config "orchestration" "stop_after_epochs"
                   (stop_after_epochs a);
        let scheduler :=
          if negb (restart_scheduler a) then Some old_scheduler else None in
        Ok (mkResumed config (Some model_state) optimizer_state scheduler)
      else
        config ← compare_dicts config old_config false;
        Ok (mkResumed config (Some model_state) None None)
  end.

(** Modelled from the spec: [get_model] of [model_builder], which is not
    among the sources, receives [config] and [scheduler]; it trains with
    the scheduler it is given and, given [None], with one it builds from
    the configuration. *)
Definition active_scheduler (build_scheduler : gmap string value -> scheduler)
    (r : resumed) : scheduler :=
  match r_scheduler r with
  | Some s => s
  | None => build_scheduler (config r)
  end.

(** [config[group][key]] *)
Definition get_nested (config : gmap string value) (group key : string)
    : option value :=
  match config !! group with
  | Some (VDict d) => d !! key
  | _ => None
  end.

End WithCheckpoint.

Arguments config {_ _ _} r.
Arguments r_model_state {_ _ _} r.
Arguments r_optimizer_state {_ _ _} r.
Arguments r_scheduler {_ _ _} r.
Arguments mkResumed {_ _ _} config r_model_state r_optimizer_state r_scheduler.
Arguments active_scheduler {_ _ _} build_scheduler r.

End Reconcile.

(** ** [fit_model.py], both packages: the mlflow set-up *)

Module Tracking.

Import Py.

(** How the tracking server answers: whether the [k]-th call of
    [mlflow.set_experiment] raises (counting from 0), what
    [mlflow.search_runs(...)['run_id']] returns, and whether
    [mlflow.start_run] and the git look-up raise. *)
Record server : Type := mkServer {
  set_experiment_raises : nat -> bool;
  search_runs : result (list string);
  start_run_raises : bool;
  git_raises : bool
}.

Inductive run_args : Type :=
| RunId (run_id : string)
| RunName (run_name : string).

Inductive event : Type :=
| PrintNotLogging
| PrintLogging (hostname : string)
| SetTrackingUri
| SetExperiment (experiment : string)
| PrintRetry (tries : Z)
| Sleep (seconds : Z)
| SearchRuns (run_name : string)
| StartRun (a : run_args)
| LogParams
| GetModel.

Section WithServer.

Variable S : server.
Variable experiment : string.

(** The state of the retry loop: the counter [tries], the number of calls
    made to [set_experiment], and what has happened so far. *)
Record loop_state : Type := mkLoop {
  tries : Z;
  calls : nat;
  log : list event
}.

(** The loop
      [while tries < 5: try: set_experiment; break
                        except: tries += 1; print; sleep(5)]
    run for at most [fuel] rounds; [None] when the fuel runs out first.
    The bare [except] catches whatever the call raises. *)
Fixpoint set_experiment_loop (fuel : nat) (st : loop_state)
    : option loop_state :=
  match fuel with
  | O => None
  | Datatypes.S fuel =>
      if (tries st <? 5)%Z
      then
        if set_experiment_raises S (calls st)
        then
          let tries' := (tries st + 1)%Z in
          set_experiment_loop fuel
            (mkLoop tries' (Datatypes.S (calls st))
               (log st ++ [PrintRetry tries'; Sleep 5]))
        else
          Some (mkLoop (tries st) (Datatypes.S (calls st))
                  (log st ++ [SetExperiment experiment]))
      else Some st
  end.

(** What follows the loop in both files: choosing [run_args], then
    [mlflow.start_run] around [get_model].  The result is what [main] has
    done when it enters training ([GetModel] is the last event) or the
    exception that ends it. *)
Definition choose_run (continue_run create_new_run : bool)
    (model_string : string) (log : list event)
    : list event * result run_args :=
  if continue_run && negb create_new_run
  then
    let log := log ++ [SearchRuns model_string] in
    match search_runs S with
    | Raise e => (log, Raise e)
    | Ok run_ids =>
        if (1 <? Z.of_nat (length run_ids))%Z
        then (log, Raise (ValueError
                ("Found more than one run with name " +:+ model_string)))
        else
          match index run_ids 0 with
          | Raise e => (log, Raise e)
          | Ok run_id => (log, Ok (RunId run_id))
          end
    end
  else (log, Ok (RunName model_string)).

Definition start_run (a : run_args) (log : list event)
    : list event * result unit :=
  if start_run_raises S
  then (log, Raise (ExternalError "mlflow.start_run"))
  else (log ++ [StartRun a; LogParams; GetModel], Ok tt).

(** [tabpfn/fit_model.py], lines 159-193, with fuel for the loop. *)
Definition tabpfn_tracking (fuel : nat) (no_mlflow continue_run
    create_new_run : bool) (model_string : string)
    : option (list event * result unit) :=
  if negb no_mlflow
  then
    match set_experiment_loop fuel (mkLoop 0 0 [SetTrackingUri]) with
    | None => None
    | Some st =>
        match choose_run continue_run create_new_run model_string (log st) with
        | (log, Raise e) => Some (log, Raise e)
        | (log, Ok a) => Some (start_run a log)
        end
    end
  else Some ([GetModel], Ok tt).

(** [mothernet/fit_model.py], lines 90-129, with fuel for the loop. *)
Definition mothernet_tracking (fuel : nat) (no_mlflow : bool)
    (mlflow_hostname : option string) (continue_run create_new_run : bool)
    (model_string : string) : option (list event * result unit) :=
  match no_mlflow, mlflow_hostname with
  | false, Some hostname =>
      match set_experiment_loop fuel
              (mkLoop 0 0 [PrintLogging hostname; SetTrackingUri]) with
      | None => None
      | Some st =>
          match choose_run continue_run create_new_run model_string
                  (log st) with
          | (log, Raise e) => Some (log, Raise e)
          | (log, Ok a) =>
              if git_raises S
              then Some (log, Raise (ExternalError "git.Repo"))
              else Some (start_run a log)
          end
      end
  | _, _ => Some ([PrintNotLogging; GetModel], Ok tt)
  end.

End WithServer.

End Tracking.

(** ** [tabpfn/utils.py]: saving and restoring a [ReduceLROnSpike] *)

(** ** [tabpfn/utils.py]: the schedules without restarts *)

Module Cosine.

Import Py Schedule.
Local Open Scope R_scope.

(** [lr_lambda] of [get_cosine_schedule_with_warmup], on the reals. *)
Definition lr_lambda (num_warmup_steps num_training_steps : Z)
    (num_cycles : R) (current_step : Z) : R :=
  if (current_step <? num_warmup_steps)%Z
  then IZR current_step / IZR (Z.max 1 num_warmup_steps)
  else
    let progress :=
      IZR (current_step - num_warmup_steps)
      / IZR (Z.max 1 (num_training_steps - num_warmup_steps)) in
    py_max 0.0 (0.5 * (1.0 + cos (PI * num_cycles * 2.0 * progress))).

(** [get_cosine_schedule_with_warmup]; [num_cycles] defaults to [0.5] and
    [last_epoch] to [-1]. *)
Definition get_cosine_schedule_with_warmup
    (num_warmup_steps num_training_steps : Z) (num_cycles : R)
    (last_epoch : Z) : LambdaLR :=
  mkLambdaLR (lr_lambda num_warmup_steps num_training_steps num_cycles)
    last_epoch.

End Cosine.

Module Linear.

Import Py Schedule.
Local Open Scope R_scope.

(** [lr_lambda] of [get_linear_schedule_with_warmup]. *)
Definition lr_lambda (num_warmup_steps num_training_steps : Z)
    (current_step : Z) : R :=
  if (current_step <? num_warmup_steps)%Z
  then IZR current_step / IZR (Z.max 1 num_warmup_steps)
  else
    py_max 0.0
      (IZR (num_training_steps - current_step)
       / IZR (Z.max 1 (num_training_steps - num_warmup_steps))).

(** [get_linear_schedule_with_warmup]. *)
Definition get_linear_schedule_with_warmup
    (num_warmup_steps num_training_steps : Z) (last_epoch : Z) : LambdaLR :=
  mkLambdaLR (lr_lambda num_warmup_steps num_training_steps) last_epoch.

End Linear.

(** ** [tabpfn/utils.py]: [product_dict] *)

Module Grid.

(** [itertools.product] over the unpacked pools: one element from each
    pool, the last pool varying fastest. *)
Fixpoint product {A : Type} (pools : list (list A)) : list (list A) :=
  match pools with
  | [] => [[]]
  | pool :: pools =>
      flat_map (fun x => map (cons x) (product pools)) pool
  end.

(** [product_dict].  A dict is the list of its items in insertion order;
    the generator is the list of the dicts it yields, in order. *)
Definition product_dict {K V : Type} (dic : list (K * list V))
    : list (list (K * V)) :=
  let keys := map fst dic in
  let vals := map snd dic in
  map (fun instance => zip keys instance) (product vals).

End Grid.

(** ** [tabpfn/fit_model.py]: what [main] does with its arguments before
    the configuration is built *)

Module Launch.

Import Py.

(** What [args.load_file] can hold: the string given on the command line,
    or the [Path] built from the checkpoint directory and a file name. *)
Inductive file_ref : Type :=
| Str (s : string)
| PathIn (directory name : string).

(** The parsed arguments this part of [main] reads or writes. *)
Record args : Type := mkArgs {
  st_checkpoint_dir : option string;
  base_path : option string;
  continue_run : bool;
  load_file : option file_ref;
  create_new_run : bool
}.

(** The file system as [main] meets it: whether [os.makedirs(d,
    exist_ok=True)] raises, and whether a file exists in a directory. *)
Record env : Type := mkEnv {
  makedirs : string -> option exn;
  file_exists : string -> string -> bool
}.

(** The block under [# handle syne-tune restarts]. *)
Definition handle_restart (E : env) (a : args) : result args :=
  match st_checkpoint_dir a with
  | Some checkpoint_dir =>
      let a := mkArgs (st_checkpoint_dir a) (Some checkpoint_dir)
                 (continue_run a) (load_file a) (create_new_run a) in
      match makedirs E checkpoint_dir with
      | Some e => Raise e
      | None =>
          if file_exists E checkpoint_dir "checkpoint.mothernet"
          then Ok (mkArgs (st_checkpoint_dir a) (base_path a) true
                     (Some (PathIn checkpoint_dir "checkpoint.mothernet"))
                     (create_new_run a))
          else Ok a
      end
  | None => Ok a
  end.

(** [main] up to [base_path = args.base_path]: the restart block, then the
    check of [create_new_run] against [continue_run]. *)
Definition check_arguments (E : env) (a : args) : result args :=
  a ← handle_restart E a;
  if create_new_run a && negb (continue_run a)
  then Raise (ValueError
         "Specifying create-new-run makes no sense when not continuing run")
  else Ok a.

End Launch.

Module SpikeState.

Section WithValues.

(** The values attributes hold: any Python object. *)
Context {V : Type}.

(** [state_dict], as a function of [self.__dict__]: the comprehension keeps
    every item whose key is not ['optimizer']. *)
Definition state_dict (self_dict : gmap string V) : gmap string V :=
  filter (fun kv : string * V => kv.1 <> "optimizer") self_dict.

(** [load_state_dict]: [self.__dict__.update(state_dict)] overwrites the
    entries the argument has, adds those the instance lacked and leaves the
    others.  The result is the instance's [__dict__] after the call. *)
Definition load_state_dict (self_dict state : gmap string V)
    : gmap string V :=
  state ∪ self_dict.

End WithValues.

End SpikeState.

(** ** Statement vocabulary and reference inputs *)

(** The total step count is evenly divisible by the period: the period is
    not zero and leaves no remainder. *)
Definition evenly_divisible (num_training_steps steps_per_restart : Z) : Prop :=
  steps_per_restart <> 0%Z /\ (steps_per_restart | num_training_steps)%Z.

(** What [_reduce_lr] makes of one group whose lower bound is [m]. *)
Definition reduced (factor eps : R) (g : Spike.param_group) (m : R)
    : Spike.param_group :=
  let new_lr := Schedule.py_max (Spike.lr g * factor) m in
  if Rgt_dec (Spike.lr g - new_lr) eps then Spike.with_lr g new_lr else g.

(** *** Reference inputs *)

(** A scheduler over one parameter group, as [load_state_dict] can restore
    it: factor 0.1, the given [eps], rate, lower bound, window length and
    window. *)
Definition a_scheduler (eps lr0 min_lr0 : R) (smoothing : Z)
    (window : list R) : Spike.ReduceLROnSpike :=
  {| Spike.factor := 0.1%R;
     Spike.optimizer := Spike.mkOptimizer [Spike.mkGroup lr0 []];
     Spike.min_lrs := [min_lr0];
     Spike.smoothing := smoothing;
     Spike.verbose := false;
     Spike.mode := "min";
     Spike.threshold := Spike.GlobalName "threshold";
     Spike.threshold_mode := Spike.GlobalName "threshold_mode";
     Spike.eps := eps;
     Spike.last_epoch := 0;
     Spike.recent_losses := window;
     Spike.recent_loses := None;
     Spike._last_lr := None;
     Spike.stdout := [] |}.

(** [min_lr] passes the length check of [__init__]: it is a scalar, or a
    list with one entry per parameter group. *)
Definition min_lr_fits (opt : Spike.Optimizer) (min_lr : Spike.min_lr_arg)
    : Prop :=
  match min_lr with
  | Spike.Scalar _ => True
  | Spike.Sequence l => length l = length (Spike.param_groups opt)
  end.

(** Between two worlds no checkpoint has been written: the same files
    exist, the run-derived entries of [config] are the same, and every
    [save_model] call of the second was already made in the first. *)
Definition no_new_checkpoint {F : Type} (w w' : Checkpoint.world F) : Prop :=
  Checkpoint.files w' = Checkpoint.files w /\
  Checkpoint.config_run w' = Checkpoint.config_run w /\
  forall f s,
    Checkpoint.SaveModel f s ∈ Checkpoint.trace w' ->
    Checkpoint.SaveModel f s ∈ Checkpoint.trace w.

(** The same, up to the text log of the run, which may have been created. *)
Definition no_checkpoint_but_log {F : Type} (C : Checkpoint.closure)
    (w w' : Checkpoint.world F) : Prop :=
  (forall f, f <> Checkpoint.log_file C ->
     f ∈ Checkpoint.files w' <-> f ∈ Checkpoint.files w) /\
  forall f s,
    Checkpoint.SaveModel f s ∈ Checkpoint.trace w' ->
    Checkpoint.SaveModel f s ∈ Checkpoint.trace w.

(** Relations between the world before and after a statement that hold
    when nothing happens and compose along a sequence. *)
Class Frame {F : Type} (K : Checkpoint.world F -> Checkpoint.world F -> Prop)
    : Prop := {
  frame_refl : forall w, K w w;
  frame_trans : forall a b c, K a b -> K b c -> K a c
}.

(** The statement [s] keeps [K] between the world it starts in and the
    world it leaves, however it ends. *)
Definition keeps {F A : Type}
    (K : Checkpoint.world F -> Checkpoint.world F -> Prop)
    (s : Checkpoint.M F A) : Prop :=
  forall w, K w (s w).1.

(** The file [f] is removed by the pruning rounds [l]: it is the checkpoint
    of a bucket [i] of [l] whose loss is greater than [this_loss], and
    [os.remove] does not raise on it. *)
Definition pruned {F : Type} {num : Checkpoint.Number F} (E : Checkpoint.env)
    (C : Checkpoint.closure) (m : Checkpoint.model F) (this_loss : F)
    (l : list Z) (f : string) : Prop :=
  exists i loss,
    i ∈ l /\
    f = Checkpoint.epoch_file C
          (Checkpoint.Epoch (i * Checkpoint.save_every C)) /\
    Py.index (Checkpoint.losses m) (i * Checkpoint.save_every C - 1)
    = Py.Ok loss /\
    Checkpoint.gt loss this_loss = true /\
    Checkpoint.fails E (Checkpoint.RemoveCall f) = None.

(** The file a save at epoch [e] writes: the single slot when a checkpoint
    directory is configured, the file of the epoch otherwise. *)
Definition written_file (C : Checkpoint.closure) (e : Checkpoint.epoch)
    : string :=
  match Checkpoint.checkpoint_dir C with
  | Some _ => Checkpoint.slot_file C
  | None => Checkpoint.epoch_file C e
  end.

(** The world after a write to [f] that nothing has stopped, before the
    pruning. *)
Definition written {F : Type} (C : Checkpoint.closure)
    (m : Checkpoint.model F) (e : Checkpoint.epoch) (f : string)
    (w : Checkpoint.world F) : Checkpoint.world F :=
  let saved :=
    {| Checkpoint.epoch_in_training := e;
       Checkpoint.cfg_learning_rates := Checkpoint.learning_rates m;
       Checkpoint.cfg_losses := Checkpoint.losses m;
       Checkpoint.cfg_wallclock_times := Checkpoint.wallclock_times m |} in
  {| Checkpoint.files :=
       {[f]} ∪ ({[Checkpoint.log_file C]} ∪ Checkpoint.files w);
     Checkpoint.dirs := {[Checkpoint.models_dir C]} ∪ Checkpoint.dirs w;
     Checkpoint.trace :=
       Checkpoint.trace w
       ++ [Checkpoint.Append (Checkpoint.log_file C)
             (Checkpoint.SavingLine f);
           Checkpoint.Print (Checkpoint.SavingModelTo f);
           Checkpoint.SaveModel f saved];
     Checkpoint.config_run := Some saved;
     Checkpoint.last_saved_epoch := Checkpoint.last_saved_epoch w |}.

(** A run that saves every epoch into [/run/models_diff], without mlflow
    and without a single-slot checkpoint directory. *)
Definition run_closure : Checkpoint.closure :=
  Checkpoint.mkClosure "/run" "m" true None 1.

(** Surroundings in which no call raises, with 10 GiB and with 1 GiB of
    free disk space. *)
Definition healthy : Checkpoint.env :=
  Checkpoint.mkEnv (fun _ => None) (10 * 1024 * 1024 * 1024).

Definition full_disk : Checkpoint.env :=
  Checkpoint.mkEnv (fun _ => None) (1024 * 1024 * 1024).

(** A training state with the given integer losses (and the same numbers
    as learning rates and wall-clock times). *)
Definition history (l : list Z) : Checkpoint.model Z :=
  Checkpoint.mkModel l l l.

(** A world in which exactly the checkpoints of the buckets [bs] exist. *)
Definition with_buckets (C : Checkpoint.closure) (bs : list Z)
    : Checkpoint.world Z :=
  Checkpoint.mkWorld
    (list_to_set
       (map (fun b => Checkpoint.epoch_file C (Checkpoint.Epoch b)) bs))
    ∅ [] None None.

(** What the retry loop records when all five attempts fail. *)
Definition five_retries : list Tracking.event :=
  [Tracking.PrintRetry 1; Tracking.Sleep 5;
   Tracking.PrintRetry 2; Tracking.Sleep 5;
   Tracking.PrintRetry 3; Tracking.Sleep 5;
   Tracking.PrintRetry 4; Tracking.Sleep 5;
   Tracking.PrintRetry 5; Tracking.Sleep 5].

(** A tracking server on which [set_experiment] always raises while every
    other call goes through, with no earlier run of the same name. *)
Definition experiment_unavailable : Tracking.server :=
  Tracking.mkServer (fun _ => true) (Py.Ok []) false false.

(** A checkpoint store with one file, [ckpt.pt], whose parts other than
    the configuration are trivial. *)
Definition one_checkpoint (old_config : gmap string Reconcile.value)
    (path : string)
    : Py.result (Reconcile.checkpoint unit unit unit) :=
  if bool_decide (path = "ckpt.pt")
  then Py.Ok (tt, tt, tt, old_config)
  else Py.Raise (Py.OSError "torch.load").

Definition an_old_config : gmap string Reconcile.value :=
  <["device" := Reconcile.VDevice "cuda:0"]>
    (<["epochs" := Reconcile.VInt 100]>
       (<["orchestration" :=
            Reconcile.VDict
              (<["stop_after_epochs" := Reconcile.VNone]>
                 (<["save_every" := Reconcile.VInt 10]> ∅))]> ∅)).

(** *** Vocabulary for the further properties *)

(** The attribute [last_saved_epoch] is the same in both worlds. *)
Definition same_last_saved_epoch {F : Type} (w w' : Checkpoint.world F)
    : Prop :=
  Checkpoint.last_saved_epoch w' = Checkpoint.last_saved_epoch w.

(** The file [f] is not lost between the two worlds. *)
Definition file_kept {F : Type} (f : string) (w w' : Checkpoint.world F)
    : Prop :=
  f ∈ Checkpoint.files w -> f ∈ Checkpoint.files w'.

(** Every file of the second world was there in the first, or is the text
    log, or is the file a save at epoch [e] writes. *)
Definition only_log_and_checkpoint_added {F : Type} (C : Checkpoint.closure)
    (e : Checkpoint.epoch) (w w' : Checkpoint.world F) : Prop :=
  forall f,
    f ∈ Checkpoint.files w' ->
    f ∈ Checkpoint.files w \/ f = Checkpoint.log_file C \/
    f = written_file C e.

(** The rounds of the pruning loop that are run: those before the first
    bucket whose loss cannot be read. *)
Fixpoint take_until_raise {F : Type} (m : Checkpoint.model F)
    (save_every : Z) (l : list Z) : list Z :=
  match l with
  | [] => []
  | i :: rest =>
      match Py.index (Checkpoint.losses m) (i * save_every - 1) with
      | Py.Ok _ => i :: take_until_raise m save_every rest
      | Py.Raise _ => []
      end
  end.

(** A run that saves every 1000 epochs, one whose [save_every] is 0, and
    surroundings in which one call raises. *)
Definition sparse_closure : Checkpoint.closure :=
  Checkpoint.mkClosure "/run" "m" true None 1000.

Definition zero_closure : Checkpoint.closure :=
  Checkpoint.mkClosure "/run" "m" true None 0.

Definition failing (c : Checkpoint.call) : Checkpoint.env :=
  Checkpoint.mkEnv
    (fun c' =>
       match c, c' with
       | Checkpoint.SaveModelCall, Checkpoint.SaveModelCall
       | Checkpoint.MakedirsLog, Checkpoint.MakedirsLog =>
           Some (Py.OSError "disk")
       | _, _ => None
       end)
    (10 * 1024 * 1024 * 1024).

(** What the retry loop records for [r] failed attempts in a row, the
    first of them being attempt number [a] (counted from 0). *)
Definition retries_from (a r : nat) : list Tracking.event :=
  flat_map
    (fun i => [Tracking.PrintRetry (Z.of_nat i + 1); Tracking.Sleep 5])
    (seq a r).

(** The checkpoint of an earlier, interrupted trial is present: a
    checkpoint directory was given and holds [checkpoint.mothernet]. *)
Definition restart_checkpoint (E : Launch.env) (a : Launch.args) : bool :=
  match Launch.st_checkpoint_dir a with
  | Some d => Launch.file_exists E d "checkpoint.mothernet"
  | None => false
  end.

(** Creating the checkpoint directory, if one was given, goes through. *)
Definition makedirs_succeeds (E : Launch.env) (a : Launch.args) : Prop :=
  forall d, Launch.st_checkpoint_dir a = Some d -> Launch.makedirs E d = None.

(** A file system on which directories can be created and the directory
    [trial] holds a checkpoint. *)
Definition trial_with_checkpoint : Launch.env :=
  Launch.mkEnv (fun _ => None)
    (fun d n => bool_decide (d = "trial") && bool_decide (n = "checkpoint.mothernet")).

(** A tracking server whose first [k] handshakes fail, with the given
    earlier runs of the model's name. *)
Definition flaky_server (k : nat) (runs : list string) : Tracking.server :=
  Tracking.mkServer (fun j => Nat.ltb j k) (Py.Ok runs) false false.

(** Surroundings in which the log directory cannot be made, so that
    opening the log file raises as well; every other call goes through.
    The disk has 10 GiB free. *)
Definition no_log_dir : Checkpoint.env :=
  Checkpoint.mkEnv
    (fun c =>
       match c with
       | Checkpoint.MakedirsLog => Some (Py.OSError "makedirs")
       | Checkpoint.OpenLog | Checkpoint.OpenLogSaving =>
           Some (Py.OSError "open")
       | _ => None
       end)
    (10 * 1024 * 1024 * 1024).

(* ===================================================================== *)
(** * Part II.  Properties                                                *)
(* ===================================================================== *)

(** ** The restarting cosine schedule *)

Section ScheduleFacts.

Import Py Schedule.
Local Open Scope R_scope.

Lemma py_max_Rmax (a b : R) : py_max a b = Rmax a b.
Proof.
  unfold py_max, Rmax.
  destruct (Rgt_dec b a), (Rle_dec a b); lra.
Qed.

Lemma py_max_ge_r (a b : R) : b <= py_max a b.
Proof. rewrite py_max_Rmax. apply Rmax_r. Qed.

Lemma py_max_ge_l (a b : R) : a <= py_max a b.
Proof. rewrite py_max_Rmax. apply Rmax_l. Qed.

(** From the second period on, [lr_lambda] is the cosine cycle without
    warmup, at the step's position inside its period. *)
Lemma lr_lambda_later (w p : Z) (c : R) (s : Z) :
  (p <= s)%Z ->
  lr_lambda w p c s = inner_lr_lambda c (s mod p) 0 p.
Proof.
  intros Hs. unfold lr_lambda.
  destruct (Z.ltb_spec s p); [lia | reflexivity].
Qed.

(** Inside the first period, [lr_lambda] is the cycle with warmup. *)
Lemma lr_lambda_first (w p : Z) (c : R) (s : Z) :
  (0 <= s < p)%Z ->
  lr_lambda w p c s = inner_lr_lambda c s w p.
Proof.
  intros Hs. unfold lr_lambda.
  rewrite Z.mod_small by lia.
  destruct (Z.ltb_spec s p); [reflexivity | lia].
Qed.

(** At the start of the second period the multiplier is 1 whatever the
    warmup, while at step 0 it is 0 as soon as there is a warmup. *)
Example lr_lambda_at_4 : lr_lambda 2 4 0.5 4 = 1.
Proof.
  unfold lr_lambda, inner_lr_lambda. simpl.
  change (4 `mod` 4 - 0)%Z with 0%Z. change (1 `max` (4 - 0))%Z with 4%Z.
  replace (PI * 0.5 * 2.0 * (0 / 4)) with 0 by lra.
  rewrite cos_0, py_max_Rmax. unfold Rmax.
  destruct (Rle_dec 0.0 (0.5 * (1.0 + 1))); lra.
Qed.

Example lr_lambda_at_0 : lr_lambda 2 4 0.5 0 = 0.
Proof.
  unfold lr_lambda, inner_lr_lambda. simpl.
  change (0 `mod` 4)%Z with 0%Z. change (1 `max` 2)%Z with 2%Z. lra.
Qed.

(** C7, as stated, fails: with two warmup steps and period 4, step 4 has
    multiplier 1 and step [4 mod 4 = 0] has multiplier 0. *)
Lemma restart_cosine_not_periodic :
  lr_lambda 2 4 0.5 4 <> lr_lambda 2 4 0.5 (4 mod 4).
Proof.
  change (4 mod 4)%Z with 0%Z.
  rewrite lr_lambda_at_4, lr_lambda_at_0. lra.
Qed.

(** C7, amended: the schedule is periodic from the second period on, where
    every period runs the cosine cycle without warmup; the warmup ramp
    belongs to the first period only; and with no warmup steps the
    multiplier at [s] is the multiplier at [s mod steps_per_restart]. *)
Theorem restart_cosine_periodic_after_first (w p : Z) (c : R) (s : Z) :
  (0 < p)%Z ->
  ((p <= s)%Z ->
     lr_lambda w p c (s + p) = lr_lambda w p c s /\
     lr_lambda w p c s = inner_lr_lambda c (s mod p) 0 p) /\
  ((0 <= s < p)%Z -> lr_lambda w p c s = inner_lr_lambda c s w p) /\
  (w = 0%Z -> lr_lambda w p c s = lr_lambda w p c (s mod p)).
Proof.
  intros Hp. split; [| split].
  - intros Hs. split.
    + rewrite !lr_lambda_later by lia.
      replace (s + p)%Z with (s + 1 * p)%Z by lia.
      now rewrite Z.mod_add by lia.
    + now apply lr_lambda_later.
  - intros Hs. now apply lr_lambda_first.
  - intros ->. unfold lr_lambda.
    rewrite Z.mod_mod by lia.
    destruct (Z.ltb_spec s p), (Z.ltb_spec (s mod p) p); reflexivity.
Qed.

Lemma restart_cosine_periodic_after_first_witness :
  (0 < 4)%Z /\
  ((4 <= 6)%Z ->
     lr_lambda 2 4 0.5 (6 + 4) = lr_lambda 2 4 0.5 6 /\
     lr_lambda 2 4 0.5 6 = inner_lr_lambda 0.5 (6 mod 4) 0 4).
Proof.
  split; [lia |].
  exact (proj1 (restart_cosine_periodic_after_first 2 4 0.5 6 ltac:(lia))).
Defined.

(** C8: construction raises exactly when the total step count is not
    evenly divisible by the restart period, and returns the schedule when
    it is; for a non-zero period the exception is the failed assertion. *)
Theorem restart_cosine_construction (w n p : Z) (c : R) (last : Z) :
  (raised (get_restarting_cosine_schedule_with_warmup w n p c last)
     <-> ~ evenly_divisible n p) /\
  (evenly_divisible n p <->
     get_restarting_cosine_schedule_with_warmup w n p c last
     = Ok (mkLambdaLR (lr_lambda w p c) last)) /\
  (p <> 0%Z /\ ~ (p | n)%Z <->
     get_restarting_cosine_schedule_with_warmup w n p c last
     = Raise AssertionError).
Proof.
  unfold get_restarting_cosine_schedule_with_warmup, evenly_divisible.
  destruct (Z.eqb_spec p 0) as [-> | Hp]; simpl.
  - repeat split; try tauto; try discriminate; intros; tauto.
  - rewrite <- (Z.mod_divide n p Hp).
    destruct (Z.eqb_spec (n mod p) 0) as [Hm | Hm]; simpl.
    + repeat split; try tauto; try discriminate; intros; tauto.
    + repeat split; try tauto; try discriminate; intros; tauto.
Qed.

Example restart_cosine_construction_ok :
  get_restarting_cosine_schedule_with_warmup 2 12 4 0.5 (-1)
  = Ok (mkLambdaLR (lr_lambda 2 4 0.5) (-1)).
Proof. reflexivity. Qed.

Example restart_cosine_construction_zero_period :
  get_restarting_cosine_schedule_with_warmup 2 10 0 0.5 (-1)
  = Raise ZeroDivisionError.
Proof. reflexivity. Qed.

Example restart_cosine_construction_fails :
  get_restarting_cosine_schedule_with_warmup 2 10 4 0.5 (-1)
  = Raise AssertionError.
Proof. reflexivity. Qed.

End ScheduleFacts.

(** ** Python list indexing *)

Section IndexFacts.

Import Py.

Lemma index_nat {A : Type} (l : list A) (i : nat) :
  index l (Z.of_nat i)
  = match l !! i with
    | Some x => Ok x
    | None => Raise IndexError
    end.
Proof.
  unfold index.
  destruct (Z.ltb_spec (Z.of_nat i) 0) as [? | _]; [lia |].
  rewrite Nat2Z.id.
  destruct (l !! i) as [x |] eqn:Hl.
  - apply lookup_lt_Some in Hl.
    destruct (Z.leb_spec 0 (Z.of_nat i)); [| lia].
    destruct (Z.ltb_spec (Z.of_nat i) (Z.of_nat (length l))); [| lia].
    reflexivity.
  - destruct (_ && _); reflexivity.
Qed.

Lemma index_last {A : Type} (l : list A) :
  index l (-1)
  = match last l with
    | Some x => Ok x
    | None => Raise IndexError
    end.
Proof.
  unfold index. simpl.
  destruct l as [| a l] using rev_ind; [reflexivity |].
  rewrite last_snoc, length_app. simpl.
  replace (Z.to_nat (-1 + Z.of_nat (length l + 1))) with (length l) by lia.
  destruct (Z.leb_spec 0 (-1 + Z.of_nat (length l + 1))); [| lia].
  destruct (Z.ltb_spec (-1 + Z.of_nat (length l + 1))
              (Z.of_nat (length l + 1))); [| lia].
  simpl. now rewrite list_lookup_middle.
Qed.

Lemma index_nonneg {A : Type} (l : list A) (i : Z) :
  (0 <= i)%Z ->
  index l i
  = match l !! Z.to_nat i with
    | Some x => Ok x
    | None => Raise IndexError
    end.
Proof.
  intros Hi. rewrite <- (Z2Nat.id i) at 1 by lia. apply index_nat.
Qed.

Example index_last_of_four : index [10; 8; 9; 5]%Z (-1) = Ok 5%Z.
Proof. reflexivity. Qed.

Example index_before_first : index [8; 9; 5]%Z (0 * 1 - 1) = Ok 5%Z.
Proof. reflexivity. Qed.

Example index_empty : index ([] : list Z) (-1) = Raise IndexError.
Proof. reflexivity. Qed.

Example index_past_end : index [8; 9; 5]%Z 3 = Raise IndexError.
Proof. reflexivity. Qed.

Example range_3 : range 3 = [0; 1; 2]%Z.
Proof. reflexivity. Qed.

End IndexFacts.

(** ** [ReduceLROnSpike]: the loop of [_reduce_lr] *)

Section ReduceFacts.

Import Py Schedule Spike.
Local Open Scope R_scope.

(** With a lower bound for every group the loop ends normally and has
    treated each group by [reduced]. *)
Lemma reduce_groups_ok (f e : R) (mins : list R) (v : bool) (ep : Z)
    (gs : list param_group) (i : nat) :
  (i + length gs <= length mins)%nat ->
  exists out,
    reduce_groups f e mins v ep i gs
    = (zip_with (reduced f e) gs (drop i mins), out, Ok tt).
Proof.
  revert i. induction gs as [| g gs IH]; intros i Hlen; simpl in *.
  - exists []. now destruct (drop i mins).
  - rewrite index_nat.
    destruct (mins !! i) as [m |] eqn:Hm.
    2: { apply lookup_ge_None in Hm. lia. }
    destruct (IH (S i) ltac:(lia)) as [out ->].
    rewrite (drop_S _ _ _ Hm). simpl.
    unfold reduced.
    destruct (Rgt_dec _ _); eexists; reflexivity.
Qed.

(** Whatever the lower bounds, and however the loop ends, it keeps the
    number of groups. *)
Lemma reduce_groups_length (f e : R) (mins : list R) (v : bool) (ep : Z)
    (gs : list param_group) (i : nat) :
  length (reduce_groups f e mins v ep i gs).1.1 = length gs.
Proof.
  revert i. induction gs as [| g gs IH]; intros i; simpl; [reflexivity |].
  destruct (index mins (Z.of_nat i)); [| reflexivity].
  specialize (IH (S i)).
  destruct (reduce_groups f e mins v ep (S i) gs) as [[gs' out] r].
  simpl in *. now rewrite IH.
Qed.

(** A rate that the loop changes ends at or above the group's lower
    bound. *)
Lemma reduce_groups_floor (f e : R) (mins : list R) (v : bool) (ep : Z)
    (gs : list param_group) (i k : nat) (g g' : param_group) :
  gs !! k = Some g ->
  (reduce_groups f e mins v ep i gs).1.1 !! k = Some g' ->
  lr g' <> lr g ->
  exists m, mins !! (i + k)%nat = Some m /\ m <= lr g'.
Proof.
  revert i k. induction gs as [| g0 gs IH]; intros i k Hg Hg' Hne;
    [discriminate |].
  simpl in Hg'. rewrite index_nat in Hg'.
  destruct (mins !! i) as [m |] eqn:Hm.
  2: { simpl in Hg'. congruence. }
  destruct (reduce_groups f e mins v ep (S i) gs) as [[gs' out] r] eqn:Hrec.
  simpl in Hg'. destruct k as [| k]; simpl in *.
  - inversion Hg; subst g0. exists m. rewrite Nat.add_0_r. split; [done |].
    destruct (Rgt_dec _ _); inversion Hg'; subst g'; simpl in *.
    + apply py_max_ge_r.
    + congruence.
  - replace (i + S k)%nat with (S i + k)%nat by lia.
    apply (IH (S i) k); [done | | done]. now rewrite Hrec.
Qed.

(** With [eps >= 0] the loop never raises a rate, and it never touches
    the other entries of a group. *)
Lemma reduce_groups_mono (f e : R) (mins : list R) (v : bool) (ep : Z)
    (gs : list param_group) (i : nat) :
  0 <= e ->
  Forall2 (fun g' g => lr g' <= lr g /\ hyper g' = hyper g)
    (reduce_groups f e mins v ep i gs).1.1 gs.
Proof.
  intros He. revert i. induction gs as [| g gs IH]; intros i; simpl.
  - constructor.
  - destruct (index mins (Z.of_nat i)) as [m | ex]; simpl.
    2: { apply Forall2_same_length_lookup_2; [done |].
         intros ? ? ? H1 H2. rewrite H1 in H2. inversion H2; subst.
         split; [lra | done]. }
    specialize (IH (S i)).
    destruct (reduce_groups f e mins v ep (S i) gs) as [[gs' out] r].
    simpl in *. constructor; [| done].
    destruct (Rgt_dec _ _); simpl; split; try done; lra.
Qed.

End ReduceFacts.

(** ** [ReduceLROnSpike.step] *)

Section StepFacts.

Import Py Schedule Spike.
Local Open Scope R_scope.

(** The three ways through [step]. *)
Lemma step_filling (self : ReduceLROnSpike) (m : R) :
  (Z.of_nat (length (recent_losses self)) < smoothing self)%Z ->
  step self m
  = (with_recent_losses (with_last_epoch self (last_epoch self + 1))
       (recent_losses self ++ [m]), Ok tt).
Proof.
  intros H. unfold step. simpl.
  destruct (Z.ltb_spec (Z.of_nat (length (recent_losses self)))
              (smoothing self)); [reflexivity | lia].
Qed.

Lemma step_quiet (self : ReduceLROnSpike) (m : R) :
  (smoothing self <= Z.of_nat (length (recent_losses self)))%Z ->
  spike (recent_losses self) m = false ->
  step self m
  = (with_last_lr
       (with_recent_loses (with_last_epoch self (last_epoch self + 1))
          (tail (recent_losses self) ++ [m])), Ok tt).
Proof.
  intros H Hs. unfold step. simpl.
  destruct (Z.ltb_spec (Z.of_nat (length (recent_losses self)))
              (smoothing self)); [lia |].
  now rewrite Hs.
Qed.

Lemma step_spiking (self : ReduceLROnSpike) (m : R) :
  (smoothing self <= Z.of_nat (length (recent_losses self)))%Z ->
  spike (recent_losses self) m = true ->
  step self m
  = let self1 := with_last_epoch self (last_epoch self + 1) in
    let self2 :=
      if verbose self
      then print self1 [ThatLossLooksBad; RecentLosses (recent_losses self);
                        CurrentLoss m]
      else self1 in
    let '(self3, r) := _reduce_lr self2 (last_epoch self + 1) in
    match r with
    | Raise e => (self3, Raise e)
    | Ok _ => (with_last_lr (with_recent_losses self3 []), Ok tt)
    end.
Proof.
  intros H Hs. unfold step. simpl.
  destruct (Z.ltb_spec (Z.of_nat (length (recent_losses self)))
              (smoothing self)); [lia |].
  now rewrite Hs.
Qed.

Lemma spike_true (w : list R) (m : R) :
  spike w m = true <-> w <> [] /\ Rabs (mean w - m) > std w.
Proof.
  unfold spike. destruct w as [| x w].
  - split; [discriminate | intros [H _]; congruence].
  - destruct (Rgt_dec _ _); split; try done; tauto.
Qed.

Lemma spike_false (w : list R) (m : R) :
  spike w m = false <-> w = [] \/ Rabs (mean w - m) <= std w.
Proof.
  unfold spike. destruct w as [| x w].
  - split; [now left | done].
  - destruct (Rgt_dec _ _); split; try done.
    + intros [? | ?]; [done | lra].
    + intros _. right. lra.
Qed.

Lemma reduce_lr_groups (self : ReduceLROnSpike) (ep : Z) :
  param_groups (optimizer (_reduce_lr self ep).1)
  = (reduce_groups (factor self) (eps self) (min_lrs self) (verbose self)
       ep 0 (param_groups (optimizer self))).1.1
  /\ factor (_reduce_lr self ep).1 = factor self
  /\ eps (_reduce_lr self ep).1 = eps self
  /\ min_lrs (_reduce_lr self ep).1 = min_lrs self.
Proof.
  unfold _reduce_lr.
  destruct (reduce_groups _ _ _ _ _ _ _) as [[gs out] r]. by simpl.
Qed.

Ltac groups_kept :=
  repeat split; first [left; reflexivity | right; reflexivity | done].

(** [step] changes the parameter groups only through the loop of
    [_reduce_lr], and never the settings of the instance. *)
Lemma step_groups (self : ReduceLROnSpike) (m : R) :
  (param_groups (optimizer (step self m).1) = param_groups (optimizer self)
   \/ param_groups (optimizer (step self m).1)
      = (reduce_groups (factor self) (eps self) (min_lrs self) (verbose self)
           (last_epoch self + 1) 0 (param_groups (optimizer self))).1.1)
  /\ factor (step self m).1 = factor self
  /\ eps (step self m).1 = eps self
  /\ min_lrs (step self m).1 = min_lrs self.
Proof.
  destruct (Z.lt_ge_cases (Z.of_nat (length (recent_losses self)))
              (smoothing self)) as [Hlt | Hge].
  { rewrite step_filling by done. simpl. groups_kept. }
  destruct (spike (recent_losses self) m) eqn:Hs.
  2: { rewrite step_quiet by done. simpl. groups_kept. }
  rewrite step_spiking by done. cbv zeta.
  destruct (verbose self) eqn:Hv;
    match goal with
    | |- context [_reduce_lr ?s ?ep] =>
        pose proof (reduce_lr_groups s ep) as (Hg & Hf & He & Hm);
        destruct (_reduce_lr s ep) as [self3 [[] | ex]]
    end;
    unfold print, with_optimizer, with_last_epoch in *; simpl in *;
    rewrite Hg, Hf, He, Hm, Hv; groups_kept.
Qed.

(** One call: a rate that changes ends at or above the group's lower
    bound; with [eps >= 0] no rate goes up. *)
Lemma step_rates (self : ReduceLROnSpike) (m : R) :
  length (rates (step self m).1) = length (rates self) /\
  (forall i r r',
      rates self !! i = Some r -> rates (step self m).1 !! i = Some r' ->
      (r' <> r -> exists mn, min_lrs self !! i = Some mn /\ mn <= r') /\
      (0 <= eps self -> r' <= r)).
Proof.
  destruct (step_groups self m) as [[Hg | Hg] _]; unfold rates; rewrite Hg.
  - split; [done |]. intros i r r' H1 H2. rewrite H1 in H2.
    inversion H2; subst. split; [done | lra].
  - split. { rewrite !length_map. apply reduce_groups_length. }
    intros i r r' H1 H2.
    rewrite list_lookup_fmap in H1, H2.
    destruct (param_groups (optimizer self) !! i) as [g |] eqn:Eg;
      [| discriminate].
    destruct ((reduce_groups _ _ _ _ _ _ _).1.1 !! i) as [g' |] eqn:Eg';
      [| discriminate].
    simpl in H1, H2. inversion H1; inversion H2; subst. split.
    + intros Hne.
      destruct (reduce_groups_floor _ _ _ _ _ _ _ _ _ _ Eg Eg' Hne)
        as [mn [? ?]].
      now exists mn.
    + intros He.
      pose proof (reduce_groups_mono (factor self) (eps self) (min_lrs self)
                    (verbose self) (last_epoch self + 1)
                    (param_groups (optimizer self)) 0 He) as HF.
      destruct (Forall2_lookup_lr _ _ _ _ _ _ HF Eg' Eg) as [? _]. done.
Qed.

End StepFacts.

(** ** [ReduceLROnSpike]: the claims about [step] *)

Section SpikeClaims.

Import Py Schedule Spike.
Local Open Scope R_scope.

(** A call that does not reduce leaves every group as it was.  While the
    window is filling the observation is appended.  With a full window and
    no spike the attribute [recent_losses] is left as it was: the slid
    window is stored under the name [recent_loses]. *)
Lemma step_no_reduction (self : ReduceLROnSpike) (m : R) :
  ((Z.of_nat (length (recent_losses self)) < smoothing self)%Z ->
     (step self m).2 = Ok tt /\
     optimizer (step self m).1 = optimizer self /\
     recent_losses (step self m).1 = recent_losses self ++ [m]) /\
  ((smoothing self <= Z.of_nat (length (recent_losses self)))%Z ->
   spike (recent_losses self) m = false ->
     (step self m).2 = Ok tt /\
     optimizer (step self m).1 = optimizer self /\
     recent_losses (step self m).1 = recent_losses self /\
     recent_loses (step self m).1
     = Some (tail (recent_losses self) ++ [m])).
Proof.
  split.
  - intros H. now rewrite step_filling.
  - intros H Hs. now rewrite step_quiet.
Qed.

Lemma quiet_window_1_3 : spike [1; 3] 2 = false.
Proof.
  apply spike_false. right.
  replace (mean [1; 3] - 2) with 0 by (unfold mean, sum; simpl; lra).
  rewrite Rabs_R0. apply sqrt_pos.
Qed.

(** C3 at the window [1; 3] of a scheduler with [smoothing = 2], observing
    2: no reduction is triggered and the rate is kept, but the window is
    still [1; 3] after the call, not the slid window [3; 2], which has been
    stored in [recent_loses]. *)
Theorem step_quiet_window_not_slid :
  let self := a_scheduler 1e-8 1 0 2 [1; 3] in
  spike (recent_losses self) 2 = false /\
  (step self 2).2 = Ok tt /\
  rates (step self 2).1 = rates self /\
  recent_losses (step self 2).1 = [1; 3] /\
  recent_losses (step self 2).1 <> tail (recent_losses self) ++ [2] /\
  recent_loses (step self 2).1 = Some [3; 2].
Proof.
  cbv zeta.
  pose proof quiet_window_1_3 as Hq.
  rewrite step_quiet by (simpl; first [lia | exact Hq]).
  simpl. repeat split; try done.
  intros H. inversion H. lra.
Qed.

(** C4: with a full window and a spike, [step] returns normally, sets
    every group's rate to [max(old_lr * factor, min_lr)] of that group
    unless the decrement [old_lr - new_lr] is not greater than [eps] (then
    the group is as it was), and empties the window. *)
Theorem step_on_spike (self : ReduceLROnSpike) (m : R) :
  (smoothing self <= Z.of_nat (length (recent_losses self)))%Z ->
  recent_losses self <> [] ->
  Rabs (mean (recent_losses self) - m) > std (recent_losses self) ->
  (length (param_groups (optimizer self)) <= length (min_lrs self))%nat ->
  (step self m).2 = Ok tt /\
  recent_losses (step self m).1 = [] /\
  length (param_groups (optimizer (step self m).1))
  = length (param_groups (optimizer self)) /\
  (forall i g,
      param_groups (optimizer self) !! i = Some g ->
      exists min_lr_i g',
        min_lrs self !! i = Some min_lr_i /\
        param_groups (optimizer (step self m).1) !! i = Some g' /\
        hyper g' = hyper g /\
        let old_lr := lr g in
        let new_lr := py_max (old_lr * factor self) min_lr_i in
        (old_lr - new_lr > eps self -> lr g' = new_lr) /\
        (~ old_lr - new_lr > eps self -> g' = g)).
Proof.
  intros Hfull Hne Hgt Hlen.
  assert (Hs : spike (recent_losses self) m = true)
    by (apply spike_true; done).
  rewrite step_spiking by done. cbv zeta.
  assert (Hgroups : forall s ep,
    factor s = factor self -> eps s = eps self -> min_lrs s = min_lrs self ->
    param_groups (optimizer s) = param_groups (optimizer self) ->
    exists out,
      _reduce_lr s ep
      = (with_optimizer s
           (zip_with (reduced (factor self) (eps self))
              (param_groups (optimizer self)) (min_lrs self)) out, Ok tt)).
  { intros s ep Hf He Hm Hg. unfold _reduce_lr. rewrite Hf, He, Hm, Hg.
    destruct (reduce_groups_ok (factor self) (eps self) (min_lrs self)
                (verbose s) ep (param_groups (optimizer self)) 0
                ltac:(simpl; lia)) as [out ->].
    rewrite drop_0. by exists out. }
  match goal with
  | |- context [_reduce_lr ?s ?ep] =>
      destruct (Hgroups s ep) as [out ->];
        [by destruct (verbose self) .. |]
  end.
  simpl. split; [done |]. split; [done |]. split.
  { rewrite length_zip_with. lia. }
  intros i g Hg.
  destruct (min_lrs self !! i) as [mn |] eqn:Hmn.
  2: { apply lookup_ge_None in Hmn. apply lookup_lt_Some in Hg. lia. }
  exists mn, (reduced (factor self) (eps self) g mn).
  split; [done |]. split.
  { rewrite lookup_zip_with, Hg. simpl. now rewrite Hmn. }
  unfold reduced. cbv zeta.
  destruct (Rgt_dec _ _); simpl; repeat split; try done.
Qed.

Lemma spiking_window_0 : spike [0] 1 = true.
Proof.
  apply spike_true. split; [done |].
  replace (mean [0] - 1) with (-1) by (unfold mean, sum; simpl; lra).
  replace (std [0]) with 0.
  - rewrite Rabs_left; lra.
  - unfold std.
    replace (mean (map (fun x => Rsqr (x - mean [0])) [0])) with 0.
    + now rewrite sqrt_0.
    + unfold mean, sum, Rsqr. simpl. lra.
Qed.

Lemma step_on_spike_witness :
  let self := a_scheduler 1e-8 1 0.5 1 [0] in
  (step self 1).2 = Ok tt /\ recent_losses (step self 1).1 = [].
Proof.
  cbv zeta.
  pose proof (proj1 (spike_true _ _) spiking_window_0) as [Hne Hgt].
  destruct (step_on_spike (a_scheduler 1e-8 1 0.5 1 [0]) 1
              ltac:(simpl; lia) Hne Hgt ltac:(simpl; lia))
    as (H1 & H2 & _).
  split; assumption.
Defined.

End SpikeClaims.

(** ** [ReduceLROnSpike]: rates over a run of [step] calls *)

Section SpikeRuns.

Import Py Schedule Spike.
Local Open Scope R_scope.

Lemma steps_settings (self : ReduceLROnSpike) (ms : list R) :
  eps (steps self ms).1 = eps self /\
  min_lrs (steps self ms).1 = min_lrs self.
Proof.
  revert self. induction ms as [| m ms IH]; intros self; simpl; [done |].
  destruct (step_groups self m) as (_ & _ & He & Hm).
  destruct (step self m) as [self' [[] | ex]]; simpl in *; [| done].
  destruct (IH self') as [-> ->]. done.
Qed.

(** C6, amended.  Over every run of [step] calls the number of groups is
    kept; a rate that has changed is at or above the lower bound configured
    for its group; and, provided [eps >= 0], no rate is above what it was
    before the run. *)
Theorem steps_rates (self : ReduceLROnSpike) (ms : list R) :
  length (rates (steps self ms).1) = length (rates self) /\
  (forall i r r',
      rates self !! i = Some r ->
      rates (steps self ms).1 !! i = Some r' ->
      (r' <> r -> exists mn, min_lrs self !! i = Some mn /\ mn <= r') /\
      (0 <= eps self -> r' <= r)).
Proof.
  revert self. induction ms as [| m ms IH]; intros self; simpl.
  - split; [done |]. intros i r r' H1 H2. rewrite H1 in H2.
    inversion H2; subst. split; [done | lra].
  - destruct (step_rates self m) as [Hlen Hstep].
    destruct (step_groups self m) as (_ & _ & He & Hm).
    destruct (step self m) as [self' [[] | ex]]; simpl in *.
    2: { split; [done |]. apply Hstep. }
    destruct (IH self') as [Hlen' Hrun].
    split; [congruence |].
    intros i r r' H1 H2.
    destruct (rates self' !! i) as [r1 |] eqn:E1.
    2: { apply lookup_ge_None in E1. apply lookup_lt_Some in H1. lia. }
    destruct (Hstep i r r1 H1 E1) as [Hfloor1 Hmono1].
    destruct (Hrun i r1 r' E1 H2) as [Hfloor2 Hmono2].
    rewrite He, Hm in *. split.
    + intros Hne. destruct (Req_dec r' r1) as [-> | Hne1].
      * now apply Hfloor1.
      * now apply Hfloor2.
    + intros H0. specialize (Hmono1 H0). specialize (Hmono2 H0). lra.
Qed.

Lemma steps_rates_witness :
  let self := a_scheduler 1e-8 1 0.5 1 [0] in
  0 <= eps self /\
  forall r', rates (steps self [1; 1]).1 !! 0%nat = Some r' -> r' <= 1.
Proof.
  cbv zeta. split; [simpl; lra |].
  intros r' H.
  exact (proj2 (proj2 (steps_rates (a_scheduler 1e-8 1 0.5 1 [0]) [1; 1])
                  0%nat 1 r' eq_refl H)
           ltac:(simpl; lra)).
Defined.

(** C6, as stated, fails for a negative [eps]: a scheduler with
    [eps = -1], rate 0.5 and lower bound 1 raises the rate to 1 on its
    first spike. *)
Lemma negative_eps_raises_rate :
  let self := a_scheduler (-1) 0.5 1 1 [0] in
  rates self = [0.5] /\
  (steps self [1]).2 = Ok tt /\
  rates (steps self [1]).1 = [1] /\
  0.5 < 1.
Proof.
  cbv zeta.
  assert (Hmax : py_max (0.5 * 0.1) 1 = 1).
  { unfold py_max. destruct (Rgt_dec _ _); lra. }
  unfold steps.
  rewrite step_spiking by (simpl; first [lia | exact spiking_window_0]).
  unfold _reduce_lr, rates. simpl. rewrite Hmax.
  destruct (Rgt_dec (0.5 - 1) (-1)); [| lra].
  simpl. repeat split; try done. lra.
Qed.

End SpikeRuns.

(** ** [ReduceLROnSpike.__init__] *)

Section InitFacts.

Import Py Spike.
Local Open Scope R_scope.

Lemma resolve_threshold :
  resolve init_locals "threshold" = Raise (NameError "threshold").
Proof. vm_compute. reflexivity. Qed.

Lemma resolve_threshold_mode :
  resolve init_locals "threshold_mode" = Raise (NameError "threshold_mode").
Proof. vm_compute. reflexivity. Qed.

Lemma getattr_init_is_better :
  getattr attrs_before_calls "_init_is_better"
  = Raise (AttributeError "_init_is_better").
Proof. vm_compute. reflexivity. Qed.

Lemma getattr_reset :
  getattr attrs_before_calls "_reset" = Raise (AttributeError "_reset").
Proof. vm_compute. reflexivity. Qed.

Example init_factor_too_large :
  init (AnOptimizer (mkOptimizer [mkGroup 1 []])) "min" 1.0 10 (Scalar 0)
    1e-8 false
  = Raise (ValueError "Factor should be < 1.0.").
Proof. unfold init. destruct (Rge_dec 1.0 1.0); [reflexivity | lra]. Qed.

Example init_not_an_optimizer :
  init (Other "dict") "min" 0.1 10 (Scalar 0) 1e-8 false
  = Raise (TypeError "dict is not an Optimizer").
Proof. unfold init. destruct (Rge_dec 0.1 1.0); [lra | reflexivity]. Qed.

(** C10, as stated, fails when [min_lr] is a list of the wrong length: the
    length check comes before the first unbound name and raises
    [ValueError]. *)
Lemma init_wrong_min_lr_length :
  (0.1 < 1.0) /\
  init (AnOptimizer (mkOptimizer [mkGroup 1 []])) "min" 0.1 10
    (Sequence [0; 0]) 1e-8 false
  = Raise (ValueError "expected 1 min_lrs, got 2").
Proof.
  split; [lra |].
  unfold init. destruct (Rge_dec 0.1 1.0); [lra |]. reflexivity.
Qed.

(** C10, amended.  [__init__] never returns an instance.  For every
    optimizer, every [factor < 1.0] and every [min_lr] that is a scalar or
    has one entry per parameter group it raises [NameError] for
    [threshold]; for a [min_lr] list of another length it raises
    [ValueError] first. *)
Theorem init_never_returns (optimizer : pyobj) (mode : string) (factor : R)
    (smoothing : Z) (min_lr : min_lr_arg) (eps : R) (verbose : bool) :
  raised (init optimizer mode factor smoothing min_lr eps verbose) /\
  (forall opt,
      optimizer = AnOptimizer opt -> factor < 1.0 ->
      (min_lr_fits opt min_lr ->
         init optimizer mode factor smoothing min_lr eps verbose
         = Raise (NameError "threshold")) /\
      (~ min_lr_fits opt min_lr ->
         exists msg,
           init optimizer mode factor smoothing min_lr eps verbose
           = Raise (ValueError msg))).
Proof.
  unfold init, min_lr_fits.
  destruct (Rge_dec factor 1.0) as [Hge | Hlt].
  { split; [exact I |]. intros opt _ Hf. lra. }
  destruct optimizer as [o | t].
  2: { split; [exact I |]. intros opt Hopt. discriminate. }
  destruct min_lr as [x | l].
  - cbv [mbind result_bind Py.bind]. rewrite resolve_threshold.
    split; [exact I |]. intros opt Hopt _. split; [done |]. intros H. tauto.
  - case_bool_decide as Hl; cbv [mbind result_bind Py.bind].
    + split; [exact I |]. intros opt Hopt _. inversion Hopt; subst.
      split; [intros H; congruence |]. intros _. eexists. reflexivity.
    + rewrite resolve_threshold.
      split; [exact I |]. intros opt Hopt _. inversion Hopt; subst.
      split; [done |]. intros H. exfalso. apply H.
      destruct (decide (length l = length (param_groups opt))); tauto.
Qed.

Lemma init_never_returns_witness :
  (0.1 < 1.0) /\
  init (AnOptimizer (mkOptimizer [mkGroup 1 []])) "min" 0.1 10 (Scalar 0)
    1e-8 false
  = Raise (NameError "threshold").
Proof.
  split; [lra |].
  exact (proj1 (proj2 (init_never_returns
                         (AnOptimizer (mkOptimizer [mkGroup 1 []])) "min" 0.1
                         10 (Scalar 0) 1e-8 false)
                  (mkOptimizer [mkGroup 1 []]) eq_refl ltac:(lra))
           I).
Defined.

End InitFacts.

(** ** File names of the checkpoint callback *)

Section FileNames.

Import Py Checkpoint.

Lemma string_length_app (s t : string) :
  String.length (s +:+ t) = (String.length s + String.length t)%nat.
Proof.
  induction s as [| a s IH]; [done |].
  change (String a s +:+ t) with (String a (s +:+ t)). simpl. by rewrite IH.
Qed.

Lemma string_app_inj_r (t s1 s2 : string) : s1 +:+ t = s2 +:+ t -> s1 = s2.
Proof.
  revert s2. induction s1 as [| a s1 IH]; intros [| b s2] H; simpl in H.
  - done.
  - apply (f_equal String.length) in H.
    rewrite !string_length_app in H. simpl in H. lia.
  - apply (f_equal String.length) in H.
    change (String a s1 +:+ t) with (String a (s1 +:+ t)) in H.
    rewrite !string_length_app in H. simpl in H.
    rewrite string_length_app in H. lia.
  - inversion H; subst. f_equal. by apply IH.
Qed.

(** Two integer epochs with the same checkpoint file are the same. *)
Lemma epoch_file_inj (C : closure) (a b : Z) :
  epoch_file C (Epoch a) = epoch_file C (Epoch b) -> a = b.
Proof.
  unfold epoch_file. simpl. intros H.
  do 4 apply String.app_inj in H.
  apply string_app_inj_r in H.
  by apply pretty_Z_inj in H.
Qed.

Lemma slot_file_not_epoch_file (C : closure) (e : epoch) :
  slot_file C <> epoch_file C e.
Proof.
  unfold slot_file, epoch_file. intros H.
  apply String.app_inj in H. discriminate.
Qed.

Lemma log_file_not_epoch_file (C : closure) (e : epoch) :
  log_file C <> epoch_file C e.
Proof.
  unfold log_file, epoch_file. intros H.
  apply String.app_inj in H. discriminate.
Qed.

Lemma log_file_not_slot_file (C : closure) : log_file C <> slot_file C.
Proof.
  unfold log_file, slot_file. intros H.
  apply String.app_inj in H. discriminate.
Qed.

End FileNames.

(** ** Statements of the callback that keep a relation between worlds *)

Section Frames.

Import Py Checkpoint.

Context {F : Type} (K : world F -> world F -> Prop) {KF : Frame K}.

Let K_refl := @frame_refl F K KF.
Let K_trans := @frame_trans F K KF.

Lemma keeps_ret {A : Type} (a : A) : keeps K (Checkpoint.ret a).
Proof. intros w. apply K_refl. Qed.

Lemma keeps_raise {A : Type} (e : exn) : keeps K (@Checkpoint.raise F A e).
Proof. intros w. apply K_refl. Qed.

Lemma keeps_lift {A : Type} (r : result A) : keeps K (@lift F A r).
Proof. intros w. apply K_refl. Qed.

Lemma keeps_outside (E : env) (c : call) : keeps K (@outside F E c).
Proof. intros w. unfold outside. destruct (fails E c); apply K_refl. Qed.

Lemma keeps_path_exists (f : string) : keeps K (@path_exists F f).
Proof. intros w. apply K_refl. Qed.

Lemma keeps_and_then {A B : Type} (s : M F A) (k : A -> M F B) :
  keeps K s -> (forall a, keeps K (k a)) -> keeps K (and_then s k).
Proof.
  intros Hs Hk w. unfold and_then. specialize (Hs w).
  destruct (s w) as [w' [a | e]]; simpl in *; [| done].
  eapply K_trans; [exact Hs | apply Hk].
Qed.

Lemma keeps_try_except (body : M F unit) (handler : exn -> M F unit) :
  keeps K body -> (forall e, keeps K (handler e)) ->
  keeps K (try_except body handler).
Proof.
  intros Hs Hk w. unfold try_except. specialize (Hs w).
  destruct (body w) as [w' [a | e]]; simpl in *; [done |].
  eapply K_trans; [exact Hs | apply Hk].
Qed.

Lemma keeps_for_each {A : Type} (xs : list A) (body : A -> M F unit) :
  (forall x, keeps K (body x)) -> keeps K (for_each xs body).
Proof.
  intros Hb. induction xs as [| x xs IH]; simpl.
  - apply keeps_ret.
  - apply keeps_and_then; [apply Hb | intros _; exact IH].
Qed.

End Frames.

(** A handler that only prints turns every outcome of the body into a
    normal return. *)
Lemma try_except_returns {F : Type} (body : Checkpoint.M F unit)
    (handler : Py.exn -> Checkpoint.M F unit) (w : Checkpoint.world F) :
  (forall e w', (handler e w').2 = Py.Ok tt) ->
  (Checkpoint.try_except body handler w).2 = Py.Ok tt.
Proof.
  intros Hh. unfold Checkpoint.try_except.
  destruct (body w) as [w' [[] | e]]; simpl; [done | apply Hh].
Qed.

(** ** The disk guard of [save_callback] *)

Section DiskGuard.

Import Py Checkpoint.

Context {F : Type} {num : Number F}.

Ltac unmonad := unfold mbind, Checkpoint.M_bind, mret, Checkpoint.M_ret.

#[global] Instance no_new_checkpoint_frame :
  Frame (@no_new_checkpoint F).
Proof.
  split.
  - intros w. by repeat split.
  - intros a b c (H1 & H2 & H3) (H4 & H5 & H6).
    repeat split; try congruence.
    intros f s H. by apply H3, H6.
Qed.

#[global] Instance no_checkpoint_but_log_frame (C : closure) :
  Frame (@no_checkpoint_but_log F C).
Proof.
  split.
  - intros w. by split.
  - intros a b c (H1 & H2) (H3 & H4). split.
    + intros f Hf. by rewrite (H3 f Hf), (H1 f Hf).
    + intros f s H. by apply H2, H4.
Qed.

Lemma no_new_checkpoint_but_log (C : closure) (a b : world F) :
  no_new_checkpoint a b -> no_checkpoint_but_log C a b.
Proof. intros (H1 & _ & H3). split; [by rewrite H1 | done]. Qed.

Lemma keeps_print (msg : message F) :
  keeps no_new_checkpoint (emit (Print msg)).
Proof.
  intros w. repeat split; simpl.
  intros f s [H | H]%elem_of_app; [done |].
  by apply list_elem_of_singleton in H.
Qed.

Lemma keeps_mkdir (d : string) : keeps no_new_checkpoint (@mkdir F d).
Proof. intros w. by repeat split. Qed.

Lemma keeps_init_last_saved_epoch :
  keeps no_new_checkpoint (@init_last_saved_epoch F).
Proof. intros w. by repeat split. Qed.

(** With less than 2 GiB free, what follows the choice of the file name
    writes nothing. *)
Lemma write_checkpoint_low_disk (E : env) (C : closure) (m : model F)
    (e : epoch) (file_name : string) :
  (disk_free E < 1024 * 1024 * 1024 * 2)%Z ->
  keeps no_new_checkpoint (write_checkpoint E C m e file_name).
Proof.
  intros Hlow. unfold write_checkpoint. unmonad.
  destruct (Z.ltb_spec (disk_free E) (1024 * 1024 * 1024 * 2)); [| lia].
  repeat first
    [ exact _ | apply keeps_outside | apply keeps_mkdir | apply keeps_print
    | apply keeps_and_then; [| | intros _] ].
Qed.

Lemma save_point_keeps (C : closure) (e : epoch) (w : world F) :
  (save_point C e w).1 = w.
Proof.
  unfold save_point. destruct e; try done.
  by destruct (save_every C =? 0)%Z.
Qed.

Lemma save_block_low_disk (E : env) (C : closure) (m : model F) (e : epoch) :
  (disk_free E < 1024 * 1024 * 1024 * 2)%Z ->
  keeps no_new_checkpoint (save_block E C m e).
Proof.
  intros Hlow. unfold save_block, save_body. unmonad.
  apply keeps_try_except; [exact _ | |].
  - apply keeps_and_then; [exact _ | |].
    + intros w. rewrite save_point_keeps. apply frame_refl.
    + intros [|]; [| apply keeps_ret; exact _].
      destruct (checkpoint_dir C); [destruct e |];
        first [ apply keeps_ret; exact _
              | by apply write_checkpoint_low_disk ].
  - intros ex. apply keeps_and_then; [exact _ | |]; intros;
      apply keeps_print.
Qed.

(** The second [try] block never lets an exception out. *)
Lemma save_block_returns (E : env) (C : closure) (m : model F) (e : epoch)
    (w : world F) :
  (save_block E C m e w).2 = Ok tt.
Proof. unfold save_block. by apply try_except_returns. Qed.

End DiskGuard.

Section DiskGuardCallback.

Import Py Checkpoint.

Context {F : Type} {num : Number F}.

Ltac unmonad := unfold mbind, Checkpoint.M_bind, mret, Checkpoint.M_ret.

Lemma keeps_weaken {A : Type} (K1 K2 : world F -> world F -> Prop)
    (s : M F A) :
  (forall a b, K1 a b -> K2 a b) -> keeps K1 s -> keeps K2 s.
Proof. intros H Hs w. apply H, Hs. Qed.

Lemma keeps_emit_but_log (C : closure) (ev : event F) :
  (forall f s, ev <> SaveModel f s) ->
  keeps (no_checkpoint_but_log C) (emit ev).
Proof.
  intros Hev w. split; simpl; [done |].
  intros f s [H | H]%elem_of_app; [done |].
  apply list_elem_of_singleton in H. by destruct (Hev f s).
Qed.

Lemma keeps_create_log (C : closure) :
  keeps (no_checkpoint_but_log C) (@create F (log_file C)).
Proof.
  intros w. split; simpl; [| done]. intros f Hf.
  rewrite elem_of_union, elem_of_singleton. tauto.
Qed.

Lemma keeps_mkdir_but_log (C : closure) (d : string) :
  keeps (no_checkpoint_but_log C) (@mkdir F d).
Proof. intros w. by split. Qed.

Ltac frame_but_log :=
  repeat first
    [ exact _ | done
    | apply keeps_outside | apply keeps_lift | apply keeps_ret
    | apply keeps_mkdir_but_log | apply keeps_create_log
    | apply keeps_emit_but_log
    | apply keeps_and_then; [| | intros ?]
    | apply keeps_try_except; [| | intros ?] ].

Lemma log_epoch_keeps (E : env) (C : closure) (m : model F) (e : epoch) :
  keeps (no_checkpoint_but_log C) (log_epoch E C m e).
Proof. unfold log_epoch. unmonad. frame_but_log. Qed.

Lemma report_metrics_keeps (E : env) (C : closure) (m : model F) (n : Z) :
  keeps (no_checkpoint_but_log C) (report_metrics E C m n).
Proof.
  unfold report_metrics. unmonad. destruct (negb (no_mlflow C));
    frame_but_log.
Qed.

Lemma log_epoch_returns (E : env) (C : closure) (m : model F) (e : epoch)
    (w : world F) :
  (log_epoch E C m e w).2 = Ok tt.
Proof. unfold log_epoch. by apply try_except_returns. Qed.

(** C5.  When the volume reports less than 2 GiB free, the saving block of
    the callback returns normally and writes no checkpoint: the files, the
    run-derived entries of [config] and the [save_model] calls are what
    they were.  At a save point whose directory and disk-usage calls
    succeed, it prints the two warning lines and nothing else.  The whole
    callback writes no checkpoint either, and whatever exception leaves it
    was raised by the metrics reporting of an integer epoch, before the
    saving block was entered. *)
Theorem disk_guard_skips_write (E : env) (C : closure) (m : model F)
    (e : epoch) (w : world F) :
  (disk_free E < 1024 * 1024 * 1024 * 2)%Z ->
  ((save_block E C m e w).2 = Ok tt /\
   no_new_checkpoint w (save_block E C m e w).1) /\
  (save_point C e w = (w, Ok true) ->
   ~ (is_Some (checkpoint_dir C) /\ e = OnExit) ->
   fails E MakedirsModels = None -> fails E DiskUsage = None ->
   trace (save_block E C m e w).1
   = trace w ++ [Print NotSavingNoDiskSpace; Print DiskFull]) /\
  (no_checkpoint_but_log C w (save_callback E C m e w).1 /\
   ((save_callback E C m e w).2 = Ok tt \/
    exists n w1, e = Epoch n /\ raised (report_metrics E C m n w1).2)).
Proof.
  intros Hlow. split; [| split].
  - split; [apply save_block_returns | by apply save_block_low_disk].
  - intros Hsp Hnot Hmk Hdu.
    unfold save_block, try_except, save_body. unmonad.
    unfold and_then at 1. rewrite Hsp.
    assert (Hw : forall f,
      write_checkpoint E C m e f w
      = ({| files := files w; dirs := {[models_dir C]} ∪ dirs w;
            trace := trace w ++ [Print NotSavingNoDiskSpace; Print DiskFull];
            config_run := config_run w;
            last_saved_epoch := last_saved_epoch w |}, Ok tt)).
    { intros f. unfold write_checkpoint. unmonad.
      unfold and_then, outside, mkdir, emit. rewrite Hmk. simpl.
      rewrite Hdu.
      destruct (Z.ltb_spec (disk_free E) (1024 * 1024 * 1024 * 2)); [| lia].
      simpl. by rewrite <- app_assoc. }
    destruct (checkpoint_dir C) as [d |]; [destruct e |];
      rewrite ?Hw; try done.
    exfalso. apply Hnot. by split.
  - split.
    + unfold save_callback. unmonad.
      apply keeps_and_then; [exact _ | |].
      { eapply keeps_weaken; [apply no_new_checkpoint_but_log |].
        apply keeps_init_last_saved_epoch. }
      intros _. destruct e.
      * apply keeps_emit_but_log. done.
      * apply keeps_and_then; [exact _ | apply log_epoch_keeps |].
        intros _.
        apply keeps_and_then; [exact _ | apply keeps_ret; exact _ |].
        intros _. eapply keeps_weaken; [apply no_new_checkpoint_but_log |].
        by apply save_block_low_disk.
      * apply keeps_and_then; [exact _ | apply log_epoch_keeps |].
        intros _.
        apply keeps_and_then; [exact _ | apply report_metrics_keeps |].
        intros _. eapply keeps_weaken; [apply no_new_checkpoint_but_log |].
        by apply save_block_low_disk.
    + unfold save_callback. unmonad. unfold and_then.
      unfold init_last_saved_epoch at 1. destruct e.
      * left. reflexivity.
      * left.
        match goal with
        | |- context [log_epoch E C m OnExit ?w0] =>
            pose proof (log_epoch_returns E C m OnExit w0) as Hl;
            destruct (log_epoch E C m OnExit w0) as [w1 r1]
        end.
        simpl in Hl. subst r1. simpl.
        match goal with
        | |- context [save_block E C m OnExit ?w0] =>
            pose proof (save_block_returns E C m OnExit w0) as Hs;
            destruct (save_block E C m OnExit w0) as [w2 r2]
        end.
        simpl in Hs. by subst r2.
      * match goal with
        | |- context [log_epoch E C m (Epoch n) ?w0] =>
            pose proof (log_epoch_returns E C m (Epoch n) w0) as Hl;
            destruct (log_epoch E C m (Epoch n) w0) as [w1 r1]
        end.
        simpl in Hl. subst r1. simpl.
        destruct (report_metrics E C m n w1) as [w2 [[] | ex]] eqn:Hr.
        2: { right. exists n, w1. split; [done |]. by rewrite Hr. }
        left.
        match goal with
        | |- context [save_block E C m (Epoch n) ?w0] =>
            pose proof (save_block_returns E C m (Epoch n) w0) as Hs;
            destruct (save_block E C m (Epoch n) w0) as [w3 r3]
        end.
        simpl in Hs. by subst r3.
Qed.

(** At an integer epoch the callback is its saving block, run in the world
    the log line and the metrics have left, unless the metrics raise. *)
Lemma save_callback_epoch (E : env) (C : closure) (m : model F) (n : Z)
    (w : world F) :
  exists w2,
    no_checkpoint_but_log C w w2 /\
    (save_callback E C m (Epoch n) w = save_block E C m (Epoch n) w2 \/
     exists ex, save_callback E C m (Epoch n) w = (w2, Raise ex)).
Proof.
  unfold save_callback. unmonad. unfold and_then.
  pose proof (keeps_init_last_saved_epoch w) as H0.
  destruct (init_last_saved_epoch w) as [w0 r0] eqn:E0.
  assert (r0 = Ok tt) as -> by (unfold init_last_saved_epoch in E0; congruence).
  pose proof (log_epoch_keeps E C m (Epoch n) w0) as H1.
  pose proof (log_epoch_returns E C m (Epoch n) w0) as Hl.
  destruct (log_epoch E C m (Epoch n) w0) as [w1 r1]. simpl in *. subst r1.
  pose proof (report_metrics_keeps E C m n w1) as H2.
  destruct (report_metrics E C m n w1) as [w2 [[] | ex]]; simpl in *;
    exists w2; (split;
      [ eapply frame_trans;
          [apply no_new_checkpoint_but_log, H0 |];
        eapply frame_trans; [apply H1 | apply H2]
      | ]).
  - by left.
  - right. by exists ex.
Qed.

End DiskGuardCallback.

(** ** The pruning loop of [save_callback] *)

Section Pruning.

Import Py Checkpoint.

Context {F : Type} {num : Number F}.

Ltac unmonad := unfold mbind, Checkpoint.M_bind, mret, Checkpoint.M_ret.

Lemma elem_of_range (k i : Z) : i ∈ range k <-> (0 <= i < k)%Z.
Proof.
  unfold range. rewrite list_elem_of_fmap. split.
  - intros [j [-> Hj]]. apply elem_of_seq in Hj. lia.
  - intros Hi. exists (Z.to_nat i). split; [lia |].
    apply elem_of_seq. lia.
Qed.

Lemma index_in_range {A : Type} (l : list A) (j : Z) :
  (- Z.of_nat (length l) <= j < Z.of_nat (length l))%Z ->
  exists x, index l j = Ok x.
Proof.
  intros Hj. unfold index. simpl.
  set (k := if (j <? 0)%Z then (j + Z.of_nat (length l))%Z else j).
  assert (Hk : (0 <= k < Z.of_nat (length l))%Z).
  { unfold k. destruct (Z.ltb_spec j 0); lia. }
  destruct (Z.leb_spec 0 k); [| lia].
  destruct (Z.ltb_spec k (Z.of_nat (length l))); [| lia]. simpl.
  destruct (l !! Z.to_nat k) as [x |] eqn:Hl; [by exists x |].
  apply lookup_ge_None in Hl. lia.
Qed.

Section WithRun.

Variable E : env.
Variable C : closure.
Variable m : model F.

(** One round removes at most the file of its own bucket, and only when
    the bucket's loss is greater than the current one and [os.remove]
    does not raise. *)
Lemma prune_one_files (this_loss loss : F) (i : Z) (w : world F) :
  index (losses m) (i * save_every C - 1) = Ok loss ->
  (prune_one E C m this_loss i w).2 = Ok tt /\
  forall f,
    f ∈ files (prune_one E C m this_loss i w).1 <->
    f ∈ files w /\
    ~ (f = epoch_file C (Epoch (i * save_every C)) /\
       gt loss this_loss = true /\
       fails E (RemoveCall f) = None).
Proof.
  intros Hi. unfold prune_one. unmonad.
  set (old := epoch_file C (Epoch (i * save_every C))).
  unfold and_then, lift, path_exists, try_except, emit, outside, unlink,
    Checkpoint.ret.
  simpl. rewrite Hi.
  case_bool_decide as Hin.
  2: { simpl. split; [done |]. intros f. split; [| tauto].
       intros Hf. split; [done |]. intros [-> _]. done. }
  destruct (gt loss this_loss) eqn:Hgt.
  2: { simpl. split; [done |]. intros f. split; [| tauto].
       intros Hf. split; [done |]. intros (_ & ? & _). done. }
  destruct (fails E (RemoveCall old)) as [ex |] eqn:Hrm; simpl.
  - split; [done |]. intros f. split; [| tauto].
    intros Hf. split; [done |]. intros (-> & _ & Hn). congruence.
  - split; [done |]. intros f.
    rewrite elem_of_difference, elem_of_singleton. split.
    + intros [Hf Hne]. split; [done |]. intros [-> _]. done.
    + intros [Hf Hn]. split; [done |]. intros ->. apply Hn. done.
Qed.

(** The whole loop: it returns normally when every bucket's loss can be
    read, and the files left are those not [pruned]. *)
Lemma for_each_prune_files (this_loss : F) (l : list Z) (w : world F) :
  (forall i, i ∈ l ->
     exists loss, index (losses m) (i * save_every C - 1) = Ok loss) ->
  (for_each l (prune_one E C m this_loss) w).2 = Ok tt /\
  forall f,
    f ∈ files (for_each l (prune_one E C m this_loss) w).1 <->
    f ∈ files w /\ ~ pruned E C m this_loss l f.
Proof.
  revert w. induction l as [| x l IH]; intros w Hl; simpl.
  - split; [done |]. intros f. split; [| tauto].
    intros Hf. split; [done |]. intros (i & loss & Hi & _).
    by apply not_elem_of_nil in Hi.
  - destruct (Hl x ltac:(left)) as [loss Hx].
    destruct (prune_one_files this_loss loss x w Hx) as [Hr Hf1].
    unfold and_then.
    destruct (prune_one E C m this_loss x w) as [w1 r1]. simpl in *.
    subst r1.
    destruct (IH w1) as [Hr2 Hf2].
    { intros i Hi. apply Hl. by right. }
    split; [done |]. intros f. rewrite Hf2, Hf1. split.
    + intros [[Hf Hnx] Hnl]. split; [done |].
      intros (i & li & Hi & Hfi & Hli & Hg & Hrm).
      apply elem_of_cons in Hi as [-> | Hi].
      * apply Hnx. rewrite Hx in Hli. inversion Hli; subst. done.
      * apply Hnl. exists i, li. done.
    + intros [Hf Hn]. split; [split; [done |] |].
      * intros (Hfx & Hg & Hrm). apply Hn. exists x, loss.
        split; [by left | done].
      * intros (i & li & Hi & Hrest). apply Hn. exists i, li.
        split; [by right | done].
Qed.

End WithRun.

End Pruning.

(** ** Retention after a periodic write *)

Section Retention.

Import Py Checkpoint.

Context {F : Type} {num : Number F}.

Ltac unmonad := unfold mbind, Checkpoint.M_bind, mret, Checkpoint.M_ret.

(** A write that nothing stops leaves the world [written] and goes on to
    the pruning. *)
Lemma write_checkpoint_success (E : env) (C : closure) (m : model F)
    (e : epoch) (f : string) (w : world F) :
  fails E MakedirsModels = None -> fails E DiskUsage = None ->
  fails E OpenLogSaving = None -> fails E SaveModelCall = None ->
  (1024 * 1024 * 1024 * 2 <= disk_free E)%Z ->
  write_checkpoint E C m e f w = prune E C m e (written C m e f w).
Proof.
  intros H1 H2 H3 H4 Hfree. unfold write_checkpoint, save_model. unmonad.
  destruct (Z.ltb_spec (disk_free E) (1024 * 1024 * 1024 * 2)); [lia |].
  unfold and_then, outside, mkdir, create, emit, set_config_run.
  rewrite H1. simpl. rewrite H2, H3. simpl. rewrite H4. simpl.
  unfold written. by rewrite <- !app_assoc.
Qed.

(** C1.  After a periodic write at the integer epoch [n] that nothing
    stops, with [n - save_every > 0], the saving block returns normally,
    the written file exists, and for every earlier bucket [i * save_every]
    with [0 <= i < n / save_every] whose checkpoint file existed and can be
    removed, the file is gone exactly when the loss recorded for the
    bucket, [losses[i * save_every - 1]], is greater than the current loss
    [losses[-1]].  Epochs are counted from 1, so the entry
    [i * save_every - 1] of the history is the loss of epoch
    [i * save_every]. *)
Theorem retention_after_periodic_write (E : env) (C : closure) (m : model F)
    (n : Z) (w : world F) (i : Z) (loss this_loss : F) :
  (0 < save_every C)%Z ->
  (n mod save_every C = 0)%Z ->
  (n - save_every C > 0)%Z ->
  (n - save_every C <= Z.of_nat (length (losses m)))%Z ->
  fails E MakedirsModels = None -> fails E DiskUsage = None ->
  fails E OpenLogSaving = None -> fails E SaveModelCall = None ->
  (1024 * 1024 * 1024 * 2 <= disk_free E)%Z ->
  (0 <= i < n / save_every C)%Z ->
  index (losses m) (i * save_every C - 1) = Ok loss ->
  index (losses m) (-1) = Ok this_loss ->
  fails E (RemoveCall (epoch_file C (Epoch (i * save_every C)))) = None ->
  epoch_file C (Epoch (i * save_every C)) ∈ files w ->
  (save_block E C m (Epoch n) w).2 = Ok tt /\
  (epoch_file C (Epoch (i * save_every C))
     ∉ files (save_block E C m (Epoch n) w).1
   <-> gt loss this_loss = true) /\
  written_file C (Epoch n) ∈ files (save_block E C m (Epoch n) w).1.
Proof.
  intros Hs Hmod Hgt Hlen H1 H2 H3 H4 Hfree Hi Hloss Hthis Hrm Hex.
  split; [apply save_block_returns |].
  set (s := save_every C) in *.
  assert (Hns : (n / s * s = n)%Z).
  { pose proof (Z.div_mod n s ltac:(lia)). lia. }
  assert (Hlookups : forall j, j ∈ range (n / s) ->
    exists l, index (losses m) (j * s - 1) = Ok l).
  { intros j Hj%elem_of_range. apply index_in_range. nia. }
  destruct (for_each_prune_files E C m this_loss (range (n / s))
              (written C m (Epoch n) (written_file C (Epoch n)) w) Hlookups)
    as [Hok Hfiles].
  assert (Hbody :
    save_block E C m (Epoch n) w
    = for_each (range (n / s)) (prune_one E C m this_loss)
        (written C m (Epoch n) (written_file C (Epoch n)) w)).
  { unfold save_block, try_except, save_body, save_point. unmonad.
    fold s. destruct (Z.eqb_spec s 0); [lia |].
    unfold and_then at 1. unfold Checkpoint.ret at 1.
    rewrite Hmod. simpl.
    assert (Hw :
      write_checkpoint E C m (Epoch n) (written_file C (Epoch n)) w
      = for_each (range (n / s)) (prune_one E C m this_loss)
          (written C m (Epoch n) (written_file C (Epoch n)) w)).
    { rewrite write_checkpoint_success by done.
      unfold prune. fold s. unmonad.
      destruct (Z.gtb_spec (n - s) 0); [| lia].
      unfold and_then at 1. unfold lift at 1. simpl.
      change (index (losses m) (-1)) with (index (losses m) (-1)%Z).
      by rewrite Hthis. }
    unfold written_file in *.
    destruct (checkpoint_dir C); rewrite Hw;
      match goal with
      | |- context [for_each ?l ?b ?w0] =>
          destruct (for_each l b w0) as [w1 r1]
      end; simpl in Hok; by subst r1. }
  rewrite Hbody. split.
  - rewrite Hfiles. split.
    + intros Hnot. destruct (gt loss this_loss) eqn:Hg; [done |].
      exfalso. apply Hnot. split.
      * unfold written. simpl. by do 2 apply elem_of_union_r.
      * intros (j & lj & Hj & Hfj & Hlj & Hgj & _).
        apply epoch_file_inj in Hfj.
        assert (j = i) by nia. subst j. fold s in Hlj.
        rewrite Hloss in Hlj. inversion Hlj; subst. congruence.
    + intros Hg [_ Hnp]. apply Hnp. exists i, loss.
      split; [apply elem_of_range; lia |]. done.
  - rewrite Hfiles. split.
    + unfold written. simpl. by apply elem_of_union_l, elem_of_singleton.
    + intros (j & lj & Hj%elem_of_range & Hfj & _).
      unfold written_file in Hfj. destruct (checkpoint_dir C).
      * by apply slot_file_not_epoch_file in Hfj.
      * apply epoch_file_inj in Hfj. fold s in Hfj. nia.
Qed.

End Retention.

(** ** The retention examples and the disk guard on concrete runs *)

Section CheckpointExamples.

Import Py Checkpoint.

Ltac by_computing :=
  refine (bool_decide_unpack _ _); vm_compute; exact I.

(** The examples of C1 with [save_every = 1].  The losses [10; 8; 9; 5]
    are those of epochs 1 to 4: saving at epoch 4 removes the checkpoints
    of epochs 1, 2 and 3.  With the losses [5; 8] of epochs 1 and 2, saving
    at epoch 2 keeps the checkpoint of epoch 1. *)
Example retention_10_8_9_5 :
  let w := with_buckets run_closure [1; 2; 3]%Z in
  let after :=
    save_callback healthy run_closure (history [10; 8; 9; 5]%Z) (Epoch 4) w in
  after.2 = Ok tt /\
  (epoch_file run_closure (Epoch 1) ∉ files (after.1)) /\
  (epoch_file run_closure (Epoch 2) ∉ files (after.1)) /\
  (epoch_file run_closure (Epoch 3) ∉ files (after.1)) /\
  epoch_file run_closure (Epoch 4) ∈ files (after.1).
Proof.
  cbv zeta. repeat split; first [by vm_compute | by_computing].
Qed.

Example retention_5_8 :
  let w := with_buckets run_closure [1]%Z in
  let after :=
    save_callback healthy run_closure (history [5; 8]%Z) (Epoch 2) w in
  after.2 = Ok tt /\
  epoch_file run_closure (Epoch 1) ∈ files (after.1) /\
  epoch_file run_closure (Epoch 2) ∈ files (after.1).
Proof.
  cbv zeta. repeat split; first [by vm_compute | by_computing].
Qed.

Lemma retention_after_periodic_write_witness :
  let w := with_buckets run_closure [1; 2; 3]%Z in
  epoch_file run_closure (Epoch 1) ∈ files w /\
  epoch_file run_closure (Epoch 1)
    ∉ files (save_block healthy run_closure (history [10; 8; 9; 5]%Z)
               (Epoch 4) w).1.
Proof.
  cbv zeta.
  assert (Hin : epoch_file run_closure (Epoch 1)
                  ∈ files (with_buckets run_closure [1; 2; 3]%Z))
    by by_computing.
  split; [exact Hin |].
  destruct (retention_after_periodic_write healthy run_closure
              (history [10; 8; 9; 5]%Z) 4
              (with_buckets run_closure [1; 2; 3]%Z)
              1 10%Z 5%Z
              ltac:(simpl; lia) ltac:(reflexivity) ltac:(simpl; lia)
              ltac:(simpl; lia) eq_refl eq_refl eq_refl eq_refl
              ltac:(simpl; lia)
              ltac:(change (4 / save_every run_closure)%Z with 4%Z; lia)
              eq_refl eq_refl eq_refl Hin)
    as (_ & Hiff & _).
  apply Hiff. reflexivity.
Defined.

Lemma disk_guard_skips_write_witness :
  let w := with_buckets run_closure [0; 1; 2]%Z in
  (disk_free full_disk < 1024 * 1024 * 1024 * 2)%Z /\
  (save_block full_disk run_closure (history [8; 9; 5]%Z) (Epoch 3) w).2
  = Ok tt /\
  no_new_checkpoint w
    (save_block full_disk run_closure (history [8; 9; 5]%Z) (Epoch 3) w).1.
Proof.
  cbv zeta.
  assert (Hlow : (disk_free full_disk < 1024 * 1024 * 1024 * 2)%Z)
    by (simpl; lia).
  split; [exact Hlow |].
  exact (proj1 (disk_guard_skips_write full_disk run_closure
                  (history [8; 9; 5]%Z) (Epoch 3)
                  (with_buckets run_closure [0; 1; 2]%Z) Hlow)).
Defined.

(** In single-slot mode the exit call writes nothing, and a periodic call
    writes the slot. *)
Example single_slot_on_exit :
  let C := mkClosure "/st" "m" true (Some "/st") 1 in
  let after :=
    save_callback healthy C (history [8; 9; 5]%Z) OnExit (with_buckets C []) in
  after.2 = Ok tt /\
  elements (files (after.1)) = ["/st/log/m.log"] /\
  trace (after.1) = [Append "/st/log/m.log" (EpochLine OnExit 5%Z 5%Z)].
Proof. cbv zeta. by vm_compute. Qed.

Example single_slot_periodic :
  let C := mkClosure "/st" "m" true (Some "/st") 1 in
  let after :=
    save_callback healthy C (history [8]%Z) (Epoch 1) (with_buckets C []) in
  after.2 = Ok tt /\ slot_file C ∈ files (after.1).
Proof. cbv zeta. split; [by vm_compute | by_computing]. Qed.

(** On the full disk the callback at epoch 3 prints the two warning lines
    after its log line and report, and leaves the three checkpoints. *)
Example disk_guard_trace :
  trace (save_callback full_disk run_closure (history [8; 9; 5]%Z) (Epoch 3)
           (with_buckets run_closure [0; 1; 2]%Z)).1
  = [Append "/run/log/m.log" (EpochLine (Epoch 3) 5%Z 5%Z);
     Report 3 5%Z 1;
     Print NotSavingNoDiskSpace; Print DiskFull].
Proof. by vm_compute. Qed.

End CheckpointExamples.

(** ** Resuming from a checkpoint *)

Section ReconcileFacts.

Import Py Reconcile.

Variables model_state optimizer_state scheduler : Type.
Variable torch_load :
  string -> result (checkpoint model_state optimizer_state scheduler).
Variable strip_module_prefix : model_state -> model_state.
Variable compare_dicts :
  gmap string value -> gmap string value -> bool ->
  result (gmap string value).
Variable build_scheduler : gmap string value -> scheduler.

Ltac resolve_lookups :=
  repeat first
    [ rewrite lookup_insert_eq
    | rewrite lookup_insert_ne by (done || discriminate) ];
  done.

Lemma set_nested_ok (config : gmap string value) (group key : string)
    (v : value) (d : gmap string value) :
  config !! group = Some (VDict d) ->
  set_nested config group key v
  = Ok (<[group := VDict (<[key := v]> d)]> config).
Proof. intros H. unfold set_nested. by rewrite H. Qed.

(** C2.  When a run is continued, the configuration taken for training is
    the one stored in the checkpoint except for three entries set from the
    invocation: the device, the warm-start path and the stop-after-epochs
    bound (top-level entries in [tabpfn], the last two inside the
    [orchestration] group in [mothernet]).  The optimizer state is the
    checkpoint's.  The checkpoint's scheduler is passed on exactly when no
    scheduler restart is requested; otherwise none is passed and the
    scheduler is built from the adopted configuration. *)
Theorem resume_adopts_checkpoint_config (a : args) (device : value)
    (path : string) (config : gmap string value) (ms : model_state)
    (os : optimizer_state) (sch : scheduler)
    (old_config : gmap string value) :
  continue_run a = true ->
  torch_load path = Ok (ms, os, sch, old_config) ->
  (exists r,
      tabpfn_resume model_state optimizer_state scheduler torch_load
        strip_module_prefix compare_dicts a device (Some path) config
      = Ok r /\
      Reconcile.config r !! "device" = Some device /\
      Reconcile.config r !! "warm_start_from" = Some (VStr path) /\
      Reconcile.config r !! "stop_after_epochs"
      = Some (stop_after_epochs a) /\
      (forall k : string,
          k <> "device" -> k <> "warm_start_from" ->
          k <> "stop_after_epochs" ->
          Reconcile.config r !! k = old_config !! k) /\
      r_optimizer_state r = Some os /\
      (r_scheduler r = Some sch <-> restart_scheduler a = false) /\
      (restart_scheduler a = true -> r_scheduler r = None) /\
      active_scheduler build_scheduler r
      = if restart_scheduler a then build_scheduler (Reconcile.config r)
        else sch) /\
  (forall orch,
      old_config !! "orchestration" = Some (VDict orch) ->
      exists r,
        mothernet_resume model_state optimizer_state scheduler torch_load
          strip_module_prefix compare_dicts a device (Some path) config
        = Ok r /\
        Reconcile.config r !! "device" = Some device /\
        get_nested (Reconcile.config r) "orchestration" "warm_start_from"
        = Some (VStr path) /\
        get_nested (Reconcile.config r) "orchestration" "stop_after_epochs"
        = Some (stop_after_epochs a) /\
        (forall k : string,
            k <> "device" -> k <> "orchestration" ->
            Reconcile.config r !! k = old_config !! k) /\
        (forall k : string,
            k <> "warm_start_from" -> k <> "stop_after_epochs" ->
            get_nested (Reconcile.config r) "orchestration" k = orch !! k) /\
        r_optimizer_state r = Some os /\
        (r_scheduler r = Some sch <-> restart_scheduler a = false) /\
        (restart_scheduler a = true -> r_scheduler r = None) /\
        active_scheduler build_scheduler r
        = if restart_scheduler a then build_scheduler (Reconcile.config r)
          else sch).
Proof.
  intros Hc Hload. split.
  - unfold tabpfn_resume. rewrite Hload. cbv [mbind result_bind Py.bind].
    rewrite Hc. eexists. split; [reflexivity |].
    unfold active_scheduler. simpl.
    split_and!; intros; try (by destruct (restart_scheduler a));
      try (split; by destruct (restart_scheduler a)); resolve_lookups.
  - intros orch Horch. unfold mothernet_resume. rewrite Hload.
    cbv [mbind result_bind Py.bind]. rewrite Hc.
    rewrite (set_nested_ok _ _ _ _ orch)
      by (by rewrite lookup_insert_ne).
    rewrite (set_nested_ok _ _ _ _ (<["warm_start_from" := VStr path]> orch))
      by (by rewrite lookup_insert_eq).
    eexists. split; [reflexivity |].
    unfold active_scheduler, get_nested. simpl.
    split_and!; intros; try (by destruct (restart_scheduler a));
      try (split; by destruct (restart_scheduler a)); resolve_lookups.
Qed.

End ReconcileFacts.

Lemma resume_adopts_checkpoint_config_witness :
  let a := Reconcile.mkArgs true false (Reconcile.VInt 50) in
  exists r,
    Reconcile.tabpfn_resume unit unit unit (one_checkpoint an_old_config)
      (fun x => x) (fun l _ _ => Py.Ok l) a (Reconcile.VDevice "cpu")
      (Some "ckpt.pt") ∅
    = Py.Ok r /\
    Reconcile.config r !! "device" = Some (Reconcile.VDevice "cpu") /\
    Reconcile.config r !! "epochs" = Some (Reconcile.VInt 100) /\
    Reconcile.r_scheduler r = Some tt.
Proof.
  cbv zeta.
  destruct (resume_adopts_checkpoint_config unit unit unit
              (one_checkpoint an_old_config) (fun x => x)
              (fun l _ _ => Py.Ok l) (fun _ => tt)
              (Reconcile.mkArgs true false (Reconcile.VInt 50))
              (Reconcile.VDevice "cpu") "ckpt.pt" ∅ tt tt tt an_old_config
              eq_refl eq_refl)
    as [(r & Hr & Hdev & _ & _ & Hrest & _ & Hsch & _) _].
  exists r. split; [exact Hr |]. split; [exact Hdev |]. split.
  - rewrite Hrest by discriminate. reflexivity.
  - apply Hsch. reflexivity.
Defined.

(** ** The experiment-tracking handshake *)

Section TrackingFacts.

Import Py Tracking.

(** The retry loop ends: with more fuel than attempts left it returns. *)
Lemma set_experiment_loop_returns (S : server) (experiment : string)
    (fuel : nat) (st : loop_state) :
  (Z.to_nat (5 - tries st) < fuel)%nat ->
  exists st',
    set_experiment_loop S experiment fuel st = Some st' /\
    (tries st' <= Z.max 5 (tries st))%Z.
Proof.
  revert st. induction fuel as [| fuel IH]; intros st Hf; [lia |]. simpl.
  destruct (Z.ltb_spec (tries st) 5).
  - destruct (set_experiment_raises S (calls st)).
    + destruct (IH (mkLoop (tries st + 1) (Datatypes.S (calls st))
                      (log st ++ [PrintRetry (tries st + 1); Sleep 5])))
        as (st' & -> & Ht); [simpl; lia |].
      exists st'. split; [done |]. simpl in Ht. lia.
    + eexists. split; [done |]. simpl. lia.
  - exists st. split; [done |]. lia.
Qed.

(** When the first five calls all raise, the loop leaves with
    [tries = 5], having printed and slept five times, and raises nothing. *)
Lemma set_experiment_loop_exhausted (S : server) (experiment : string)
    (fuel : nat) (lg : list event) :
  (forall k, (k < 5)%nat -> set_experiment_raises S k = true) ->
  (5 < fuel)%nat ->
  set_experiment_loop S experiment fuel (mkLoop 0 0 lg)
  = Some (mkLoop 5 5 (lg ++ five_retries)).
Proof.
  intros H Hf.
  do 6 (destruct fuel as [| fuel]; [lia |]).
  simpl. rewrite !H by lia. simpl.
  by rewrite <- !app_assoc.
Qed.

(** C9, as stated, fails: on a server where [set_experiment] never
    succeeds, both [main] functions leave the loop after five attempts and
    go on to [mlflow.start_run] and [get_model]; no exception is raised. *)
Lemma handshake_failure_not_surfaced :
  (forall k, set_experiment_raises experiment_unavailable k = true) /\
  tabpfn_tracking experiment_unavailable "exp" 6 false false false "m"
  = Some ([SetTrackingUri] ++ five_retries
          ++ [StartRun (RunName "m"); LogParams; GetModel], Ok tt) /\
  mothernet_tracking experiment_unavailable "exp" 6 false (Some "host")
    false false "m"
  = Some ([PrintLogging "host"; SetTrackingUri] ++ five_retries
          ++ [StartRun (RunName "m"); LogParams; GetModel], Ok tt).
Proof. split; [done |]. split; reflexivity. Qed.

(** C9, amended.  If each of the five attempts fails, the retry loop ends
    after the fifth failure without raising, and [main] goes on to choose
    the run and to start it: what it does next is what it would have done
    after a successful handshake, with the five retries in place of the
    [set_experiment] call.  In particular a new run whose
    [mlflow.start_run] does not raise enters training. *)
Theorem handshake_exhausted_continues (S : server) (experiment : string)
    (fuel : nat) (continue_run create_new_run : bool)
    (model_string : string) :
  (forall k, (k < 5)%nat -> set_experiment_raises S k = true) ->
  (5 < fuel)%nat ->
  (forall lg,
      set_experiment_loop S experiment fuel (mkLoop 0 0 lg)
      = Some (mkLoop 5 5 (lg ++ five_retries))) /\
  tabpfn_tracking S experiment fuel false continue_run create_new_run
    model_string
  = Some
      match choose_run S continue_run create_new_run model_string
              ([SetTrackingUri] ++ five_retries) with
      | (lg, Raise e) => (lg, Raise e)
      | (lg, Ok a) => start_run S a lg
      end /\
  (forall hostname,
      mothernet_tracking S experiment fuel false (Some hostname)
        continue_run create_new_run model_string
      = Some
          match choose_run S continue_run create_new_run model_string
                  ([PrintLogging hostname; SetTrackingUri] ++ five_retries)
          with
          | (lg, Raise e) => (lg, Raise e)
          | (lg, Ok a) =>
              if git_raises S then (lg, Raise (ExternalError "git.Repo"))
              else start_run S a lg
          end) /\
  (continue_run && negb create_new_run = false ->
   start_run_raises S = false ->
   tabpfn_tracking S experiment fuel false continue_run create_new_run
     model_string
   = Some ([SetTrackingUri] ++ five_retries
           ++ [StartRun (RunName model_string); LogParams; GetModel],
           Ok tt)).
Proof.
  intros H Hf.
  assert (Hloop := fun lg =>
    set_experiment_loop_exhausted S experiment fuel lg H Hf).
  split; [exact Hloop |]. split; [| split].
  - unfold tabpfn_tracking. simpl. rewrite Hloop. simpl.
    by destruct (choose_run _ _ _ _ _) as [lg [a | e]].
  - intros hostname. unfold mothernet_tracking. rewrite Hloop. simpl.
    destruct (choose_run _ _ _ _ _) as [lg [a | e]]; [| done].
    by destruct (git_raises S).
  - intros Hnew Hstart. unfold tabpfn_tracking. simpl. rewrite Hloop.
    simpl. unfold choose_run. rewrite Hnew. unfold start_run.
    rewrite Hstart. simpl. by rewrite <- ?app_assoc.
Qed.

Lemma handshake_exhausted_continues_witness :
  (forall k, (k < 5)%nat ->
     set_experiment_raises experiment_unavailable k = true) /\
  (5 < 6)%nat /\
  set_experiment_loop experiment_unavailable "exp" 6 (mkLoop 0 0 [])
  = Some (mkLoop 5 5 five_retries).
Proof.
  split; [done |]. split; [lia |].
  exact (proj1 (handshake_exhausted_continues experiment_unavailable "exp" 6
                  false false "m" (fun _ _ => eq_refl) ltac:(lia))
           []).
Defined.

End TrackingFacts.

(** ** More on the epoch callback *)

Section CallbackFrames.

Import Py Checkpoint.

Context {F : Type} {num : Number F}.

Ltac unmonad := unfold mbind, Checkpoint.M_bind, mret, Checkpoint.M_ret.

#[global] Instance same_last_saved_epoch_frame :
  Frame (@same_last_saved_epoch F).
Proof.
  split.
  - intros w. reflexivity.
  - intros a b c H1 H2. unfold same_last_saved_epoch in *. congruence.
Qed.

Ltac walk prim :=
  repeat first
    [ exact _ | prim
    | apply keeps_ret | apply keeps_raise | apply keeps_lift
    | apply keeps_outside | apply keeps_path_exists
    | apply keeps_and_then; [| | intros ?]
    | apply keeps_try_except; [| | intros ?]
    | apply keeps_for_each; [| intros ?]
    | match goal with
      | |- keeps _ (if ?b then _ else _) => destruct b
      | |- keeps _ (match ?x with _ => _ end) => destruct x
      end ].

Ltac unfold_callback :=
  unfold save_callback, log_epoch, report_metrics, save_block, save_body,
    save_point, write_checkpoint, save_model, prune, prune_one;
  unmonad; cbv zeta.

Lemma after_init_keeps_last_saved_epoch (E : env) (C : closure)
    (m : model F) (e : epoch) :
  keeps same_last_saved_epoch
    (match e with
     | Start => emit (Print (StartingTraining (model_string C)))
     | _ =>
         and_then (log_epoch E C m e)
           (fun _ =>
              and_then
                match e with
                | Epoch n => report_metrics E C m n
                | _ => Checkpoint.ret tt
                end
                (fun _ => save_block E C m e))
     end).
Proof.
  unfold_callback.
  walk ltac:(solve [unfold keeps, same_last_saved_epoch; intros;
                    reflexivity]).
Qed.

(** X1.  Whatever the epoch and the surroundings, and however the call
    ends, the callback leaves [last_saved_epoch] at 0 if the model had no
    such attribute and as it was otherwise: no save is ever recorded in
    it. *)
Theorem last_saved_epoch_never_updated (E : env) (C : closure) (m : model F)
    (e : epoch) (w : world F) :
  last_saved_epoch (save_callback E C m e w).1
  = Some (default 0%Z (last_saved_epoch w)).
Proof.
  pose proof (after_init_keeps_last_saved_epoch E C m e) as Hk.
  unfold save_callback. unmonad. unfold and_then at 1.
  unfold init_last_saved_epoch at 1.
  match goal with
  | |- context [?rest ?w0] =>
      match type of Hk with keeps _ ?s =>
        unify rest s; specialize (Hk w0)
      end
  end.
  unfold same_last_saved_epoch in Hk. rewrite Hk. simpl.
  by destruct (last_saved_epoch w).
Qed.

End CallbackFrames.

Section CallbackFiles.

Import Py Checkpoint.

Context {F : Type} {num : Number F}.

Ltac unmonad := unfold mbind, Checkpoint.M_bind, mret, Checkpoint.M_ret.

Ltac walk prim :=
  repeat first
    [ exact _ | prim
    | apply keeps_ret | apply keeps_raise | apply keeps_lift
    | apply keeps_outside | apply keeps_path_exists
    | apply keeps_and_then; [| | intros ?]
    | apply keeps_try_except; [| | intros ?]
    | apply keeps_for_each; [| intros ?]
    | match goal with
      | |- keeps _ (if ?b then _ else _) => destruct b
      | |- keeps _ (match ?x with _ => _ end) => destruct x
      end ].

Ltac unfold_callback :=
  unfold save_callback, log_epoch, report_metrics, save_block, save_body,
    save_point, write_checkpoint, save_model, prune, prune_one;
  unmonad; cbv zeta.

(** The decimal form of an integer never starts with the letter o. *)
Lemma pretty_N_go_not_o (x : N) (s t : string) :
  (forall t', s <> String (Ascii.ascii_of_nat 111) t') ->
  pretty_N_go x s <> String (Ascii.ascii_of_nat 111) t.
Proof.
  revert s. induction (N.lt_wf_0 x) as [x _ IH]; intros s Hs.
  assert (x = 0 \/ 0 < x)%N as [-> | ?] by lia.
  - rewrite pretty_N_go_0. apply Hs.
  - rewrite pretty_N_go_step by done. apply IH.
    { by apply N.div_lt. }
    intros t'. unfold pretty_N_char. by repeat case_match.
Qed.

Lemma pretty_Z_not_on_exit (n : Z) : pretty n <> "on_exit".
Proof.
  unfold pretty, pretty_Z. destruct n as [| p | p]; try done.
  unfold pretty, pretty_positive, pretty, pretty_N.
  case_decide; [done |]. by apply pretty_N_go_not_o.
Qed.

Lemma exit_file_not_epoch_file (C : closure) (n : Z) :
  epoch_file C OnExit <> epoch_file C (Epoch n).
Proof.
  unfold epoch_file. simpl. intros H.
  do 4 apply String.app_inj in H.
  apply string_app_inj_r in H.
  symmetry in H. by apply pretty_Z_not_on_exit in H.
Qed.

#[global] Instance file_kept_frame (f : string) : Frame (@file_kept F f).
Proof.
  split.
  - intros w H. exact H.
  - intros a b c H1 H2 H. apply H2, H1, H.
Qed.

#[global] Instance only_log_and_checkpoint_added_frame (C : closure)
    (e : epoch) : Frame (@only_log_and_checkpoint_added F C e).
Proof.
  split.
  - intros w f Hf. by left.
  - intros a b c H1 H2 f Hf.
    destruct (H2 f Hf) as [Hb | Hrest]; [by apply H1 | by right].
Qed.

(** X2.  The callback removes nothing but checkpoints of integer epochs of
    its own run: whatever the epoch, the surroundings and the outcome, a
    file that is not such a checkpoint and existed before the call exists
    after it.  This holds for the text log, for the single-slot checkpoint
    and for the checkpoint written on exit. *)
Theorem callback_removes_only_epoch_checkpoints (E : env) (C : closure)
    (m : model F) (e : epoch) (w : world F) (f : string) :
  (forall z, f <> epoch_file C (Epoch z)) ->
  f ∈ files w ->
  f ∈ files (save_callback E C m e w).1.
Proof.
  intros Hf. revert w. change (keeps (file_kept f) (save_callback E C m e)).
  unfold_callback.
  walk ltac:(solve
    [ unfold keeps, file_kept, emit, create, mkdir, set_config_run,
        init_last_saved_epoch; simpl; intros;
      rewrite ?elem_of_union; tauto
    | intros w Hin; unfold unlink; simpl;
      rewrite elem_of_difference, elem_of_singleton;
      split; [done | apply Hf] ]).
Qed.

(** X3.  The callback creates no file but the text log of the run and the
    checkpoint of the epoch it is called for (the single slot when a
    checkpoint directory is configured). *)
Theorem callback_creates_only_log_and_checkpoint (E : env) (C : closure)
    (m : model F) (e : epoch) (w : world F) (f : string) :
  f ∈ files (save_callback E C m e w).1 ->
  f ∈ files w \/ f = log_file C \/ f = written_file C e.
Proof.
  revert f. revert w.
  change (keeps (only_log_and_checkpoint_added C e) (save_callback E C m e)).
  unfold_callback. destruct (checkpoint_dir C) eqn:Hd.
  all: walk ltac:(solve
    [ unfold keeps, only_log_and_checkpoint_added, written_file, emit,
        create, mkdir, set_config_run, init_last_saved_epoch, unlink;
      simpl; intros ? ?; rewrite Hd;
      rewrite ?elem_of_union, ?elem_of_difference, ?elem_of_singleton;
      tauto ]).
Qed.

End CallbackFiles.

Lemma callback_removes_only_epoch_checkpoints_witness :
  Checkpoint.epoch_file run_closure Checkpoint.OnExit
    ∈ Checkpoint.files (Checkpoint.save_callback healthy run_closure (history [8; 9; 5]%Z)
               (Checkpoint.Epoch 3)
               (Checkpoint.mkWorld {[Checkpoint.epoch_file run_closure Checkpoint.OnExit]} ∅ [] None None)).1.
Proof.
  apply (callback_removes_only_epoch_checkpoints healthy run_closure
           (history [8; 9; 5]%Z) (Checkpoint.Epoch 3)
           (Checkpoint.mkWorld {[Checkpoint.epoch_file run_closure Checkpoint.OnExit]} ∅ [] None None)
           (Checkpoint.epoch_file run_closure Checkpoint.OnExit)).
  - intros z. apply exit_file_not_epoch_file.
  - simpl. by apply elem_of_singleton.
Defined.

Lemma callback_creates_only_log_and_checkpoint_witness :
  let w := with_buckets run_closure [0; 1; 2]%Z in
  let f := Checkpoint.epoch_file run_closure (Checkpoint.Epoch 3) in
  f ∈ Checkpoint.files
        (Checkpoint.save_callback healthy run_closure (history [8; 9; 5]%Z)
           (Checkpoint.Epoch 3) w).1 /\
  (f ∈ Checkpoint.files w \/ f = Checkpoint.log_file run_closure \/
   f = written_file run_closure (Checkpoint.Epoch 3)).
Proof.
  cbv zeta.
  assert (H : Checkpoint.epoch_file run_closure (Checkpoint.Epoch 3)
              ∈ Checkpoint.files
                  (Checkpoint.save_callback healthy run_closure
                     (history [8; 9; 5]%Z) (Checkpoint.Epoch 3)
                     (with_buckets run_closure [0; 1; 2]%Z)).1).
  { refine (bool_decide_unpack _ _). vm_compute. exact I. }
  split; [exact H |].
  exact (callback_creates_only_log_and_checkpoint healthy run_closure
           (history [8; 9; 5]%Z) (Checkpoint.Epoch 3)
           (with_buckets run_closure [0; 1; 2]%Z) _ H).
Defined.

Section CallbackEdges.

Import Py Checkpoint.

Context {F : Type} {num : Number F}.

Ltac unmonad := unfold mbind, Checkpoint.M_bind, mret, Checkpoint.M_ret.

(** X4.  At an integer epoch that is not a multiple of a non-zero
    [save_every], the saving block does nothing at all, and the whole
    callback writes no checkpoint. *)
Theorem off_period_epoch_saves_nothing (E : env) (C : closure) (m : model F)
    (n : Z) (w : world F) :
  save_every C <> 0%Z ->
  (n mod save_every C)%Z <> 0%Z ->
  save_block E C m (Epoch n) w = (w, Ok tt) /\
  no_checkpoint_but_log C w (save_callback E C m (Epoch n) w).1.
Proof.
  intros Hs Hmod.
  assert (Hb : forall w0, save_block E C m (Epoch n) w0 = (w0, Ok tt)).
  { intros w0. unfold save_block, try_except, save_body, save_point.
    unmonad. destruct (Z.eqb_spec (save_every C) 0); [done |].
    unfold and_then, Checkpoint.ret.
    by destruct (Z.eqb_spec (n mod save_every C) 0). }
  split; [apply Hb |].
  destruct (save_callback_epoch E C m n w) as (w2 & Hk & [-> | [ex ->]]).
  - by rewrite Hb.
  - done.
Qed.

(** X5.  With [save_every = 0] the remainder raises at every integer
    epoch; the block catches it, prints the failure and returns without
    having touched a file. *)
Theorem zero_save_every_is_caught (E : env) (C : closure) (m : model F)
    (n : Z) (w : world F) :
  save_every C = 0%Z ->
  (save_block E C m (Epoch n) w).2 = Ok tt /\
  files (save_block E C m (Epoch n) w).1 = files w /\
  config_run (save_block E C m (Epoch n) w).1 = config_run w /\
  trace (save_block E C m (Epoch n) w).1
  = trace w ++ [Print WritingToModelFileFailed;
                Print (TheException ZeroDivisionError)].
Proof.
  intros Hs. unfold save_block, try_except, save_body, save_point.
  unmonad. rewrite Hs. simpl. by rewrite <- app_assoc.
Qed.

(** The exit call without a checkpoint directory, when nothing stops the
    write. *)
Lemma save_block_on_exit (E : env) (C : closure) (m : model F)
    (w : world F) :
  checkpoint_dir C = None ->
  fails E MakedirsModels = None -> fails E DiskUsage = None ->
  fails E OpenLogSaving = None -> fails E SaveModelCall = None ->
  (1024 * 1024 * 1024 * 2 <= disk_free E)%Z ->
  save_block E C m OnExit w
  = (written C m OnExit (epoch_file C OnExit) w, Ok tt).
Proof.
  intros Hd H1 H2 H3 H4 Hfree.
  unfold save_block, try_except, save_body, save_point. unmonad.
  unfold and_then at 1. unfold Checkpoint.ret at 1. rewrite Hd.
  by rewrite write_checkpoint_success.
Qed.

(** X6.  The exit call.  Without a checkpoint directory, and when no call
    raises and the disk has room, it writes the checkpoint
    [..._epoch_on_exit.cpkt] and prunes nothing, whatever the losses.  With
    a checkpoint directory it leaves the world as it is. *)
Theorem exit_call_saves_once (E : env) (C : closure) (m : model F)
    (w : world F) :
  (checkpoint_dir C = None ->
   fails E MakedirsModels = None -> fails E DiskUsage = None ->
   fails E OpenLogSaving = None -> fails E SaveModelCall = None ->
   (1024 * 1024 * 1024 * 2 <= disk_free E)%Z ->
   save_block E C m OnExit w
   = (written C m OnExit (epoch_file C OnExit) w, Ok tt)) /\
  (is_Some (checkpoint_dir C) -> save_block E C m OnExit w = (w, Ok tt)).
Proof.
  split.
  - apply save_block_on_exit.
  - intros [d Hd]. unfold save_block, try_except, save_body, save_point.
    unmonad. unfold and_then, Checkpoint.ret. by rewrite Hd.
Qed.

(** A periodic write that nothing stops, followed by a pruning loop whose
    look-ups all succeed, is that loop run in the [written] world. *)
Lemma save_block_periodic (E : env) (C : closure) (m : model F) (n : Z)
    (w : world F) (this_loss : F) :
  (0 < save_every C)%Z ->
  (n mod save_every C = 0)%Z ->
  (n - save_every C > 0)%Z ->
  fails E MakedirsModels = None -> fails E DiskUsage = None ->
  fails E OpenLogSaving = None -> fails E SaveModelCall = None ->
  (1024 * 1024 * 1024 * 2 <= disk_free E)%Z ->
  index (losses m) (-1) = Ok this_loss ->
  save_block E C m (Epoch n) w
  = try_except
      (for_each (range (n / save_every C)) (prune_one E C m this_loss))
      (fun ex => and_then (emit (Print WritingToModelFileFailed))
                   (fun _ => emit (Print (TheException ex))))
      (written C m (Epoch n) (written_file C (Epoch n)) w).
Proof.
  intros Hs Hmod Hgt H1 H2 H3 H4 Hfree Hthis.
  unfold save_block, save_body, save_point. unmonad.
  destruct (Z.eqb_spec (save_every C) 0); [lia |].
  unfold try_except at 1. unfold and_then at 1. unfold Checkpoint.ret at 1.
  rewrite Hmod. simpl.
  assert (Hw :
    write_checkpoint E C m (Epoch n) (written_file C (Epoch n)) w
    = for_each (range (n / save_every C)) (prune_one E C m this_loss)
        (written C m (Epoch n) (written_file C (Epoch n)) w)).
  { rewrite write_checkpoint_success by done.
    unfold prune. unmonad.
    destruct (Z.gtb_spec (n - save_every C) 0); [| lia].
    unfold and_then at 1. unfold lift at 1. simpl.
    change (index (losses m) (-1)) with (index (losses m) (-1)%Z).
    by rewrite Hthis. }
  unfold written_file in *.
  destruct (checkpoint_dir C); rewrite Hw; reflexivity.
Qed.

(** X7.  The files after a periodic write that nothing stops, at an epoch
    [n] with [n - save_every > 0] and a loss for every earlier bucket: the
    files that existed, the text log and the written checkpoint, less the
    [pruned] ones.  A removal that raises costs only its own file, and the
    configuration records the epoch and the three histories. *)
Theorem periodic_write_files (E : env) (C : closure) (m : model F) (n : Z)
    (w : world F) (this_loss : F) :
  (0 < save_every C)%Z ->
  (n mod save_every C = 0)%Z ->
  (n - save_every C > 0)%Z ->
  (n - save_every C <= Z.of_nat (length (losses m)))%Z ->
  fails E MakedirsModels = None -> fails E DiskUsage = None ->
  fails E OpenLogSaving = None -> fails E SaveModelCall = None ->
  (1024 * 1024 * 1024 * 2 <= disk_free E)%Z ->
  index (losses m) (-1) = Ok this_loss ->
  (save_block E C m (Epoch n) w).2 = Ok tt /\
  (forall f,
      f ∈ files (save_block E C m (Epoch n) w).1 <->
      (f = written_file C (Epoch n) \/ f = log_file C \/ f ∈ files w) /\
      ~ pruned E C m this_loss (range (n / save_every C)) f) /\
  config_run (save_block E C m (Epoch n) w).1
  = Some {| epoch_in_training := Epoch n;
            cfg_learning_rates := learning_rates m;
            cfg_losses := losses m;
            cfg_wallclock_times := wallclock_times m |}.
Proof.
  intros Hs Hmod Hgt Hlen H1 H2 H3 H4 Hfree Hthis.
  rewrite (save_block_periodic E C m n w this_loss) by done.
  assert (Hlookups : forall j, j ∈ range (n / save_every C) ->
    exists l, index (losses m) (j * save_every C - 1) = Ok l).
  { intros j Hj%elem_of_range. apply index_in_range.
    pose proof (Z.div_mod n (save_every C) ltac:(lia)). nia. }
  destruct (for_each_prune_files E C m this_loss (range (n / save_every C))
              (written C m (Epoch n) (written_file C (Epoch n)) w) Hlookups)
    as [Hok Hfiles].
  assert (Hcfg : config_run
            (for_each (range (n / save_every C)) (prune_one E C m this_loss)
               (written C m (Epoch n) (written_file C (Epoch n)) w)).1
          = config_run (written C m (Epoch n) (written_file C (Epoch n)) w)).
  { generalize (written C m (Epoch n) (written_file C (Epoch n)) w).
    generalize (range (n / save_every C)).
    intros l. induction l as [| x l IH]; intros w0; [done |].
    simpl. unfold and_then.
    assert (Hx : config_run (prune_one E C m this_loss x w0).1
                 = config_run w0).
    { unfold prune_one. unmonad.
      unfold and_then, lift, path_exists, try_except, emit, outside, unlink,
        Checkpoint.ret. simpl.
      destruct (index (losses m) (x * save_every C - 1)); [| done].
      case_bool_decide; [| done].
      destruct (gt a this_loss); [| done].
      by destruct (fails E (RemoveCall _)). }
    destruct (prune_one E C m this_loss x w0) as [w1 [[] | ex]];
      simpl in *; [| done].
    by rewrite IH. }
  unfold try_except.
  destruct (for_each _ _ _) as [w1 r1]. simpl in *. subst r1.
  split; [done |]. split; [| simpl; by rewrite Hcfg].
  intros f. simpl. rewrite Hfiles. unfold written. simpl.
  rewrite !elem_of_union, !elem_of_singleton. tauto.
Qed.

End CallbackEdges.

Section CallbackFailures.

Import Py Checkpoint.

Context {F : Type} {num : Number F}.

Ltac unmonad := unfold mbind, Checkpoint.M_bind, mret, Checkpoint.M_ret.

(** X8.  When [save_model] raises at a save point, the block returns
    normally and no checkpoint file appears; the failure is printed, the
    text log already holds the line announcing the save, and the
    run-derived entries of [config] have already been overwritten. *)
Theorem failed_save_is_swallowed (E : env) (C : closure) (m : model F)
    (e : epoch) (w : world F) (ex : exn) :
  save_point C e w = (w, Ok true) ->
  ~ (is_Some (checkpoint_dir C) /\ e = OnExit) ->
  fails E MakedirsModels = None -> fails E DiskUsage = None ->
  fails E OpenLogSaving = None -> fails E SaveModelCall = Some ex ->
  (1024 * 1024 * 1024 * 2 <= disk_free E)%Z ->
  let after := save_block E C m e w in
  after.2 = Ok tt /\
  files after.1 = {[log_file C]} ∪ files w /\
  trace after.1
  = trace w
    ++ [Append (log_file C) (SavingLine (written_file C e));
        Print (SavingModelTo (written_file C e));
        Print WritingToModelFileFailed; Print (TheException ex)] /\
  config_run after.1
  = Some {| epoch_in_training := e;
            cfg_learning_rates := learning_rates m;
            cfg_losses := losses m;
            cfg_wallclock_times := wallclock_times m |}.
Proof.
  intros Hsp Hnot H1 H2 H3 H4 Hfree. cbv zeta.
  assert (Hw : forall f,
    write_checkpoint E C m e f w
    = ({| files := {[log_file C]} ∪ files w;
          dirs := {[models_dir C]} ∪ dirs w;
          trace := ((trace w ++ [Append (log_file C) (SavingLine f)])
                    ++ [Print (SavingModelTo f)]);
          config_run :=
            Some {| epoch_in_training := e;
                    cfg_learning_rates := learning_rates m;
                    cfg_losses := losses m;
                    cfg_wallclock_times := wallclock_times m |};
          last_saved_epoch := last_saved_epoch w |}, Raise ex)).
  { intros f. unfold write_checkpoint, save_model. unmonad.
    destruct (Z.ltb_spec (disk_free E) (1024 * 1024 * 1024 * 2)); [lia |].
    unfold and_then, outside, mkdir, create, emit, set_config_run.
    rewrite H1. simpl. rewrite H2, H3. simpl. by rewrite H4. }
  assert (Hb :
    save_block E C m e w
    = ({| files := {[log_file C]} ∪ files w;
          dirs := {[models_dir C]} ∪ dirs w;
          trace :=
            trace w
            ++ [Append (log_file C) (SavingLine (written_file C e));
                Print (SavingModelTo (written_file C e));
                Print WritingToModelFileFailed; Print (TheException ex)];
          config_run :=
            Some {| epoch_in_training := e;
                    cfg_learning_rates := learning_rates m;
                    cfg_losses := losses m;
                    cfg_wallclock_times := wallclock_times m |};
          last_saved_epoch := last_saved_epoch w |}, Ok tt)).
  { unfold save_block, try_except, save_body. unmonad.
    unfold and_then at 1. rewrite Hsp. unfold written_file.
    destruct (checkpoint_dir C) as [d |]; [destruct e |];
      first
        [ exfalso; apply Hnot; by split
        | rewrite Hw; unfold and_then, emit; simpl;
          by rewrite <- !app_assoc ]. }
  by rewrite Hb.
Qed.

(** The pruning loop stops at the first bucket whose loss cannot be read:
    it raises [IndexError], and until then it has only removed files. *)
Lemma for_each_prune_raises (E : env) (C : closure) (m : model F)
    (this_loss : F) (l : list Z) (w : world F) :
  (exists i, i ∈ l /\
     index (losses m) (i * save_every C - 1) = Raise IndexError) ->
  (forall i, i ∈ l ->
     raised (index (losses m) (i * save_every C - 1)) ->
     index (losses m) (i * save_every C - 1) = Raise IndexError) ->
  (for_each l (prune_one E C m this_loss) w).2 = Raise IndexError /\
  forall f,
    f ∈ files (for_each l (prune_one E C m this_loss) w).1 <->
    f ∈ files w /\
    ~ pruned E C m this_loss
        (take_until_raise m (save_every C) l) f.
Proof.
  revert w. induction l as [| x l IH]; intros w [i [Hi Hfail]] Hall.
  { by apply not_elem_of_nil in Hi. }
  simpl. unfold and_then.
  destruct (index (losses m) (x * save_every C - 1)) as [loss | ex] eqn:Hx.
  - destruct (prune_one_files E C m this_loss loss x w Hx) as [Hr Hf1].
    destruct (prune_one E C m this_loss x w) as [w1 r1]. simpl in *.
    subst r1.
    destruct (IH w1) as [Hr2 Hf2].
    { apply elem_of_cons in Hi as [-> | Hi]; [congruence |]. by exists i. }
    { intros j Hj. apply Hall. by right. }
    split; [done |]. intros f. rewrite Hf2, Hf1. split.
    + intros [[Hf Hnx] Hnl]. split; [done |].
      intros (j & lj & Hj & Hfj & Hlj & Hg & Hrm).
      apply elem_of_cons in Hj as [-> | Hj].
      * apply Hnx. rewrite Hx in Hlj. inversion Hlj; subst. done.
      * apply Hnl. exists j, lj. done.
    + intros [Hf Hn]. split; [split; [done |] |].
      * intros (Hfx & Hg & Hrm). apply Hn. exists x, loss.
        split; [by left | done].
      * intros (j & lj & Hj & Hrest). apply Hn. exists j, lj.
        split; [by right | done].
  - assert (ex = IndexError) as ->.
    { specialize (Hall x ltac:(left)). rewrite Hx in Hall.
      specialize (Hall I). congruence. }
    unfold prune_one. unmonad. unfold and_then, lift. rewrite Hx. simpl.
    split; [done |]. intros f. split; [| tauto].
    intros Hf. split; [done |]. intros (j & lj & Hj & _).
    by apply not_elem_of_nil in Hj.
Qed.

End CallbackFailures.

Section CallbackFailures2.

Import Py Checkpoint.

Context {F : Type} {num : Number F}.

Ltac unmonad := unfold mbind, Checkpoint.M_bind, mret, Checkpoint.M_ret.

Lemma index_raises_IndexError {A : Type} (l : list A) (i : Z) :
  raised (index l i) -> index l i = Raise IndexError.
Proof.
  unfold index. destruct (_ && _); [| done].
  by destruct (l !! _).
Qed.

Lemma index_out_of_range {A : Type} (l : list A) (i : Z) :
  (Z.of_nat (length l) <= i)%Z -> index l i = Raise IndexError.
Proof.
  intros Hi. unfold index.
  destruct (Z.ltb_spec i 0); [lia |].
  destruct (Z.leb_spec 0 i); [| lia].
  by destruct (Z.ltb_spec i (Z.of_nat (length l))); [lia |].
Qed.

Lemma elem_of_take_until_raise (m : model F) (s : Z) (l : list Z) (j : Z) :
  j ∈ take_until_raise m s l ->
  j ∈ l /\ returned (index (losses m) (j * s - 1)).
Proof.
  induction l as [| x l IH]; simpl; [by intros ?%not_elem_of_nil |].
  destruct (index (losses m) (x * s - 1)) eqn:Hx;
    [| by intros ?%not_elem_of_nil].
  intros [-> | Hj]%elem_of_cons.
  - split; [by left | by rewrite Hx].
  - destruct (IH Hj). split; [by right | done].
Qed.

(** X9.  When the loss history is shorter than the buckets the pruning
    loop visits, the look-up of the first missing loss raises
    [IndexError] inside the block that has just written the checkpoint:
    the block returns normally, the new checkpoint exists, the failure
    message is printed all the same, and the checkpoints of the buckets
    without a recorded loss are left alone. *)
Theorem short_history_stops_pruning (E : env) (C : closure) (m : model F)
    (n : Z) (w : world F) (this_loss : F) :
  (0 < save_every C)%Z ->
  (n mod save_every C = 0)%Z ->
  (n - save_every C > 0)%Z ->
  (Z.of_nat (length (losses m)) < n - save_every C)%Z ->
  fails E MakedirsModels = None -> fails E DiskUsage = None ->
  fails E OpenLogSaving = None -> fails E SaveModelCall = None ->
  (1024 * 1024 * 1024 * 2 <= disk_free E)%Z ->
  index (losses m) (-1) = Ok this_loss ->
  let after := save_block E C m (Epoch n) w in
  after.2 = Ok tt /\
  written_file C (Epoch n) ∈ files after.1 /\
  Print WritingToModelFileFailed ∈ trace after.1 /\
  Print (TheException IndexError) ∈ trace after.1 /\
  (forall i,
      (Z.of_nat (length (losses m)) < i * save_every C)%Z ->
      epoch_file C (Epoch (i * save_every C)) ∈ files w ->
      epoch_file C (Epoch (i * save_every C)) ∈ files after.1).
Proof.
  intros Hs Hmod Hgt Hlen H1 H2 H3 H4 Hfree Hthis. cbv zeta.
  rewrite (save_block_periodic E C m n w this_loss) by done.
  set (s := save_every C) in *.
  assert (Hns : (n / s * s = n)%Z).
  { pose proof (Z.div_mod n s ltac:(lia)). lia. }
  destruct (for_each_prune_raises E C m this_loss (range (n / s))
              (written C m (Epoch n) (written_file C (Epoch n)) w))
    as [Hr Hfiles].
  { exists (n / s - 1)%Z. split; [apply elem_of_range; nia |].
    apply index_out_of_range. fold s. nia. }
  { intros i _. apply index_raises_IndexError. }
  unfold try_except.
  destruct (for_each _ _ _) as [w1 r1]. simpl in Hr, Hfiles. subst r1.
  unfold and_then, emit. simpl.
  split; [done |]. split; [| split; [| split]].
  - apply Hfiles. split.
    + unfold written. simpl. by apply elem_of_union_l, elem_of_singleton.
    + intros (j & lj & Hj & Hfj & _).
      apply elem_of_take_until_raise in Hj as [Hj%elem_of_range _].
      unfold written_file in Hfj. destruct (checkpoint_dir C).
      * by apply slot_file_not_epoch_file in Hfj.
      * apply epoch_file_inj in Hfj. nia.
  - rewrite !elem_of_app. left. right. by apply list_elem_of_singleton.
  - rewrite !elem_of_app. right. by apply list_elem_of_singleton.
  - intros i Hi Hin. apply Hfiles. split.
    + unfold written. simpl. by do 2 apply elem_of_union_r.
    + intros (j & lj & Hj & Hfj & Hlj & _).
      apply epoch_file_inj in Hfj. assert (j = i) by nia. subst j.
      rewrite index_out_of_range in Hlj by lia. done.
Qed.

(** X10.  The metrics of an integer epoch are reported outside every
    [try]: when the wall-clock history is empty, or when mlflow is in use
    and its first [log_metric] call raises, the exception leaves the
    callback, and the epoch's checkpoint is not written even at a save
    point. *)
Theorem metrics_failure_escapes (E : env) (C : closure) (m : model F)
    (n : Z) (w : world F) (ex : exn) :
  (wallclock_times m = [] /\ ex = IndexError) \/
  (wallclock_times m <> [] /\ no_mlflow C = false /\
   fails E (LogMetricCall "wallclock_time") = Some ex) ->
  (save_callback E C m (Epoch n) w).2 = Raise ex /\
  no_checkpoint_but_log C w (save_callback E C m (Epoch n) w).1.
Proof.
  intros Hcase.
  assert (Hm : forall w1, (report_metrics E C m n w1).2 = Raise ex).
  { intros w1. unfold report_metrics. unmonad.
    destruct Hcase as [[Hw ->] | (Hw & Hno & Hf)].
    - unfold and_then, lift. by rewrite Hw.
    - destruct (index_in_range (wallclock_times m) (-1)) as [x Hx].
      { destruct (wallclock_times m); [done | simpl; lia]. }
      unfold and_then at 1. unfold lift at 1.
      change (index (wallclock_times m) (-1))
        with (index (wallclock_times m) (-1)%Z).
      rewrite Hx, Hno. simpl.
      unfold and_then, outside. by rewrite Hf. }
  destruct (save_callback_epoch E C m n w) as (w2 & Hk & Hcb).
  assert (Hraise : (save_callback E C m (Epoch n) w).2 = Raise ex).
  { unfold save_callback. unmonad. unfold and_then.
    unfold init_last_saved_epoch at 1.
    match goal with
    | |- context [log_epoch E C m (Epoch n) ?w0] =>
        pose proof (log_epoch_returns E C m (Epoch n) w0) as Hl;
        destruct (log_epoch E C m (Epoch n) w0) as [w1 r1]
    end.
    simpl in Hl. subst r1. simpl.
    specialize (Hm w1).
    destruct (report_metrics E C m n w1) as [w3 r3]. simpl in Hm.
    by subst r3. }
  split; [done |].
  destruct Hcb as [Hcb | [ex' Hcb]]; rewrite Hcb in *; [| done].
  by rewrite save_block_returns in Hraise.
Qed.

(** X11.  The log line and the exit save.  A failure of the log line that
    comes from the history (no loss recorded yet) is confined to its own
    [try]: the exit call prints the failure and still writes the exit
    checkpoint.  A failure that comes from the log directory is met again
    inside the saving [try], which appends its announcement to the same
    file before it saves: when that [open] raises too, the exit call prints
    both failures and returns normally without a checkpoint. *)
Theorem log_failure_and_exit_save (E : env) (C : closure) (m : model F)
    (w : world F) :
  checkpoint_dir C = None ->
  fails E MakedirsModels = None -> fails E DiskUsage = None ->
  (1024 * 1024 * 1024 * 2 <= disk_free E)%Z ->
  let after := save_callback E C m OnExit w in
  (losses m = [] ->
   fails E MakedirsLog = None -> fails E OpenLog = None ->
   fails E OpenLogSaving = None -> fails E SaveModelCall = None ->
   after.2 = Ok tt /\
   epoch_file C OnExit ∈ files after.1 /\
   trace after.1
   = trace w
     ++ [Print (FailedToWriteLog (log_file C) IndexError);
         Append (log_file C) (SavingLine (epoch_file C OnExit));
         Print (SavingModelTo (epoch_file C OnExit));
         SaveModel (epoch_file C OnExit)
           {| epoch_in_training := OnExit;
              cfg_learning_rates := learning_rates m;
              cfg_losses := losses m;
              cfg_wallclock_times := wallclock_times m |}]) /\
  (forall ex ex',
      fails E MakedirsLog = Some ex -> fails E OpenLogSaving = Some ex' ->
      after.2 = Ok tt /\
      files after.1 = files w /\
      trace after.1
      = trace w
        ++ [Print (FailedToWriteLog (log_file C) ex);
            Print WritingToModelFileFailed; Print (TheException ex')]).
Proof.
  intros Hd H1 H2 Hfree. cbv zeta. split.
  - intros Hl Hlog Hopen H3 H4.
    assert (Hcb :
      save_callback E C m OnExit w
      = save_block E C m OnExit
          (emit (Print (FailedToWriteLog (log_file C) IndexError))
             (create (log_file C)
                (mkdir (log_dir C) (init_last_saved_epoch w).1).1).1).1).
    { unfold save_callback. unmonad. unfold and_then.
      unfold init_last_saved_epoch at 1. simpl.
      unfold log_epoch, try_except. unmonad.
      unfold and_then, outside, lift. rewrite Hlog, Hopen, Hl. by simpl. }
    rewrite Hcb.
    rewrite save_block_on_exit by done.
    unfold written. simpl. split; [done |]. split.
    + by apply elem_of_union_l, elem_of_singleton.
    + by rewrite <- !app_assoc.
  - intros ex ex' Hlog H3.
    assert (Hcb :
      save_callback E C m OnExit w
      = save_block E C m OnExit
          (emit (Print (FailedToWriteLog (log_file C) ex))
             (init_last_saved_epoch w).1).1).
    { unfold save_callback. unmonad. unfold and_then.
      unfold init_last_saved_epoch at 1. simpl.
      unfold log_epoch, try_except. unmonad.
      unfold and_then at 1. unfold outside at 1. by rewrite Hlog. }
    assert (Hsb : forall w0,
      (save_block E C m OnExit w0).2 = Ok tt /\
      files (save_block E C m OnExit w0).1 = files w0 /\
      trace (save_block E C m OnExit w0).1
      = trace w0
        ++ [Print WritingToModelFileFailed; Print (TheException ex')]).
    { intros w0.
      unfold save_block, try_except, save_body, save_point. unmonad.
      unfold and_then at 1. unfold Checkpoint.ret at 1. rewrite Hd.
      unfold write_checkpoint. unmonad.
      destruct (Z.ltb_spec (disk_free E) (1024 * 1024 * 1024 * 2));
        [lia |].
      unfold and_then, outside, mkdir, emit.
      rewrite H1. simpl. rewrite H2, H3. simpl.
      by rewrite <- ?app_assoc. }
    rewrite Hcb.
    match goal with
    | |- context [save_block E C m OnExit ?w0] =>
        destruct (Hsb w0) as (Hr & Hf & Ht)
    end.
    rewrite Hr, Hf, Ht. simpl. by rewrite <- app_assoc.
Qed.

End CallbackFailures2.

(** *** The further callback properties on concrete runs *)

Section CallbackWitnesses.

Import Py Checkpoint.

Ltac by_computing :=
  refine (bool_decide_unpack _ _); vm_compute; exact I.

Lemma off_period_epoch_saves_nothing_witness :
  save_block healthy sparse_closure (history [8; 9; 5]%Z) (Epoch 3)
    (with_buckets sparse_closure [])
  = (with_buckets sparse_closure [], Ok tt).
Proof.
  exact (proj1 (off_period_epoch_saves_nothing healthy sparse_closure
                  (history [8; 9; 5]%Z) 3 (with_buckets sparse_closure [])
                  ltac:(simpl; lia) ltac:(by vm_compute))).
Defined.

Lemma zero_save_every_is_caught_witness :
  (save_block healthy zero_closure (history [8; 9; 5]%Z) (Epoch 3)
     (with_buckets zero_closure [])).2 = Ok tt.
Proof.
  exact (proj1 (zero_save_every_is_caught healthy zero_closure
                  (history [8; 9; 5]%Z) 3 (with_buckets zero_closure [])
                  eq_refl)).
Defined.

Lemma exit_call_saves_once_witness :
  save_block healthy run_closure (history [8; 9; 5]%Z) OnExit
    (with_buckets run_closure [])
  = (written run_closure (history [8; 9; 5]%Z) OnExit
       (epoch_file run_closure OnExit) (with_buckets run_closure []),
     Ok tt).
Proof.
  exact (proj1 (exit_call_saves_once healthy run_closure
                  (history [8; 9; 5]%Z) (with_buckets run_closure []))
           eq_refl eq_refl eq_refl eq_refl eq_refl ltac:(simpl; lia)).
Defined.

Lemma periodic_write_files_witness :
  (save_block healthy run_closure (history [8; 9; 5]%Z) (Epoch 3)
     (with_buckets run_closure [0; 1; 2]%Z)).2 = Ok tt.
Proof.
  exact (proj1 (periodic_write_files healthy run_closure
                  (history [8; 9; 5]%Z) 3
                  (with_buckets run_closure [0; 1; 2]%Z) 5%Z
                  ltac:(simpl; lia) ltac:(reflexivity) ltac:(simpl; lia)
                  ltac:(simpl; lia) eq_refl eq_refl eq_refl eq_refl
                  ltac:(simpl; lia) eq_refl)).
Defined.

Lemma failed_save_is_swallowed_witness :
  (save_block (failing SaveModelCall) run_closure (history [8; 9; 5]%Z)
     (Epoch 3) (with_buckets run_closure [])).2 = Ok tt.
Proof.
  exact (proj1 (failed_save_is_swallowed (failing SaveModelCall) run_closure
                  (history [8; 9; 5]%Z) (Epoch 3)
                  (with_buckets run_closure []) (OSError "disk")
                  eq_refl ltac:(intros [_ ?]; discriminate)
                  eq_refl eq_refl eq_refl eq_refl ltac:(simpl; lia))).
Defined.

Lemma short_history_stops_pruning_witness :
  written_file run_closure (Epoch 3)
    ∈ files (save_block healthy run_closure (history [5]%Z) (Epoch 3)
               (with_buckets run_closure [0; 1; 2]%Z)).1.
Proof.
  exact (proj1 (proj2 (short_history_stops_pruning healthy run_closure
                         (history [5]%Z) 3
                         (with_buckets run_closure [0; 1; 2]%Z) 5%Z
                         ltac:(simpl; lia) ltac:(reflexivity)
                         ltac:(simpl; lia) ltac:(simpl; lia)
                         eq_refl eq_refl eq_refl eq_refl
                         ltac:(simpl; lia) eq_refl))).
Defined.

Lemma metrics_failure_escapes_witness :
  (save_callback healthy run_closure (history []) (Epoch 3)
     (with_buckets run_closure [])).2 = Raise IndexError.
Proof.
  exact (proj1 (metrics_failure_escapes healthy run_closure (history []) 3
                  (with_buckets run_closure []) IndexError
                  (or_introl (conj eq_refl eq_refl)))).
Defined.

Lemma log_failure_and_exit_save_witness :
  (save_callback healthy run_closure (history []) OnExit
     (with_buckets run_closure [])).2 = Ok tt /\
  epoch_file run_closure OnExit
    ∈ files (save_callback healthy run_closure (history []) OnExit
               (with_buckets run_closure [])).1 /\
  files (save_callback no_log_dir run_closure (history [8; 9; 5]%Z) OnExit
           (with_buckets run_closure [])).1
  = files (with_buckets run_closure []).
Proof.
  destruct (log_failure_and_exit_save healthy run_closure (history [])
              (with_buckets run_closure []) eq_refl eq_refl eq_refl
              ltac:(simpl; lia)) as [Ha _].
  destruct (Ha eq_refl eq_refl eq_refl eq_refl eq_refl) as (Ha1 & Ha2 & _).
  destruct (log_failure_and_exit_save no_log_dir run_closure
              (history [8; 9; 5]%Z) (with_buckets run_closure [])
              eq_refl eq_refl eq_refl ltac:(simpl; lia)) as [_ Hb].
  destruct (Hb (OSError "makedirs") (OSError "open") eq_refl eq_refl)
    as (_ & Hb2 & _).
  split; [exact Ha1 |]. split; [exact Ha2 | exact Hb2].
Defined.

(** The short history on a concrete run: with the losses [9; 5] at epoch
    4, bucket 1 (loss 9) is pruned, and the loop stops at bucket 3, whose
    loss is missing. *)
Example short_history_run :
  let after :=
    save_block healthy run_closure (history [9; 5]%Z) (Epoch 4)
      (with_buckets run_closure [0; 1; 2; 3]%Z) in
  after.2 = Ok tt /\
  (epoch_file run_closure (Epoch 1) ∉ files (after.1)) /\
  epoch_file run_closure (Epoch 3) ∈ files (after.1) /\
  epoch_file run_closure (Epoch 4) ∈ files (after.1).
Proof. cbv zeta. repeat split; first [by vm_compute | by_computing]. Qed.

End CallbackWitnesses.

(** ** More on the tracking set-up *)

Section TrackingMore.

Import Py Tracking.

Lemma set_experiment_loop_from (S : server) (experiment : string)
    (k r a fuel : nat) (lg : list event) :
  (a + r = k)%nat -> (k < 5)%nat -> (r < fuel)%nat ->
  (forall j, (j < k)%nat -> set_experiment_raises S j = true) ->
  set_experiment_raises S k = false ->
  set_experiment_loop S experiment fuel (mkLoop (Z.of_nat a) a lg)
  = Some (mkLoop (Z.of_nat k) (Datatypes.S k)
            (lg ++ retries_from a r ++ [SetExperiment experiment])).
Proof.
  revert a fuel lg. induction r as [| r IH]; intros a fuel lg Ha Hk Hf Hj Hs.
  - destruct fuel as [| fuel]; [lia |]. simpl.
    assert (a = k) as -> by lia.
    destruct (Z.ltb_spec (Z.of_nat k) 5); [| lia]. by rewrite Hs.
  - destruct fuel as [| fuel]; [lia |]. simpl.
    destruct (Z.ltb_spec (Z.of_nat a) 5); [| lia].
    rewrite Hj by lia.
    replace (Z.of_nat a + 1)%Z with (Z.of_nat (Datatypes.S a)) by lia.
    rewrite (IH (Datatypes.S a)) by (done || lia).
    unfold retries_from. simpl.
    replace (Z.of_nat a + 1)%Z with (Z.of_nat (Datatypes.S a)) by lia.
    by rewrite <- !app_assoc.
Qed.

Lemma handshake_loop_first_try (S : server) (experiment : string)
    (fuel : nat) (lg : list event) :
  set_experiment_raises S 0 = false -> (0 < fuel)%nat ->
  set_experiment_loop S experiment fuel (mkLoop 0 0 lg)
  = Some (mkLoop 0 1 (lg ++ [SetExperiment experiment])).
Proof.
  intros Hs Hf.
  exact (set_experiment_loop_from S experiment 0 0 0 fuel lg eq_refl
           ltac:(lia) Hf ltac:(intros; lia) Hs).
Qed.

(** X12.  The handshake stops at the first attempt that succeeds: after
    [k < 5] failed attempts followed by a success, the loop has called
    [set_experiment] [k + 1] times, has printed and slept five seconds
    once per failure, and leaves with [tries = k]. *)
Theorem handshake_stops_at_first_success (S : server) (experiment : string)
    (k fuel : nat) (lg : list event) :
  (k < 5)%nat -> (k < fuel)%nat ->
  (forall j, (j < k)%nat -> set_experiment_raises S j = true) ->
  set_experiment_raises S k = false ->
  set_experiment_loop S experiment fuel (mkLoop 0 0 lg)
  = Some (mkLoop (Z.of_nat k) (Datatypes.S k)
            (lg ++ retries_from 0 k ++ [SetExperiment experiment])).
Proof.
  intros Hk Hf Hj Hs.
  exact (set_experiment_loop_from S experiment k k 0 fuel lg eq_refl Hk Hf
           Hj Hs).
Qed.

(** X13.  A continued run is looked up by name.  With no run of that name
    the look-up of the first id raises [IndexError]; with more than one,
    [main] raises [ValueError]; in both cases neither [mlflow.start_run]
    nor training is reached.  With exactly one, the run is resumed under
    its id. *)
Theorem continued_run_identity (S : server) (experiment : string)
    (fuel : nat) (model_string : string) :
  set_experiment_raises S 0 = false ->
  (0 < fuel)%nat ->
  let lg := [SetTrackingUri; SetExperiment experiment;
             SearchRuns model_string] in
  let outcome :=
    tabpfn_tracking S experiment fuel false true false model_string in
  (search_runs S = Ok [] -> outcome = Some (lg, Raise IndexError)) /\
  (forall a b rest,
      search_runs S = Ok (a :: b :: rest) ->
      outcome
      = Some (lg, Raise (ValueError
                ("Found more than one run with name " +:+ model_string)))) /\
  (forall run_id,
      search_runs S = Ok [run_id] -> start_run_raises S = false ->
      outcome
      = Some (lg ++ [StartRun (RunId run_id); LogParams; GetModel], Ok tt)).
Proof.
  intros Hs Hf. cbv zeta. unfold tabpfn_tracking. simpl.
  rewrite (handshake_loop_first_try S experiment fuel _ Hs Hf). simpl.
  unfold choose_run. simpl. split; [| split].
  - by intros ->.
  - intros a b rest ->. simpl.
    by destruct (Z.ltb_spec 1 (Z.of_nat (Datatypes.S (Datatypes.S
                                                         (length rest)))));
      [| lia].
  - intros run_id -> Hstart. simpl. unfold start_run. by rewrite Hstart.
Qed.

End TrackingMore.

(** ** More on [ReduceLROnSpike] *)

Section SpikeMore.

Import Py Schedule Spike SpikeState.
Local Open Scope R_scope.

Lemma state_dict_lookup_optimizer {V : Type} (d : gmap string V) :
  state_dict d !! "optimizer" = None.
Proof.
  unfold state_dict. apply map_lookup_filter_None. right.
  intros x _ H. by apply H.
Qed.

Lemma state_dict_lookup_ne {V : Type} (d : gmap string V) (k : string) :
  k <> "optimizer" -> state_dict d !! k = d !! k.
Proof.
  intros Hk. unfold state_dict. apply option_eq. intros x.
  rewrite map_lookup_filter_Some. simpl.
  split; [by intros [? ?] | by intros ?; split].
Qed.

(** X14.  Saving and restoring, on the attribute dictionary of an
    instance.  The saved state has no ['optimizer'] entry.  Restoring an
    instance from its own state changes nothing.  Restoring from the state
    of any instance leaves the optimizer as it is, whereas a dictionary
    that carries an ['optimizer'] entry replaces it.  After restoring from
    another instance's state, the state of the instance is the one loaded
    together with the attributes it had and the loaded state lacks. *)
Theorem state_dict_round_trip {V : Type} (d d' st : gmap string V) (v : V) :
  state_dict d !! "optimizer" = None /\
  load_state_dict d (state_dict d) = d /\
  load_state_dict d (state_dict d') !! "optimizer" = d !! "optimizer" /\
  load_state_dict d (<["optimizer" := v]> st) !! "optimizer" = Some v /\
  state_dict (load_state_dict d (state_dict d'))
  = state_dict d' ∪ state_dict d.
Proof.
  split_and!.
  - apply state_dict_lookup_optimizer.
  - unfold load_state_dict, state_dict.
    apply map_subseteq_union, map_filter_subseteq.
  - unfold load_state_dict.
    apply lookup_union_r, state_dict_lookup_optimizer.
  - unfold load_state_dict.
    apply lookup_union_Some_l, lookup_insert_eq.
  - apply map_eq. intros k. unfold load_state_dict.
    destruct (decide (k = "optimizer")) as [-> | Hk].
    + rewrite state_dict_lookup_optimizer. symmetry.
      apply lookup_union_None_2; apply state_dict_lookup_optimizer.
    + rewrite state_dict_lookup_ne by done.
      rewrite !lookup_union.
      by rewrite (state_dict_lookup_ne d k Hk).
Qed.

Lemma mean_repeat (c : R) (k : nat) : mean (repeat c (S k)) = c.
Proof.
  unfold mean. rewrite repeat_length.
  assert (Hs : forall n, Spike.sum (repeat c n) = INR n * c).
  { induction n as [| n IH]; [simpl; lra |].
    change (Spike.sum (repeat c (S n))) with (c + Spike.sum (repeat c n)).
    rewrite IH, S_INR. lra. }
  rewrite Hs. field. apply not_0_INR. lia.
Qed.

Lemma std_repeat (c : R) (k : nat) : std (repeat c (S k)) = 0.
Proof.
  unfold std. rewrite mean_repeat.
  replace (map (fun x => Rsqr (x - c)) (repeat c (S k)))
    with (repeat 0 (S k)).
  - rewrite mean_repeat. apply sqrt_0.
  - generalize (S k). intros n. induction n as [| n IH]; [done |].
    simpl. rewrite <- IH. f_equal. unfold Rsqr. lra.
Qed.

(** X15.  The test [np.abs(np.mean(w) - current) > np.std(w)] is
    two-sided: two observations at the same distance from the mean of the
    window, one on each side, get the same verdict, so a sudden improvement
    of the loss reduces the rates like a spike does. *)
Theorem spike_test_is_two_sided (w : list R) (below above : R) :
  mean w - below = - (mean w - above) ->
  spike w below = spike w above.
Proof.
  intros H. unfold spike. destruct w as [| x w]; [done |].
  by rewrite H, Rabs_Ropp.
Qed.

(** X16.  A window of equal losses has standard deviation 0, losses read
    as exact reals: every observation that differs from them, however
    little, triggers, and an observation equal to them does not. *)
Theorem flat_window_triggers_on_any_change (c current : R) (k : nat) :
  spike (repeat c (S k)) current = true <-> current <> c.
Proof.
  rewrite spike_true, mean_repeat, std_repeat. split.
  - intros [_ H] ->. replace (c - c) with 0 in H by lra.
    rewrite Rabs_R0 in H. lra.
  - intros H. split; [done |].
    apply Rabs_pos_lt. lra.
Qed.

(** X17.  With [smoothing <= 0] and an empty window nothing ever happens:
    no call raises, no rate changes and the window stays empty, whatever
    is observed. *)
Theorem nonpositive_smoothing_never_reduces (self : ReduceLROnSpike)
    (ms : list R) :
  (smoothing self <= 0)%Z ->
  recent_losses self = [] ->
  (steps self ms).2 = Ok tt /\
  optimizer (steps self ms).1 = optimizer self /\
  recent_losses (steps self ms).1 = [].
Proof.
  revert self. induction ms as [| m ms IH]; intros self Hs Hw; [done |].
  simpl.
  rewrite step_quiet by (rewrite Hw; simpl; first [lia | done]).
  simpl. rewrite Hw. simpl.
  match goal with
  | |- context [steps ?s ms] => destruct (IH s) as (H1 & H2 & H3)
  end; [done | done |].
  by rewrite H1, H2, H3.
Qed.

End SpikeMore.

Section SpikeInvariants.

Import Py Schedule Spike.
Local Open Scope R_scope.

(** When the lower bounds run out before the groups do, the loop has
    treated the groups that have a bound and raises at the first one that
    has none. *)
Lemma reduce_groups_short (f e : R) (mins : list R) (v : bool) (ep : Z)
    (gs : list param_group) (i : nat) :
  (i <= length mins < i + length gs)%nat ->
  (reduce_groups f e mins v ep i gs).1.1
  = zip_with (reduced f e) gs (drop i mins) ++ drop (length mins - i) gs /\
  (reduce_groups f e mins v ep i gs).2 = Raise IndexError.
Proof.
  revert i. induction gs as [| g gs IH]; intros i Hi; simpl in *; [lia |].
  rewrite index_nat.
  destruct (mins !! i) as [m |] eqn:Hm.
  - apply lookup_lt_Some in Hm as Hlt.
    destruct (IH (S i) ltac:(lia)) as [Hg Hr].
    destruct (reduce_groups f e mins v ep (S i) gs) as [[gs' out] r].
    simpl in *. subst r. split; [| done].
    rewrite (drop_S _ _ _ Hm). simpl.
    replace (length mins - i)%nat with (S (length mins - S i)) by lia.
    simpl. rewrite Hg. unfold reduced.
    by destruct (Rgt_dec _ _).
  - apply lookup_ge_None in Hm.
    replace (length mins - i)%nat with 0%nat by lia.
    rewrite drop_ge by lia. simpl. by destruct gs.
Qed.

(** X18.  A group without a lower bound (one added to the optimizer after
    the scheduler was set up) makes a triggered call raise [IndexError]
    half-way: the groups that have a bound are reduced, the others are as
    they were, and the window is not reset, so the next observation is
    tested against the same window. *)
Theorem step_with_missing_lower_bound (self : ReduceLROnSpike) (m : R) :
  (smoothing self <= Z.of_nat (length (recent_losses self)))%Z ->
  spike (recent_losses self) m = true ->
  (length (min_lrs self) < length (param_groups (optimizer self)))%nat ->
  (step self m).2 = Raise IndexError /\
  recent_losses (step self m).1 = recent_losses self /\
  last_epoch (step self m).1 = (last_epoch self + 1)%Z /\
  param_groups (optimizer (step self m).1)
  = zip_with (reduced (factor self) (eps self))
      (param_groups (optimizer self)) (min_lrs self)
    ++ drop (length (min_lrs self)) (param_groups (optimizer self)).
Proof.
  intros Hfull Hs Hlen.
  rewrite step_spiking by done. cbv zeta.
  assert (Hred : forall s ep,
    factor s = factor self -> eps s = eps self -> min_lrs s = min_lrs self ->
    param_groups (optimizer s) = param_groups (optimizer self) ->
    (_reduce_lr s ep).2 = Raise IndexError /\
    recent_losses (_reduce_lr s ep).1 = recent_losses s /\
    last_epoch (_reduce_lr s ep).1 = last_epoch s /\
    param_groups (optimizer (_reduce_lr s ep).1)
    = zip_with (reduced (factor self) (eps self))
        (param_groups (optimizer self)) (min_lrs self)
      ++ drop (length (min_lrs self)) (param_groups (optimizer self))).
  { intros s ep Hf He Hm Hg. unfold _reduce_lr. rewrite Hf, He, Hm, Hg.
    destruct (reduce_groups_short (factor self) (eps self) (min_lrs self)
                (verbose s) ep (param_groups (optimizer self)) 0
                ltac:(lia)) as [H1 H2].
    destruct (reduce_groups _ _ _ _ _ _ _) as [[gs out] r]. simpl in *.
    rewrite drop_0, Nat.sub_0_r in H1. by subst. }
  match goal with
  | |- context [_reduce_lr ?s ?ep] =>
      destruct (Hred s ep) as (H1 & H2 & H3 & H4);
        [by destruct (verbose self) .. |];
      destruct (_reduce_lr s ep) as [self3 r3]
  end.
  simpl in *. subst r3. simpl. rewrite H2, H3, H4.
  by destruct (verbose self).
Qed.

(** X19.  A rate that is at or above its group's lower bound stays there
    over every run of calls, whatever [eps] and [factor] are and however
    the run ends. *)
Theorem rates_stay_above_min_lr (self : ReduceLROnSpike) (ms : list R)
    (i : nat) (r mn r' : R) :
  rates self !! i = Some r ->
  min_lrs self !! i = Some mn ->
  mn <= r ->
  rates (steps self ms).1 !! i = Some r' ->
  mn <= r'.
Proof.
  revert self r. induction ms as [| m ms IH]; intros self r Hr Hmn Hle Hr'.
  - simpl in Hr'. rewrite Hr in Hr'. inversion Hr'; subst. done.
  - simpl in Hr'.
    destruct (step_rates self m) as [Hlen Hstep].
    destruct (step_groups self m) as (_ & _ & _ & Hm).
    assert (H1 : exists r1, rates (step self m).1 !! i = Some r1 /\ mn <= r1).
    { destruct (rates (step self m).1 !! i) as [r1 |] eqn:E1.
      2: { apply lookup_ge_None in E1. apply lookup_lt_Some in Hr. lia. }
      exists r1. split; [done |].
      destruct (Hstep i r r1 Hr E1) as [Hfloor _].
      destruct (Req_dec r1 r) as [-> | Hne]; [done |].
      destruct (Hfloor Hne) as (mn' & Hmn' & ?). congruence. }
    destruct H1 as (r1 & Hr1 & Hle1).
    destruct (step self m) as [self' [[] | ex]]; simpl in *.
    + by apply (IH self' r1); rewrite ?Hm.
    + rewrite Hr1 in Hr'. inversion Hr'; subst. done.
Qed.

End SpikeInvariants.

Lemma step_with_missing_lower_bound_witness :
  let self :=
    {| Spike.factor := 0.1%R;
       Spike.optimizer :=
         Spike.mkOptimizer [Spike.mkGroup 1 []; Spike.mkGroup 1 []];
       Spike.min_lrs := [0%R]; Spike.smoothing := 1;
       Spike.verbose := false; Spike.mode := "min";
       Spike.threshold := Spike.GlobalName "threshold";
       Spike.threshold_mode := Spike.GlobalName "threshold_mode";
       Spike.eps := 1e-8%R; Spike.last_epoch := 0;
       Spike.recent_losses := [0%R]; Spike.recent_loses := None;
       Spike._last_lr := None; Spike.stdout := [] |} in
  (Spike.step self 1%R).2 = Py.Raise Py.IndexError /\
  Spike.recent_losses (Spike.step self 1%R).1 = [0%R].
Proof.
  cbv zeta.
  match goal with
  | |- (Spike.step ?s _).2 = _ /\ _ =>
      destruct (step_with_missing_lower_bound s 1%R ltac:(simpl; lia)
                  spiking_window_0 ltac:(simpl; lia)) as (H1 & H2 & _)
  end.
  split; assumption.
Defined.

Lemma rates_stay_above_min_lr_witness :
  match
    Spike.rates (Spike.steps (a_scheduler 1e-8 1 0.5 1 [0%R]) [1%R; 1%R]).1
      !! 0%nat
  with
  | Some r' => (0.5 <= r')%R
  | None => True
  end.
Proof.
  destruct (Spike.rates
              (Spike.steps (a_scheduler 1e-8 1 0.5 1 [0%R]) [1%R; 1%R]).1
              !! 0%nat) as [r' |] eqn:H; [| exact I].
  exact (rates_stay_above_min_lr (a_scheduler 1e-8 1 0.5 1 [0%R]) [1%R; 1%R]
           0 1%R 0.5%R r' eq_refl eq_refl ltac:(lra) H).
Defined.

Lemma nonpositive_smoothing_never_reduces_witness :
  (Spike.steps (a_scheduler 1e-8 1 0.5 0 []) [1%R; 7%R]).2 = Py.Ok tt /\
  Spike.optimizer (Spike.steps (a_scheduler 1e-8 1 0.5 0 []) [1%R; 7%R]).1
  = Spike.optimizer (a_scheduler 1e-8 1 0.5 0 []).
Proof.
  destruct (nonpositive_smoothing_never_reduces
              (a_scheduler 1e-8 1 0.5 0 []) [1%R; 7%R]
              ltac:(simpl; lia) eq_refl) as (H1 & H2 & _).
  split; assumption.
Defined.


(* --------------------------------------------------------------------- *)
(** ** The schedules: range, end points, and what happens past the end *)

Section ScheduleRanges.

Import Py Schedule.
Local Open Scope R_scope.

(** The warmup ramp stays inside [[0, 1]] on steps that are not negative. *)
Lemma warmup_ramp_range (s w : Z) :
  (0 <= s < w)%Z -> 0 <= IZR s / IZR (Z.max 1 w) <= 1.
Proof.
  intros Hs.
  assert (Hw : 0 < IZR (Z.max 1 w)) by (apply IZR_lt; lia).
  assert (H0 : 0 <= IZR s) by (apply IZR_le; lia).
  assert (H1 : IZR s <= IZR (Z.max 1 w)) by (apply IZR_le; lia).
  split.
  - apply Rmult_le_pos; [done |]. left. by apply Rinv_0_lt_compat.
  - apply (Rmult_le_reg_r (IZR (Z.max 1 w))); [done |].
    unfold Rdiv. rewrite Rmult_assoc, Rinv_l by lra. lra.
Qed.

(** The cosine part stays inside [[0, 1]] at every angle. *)
Lemma cosine_part_range (x : R) :
  0 <= py_max 0.0 (0.5 * (1.0 + cos x)) <= 1.
Proof.
  pose proof (COS_bound x) as [Hl Hu].
  unfold py_max. destruct (Rgt_dec _ _); lra.
Qed.

Lemma inner_lr_lambda_range (c : R) (s w t : Z) :
  (0 <= s)%Z -> 0 <= inner_lr_lambda c s w t <= 1.
Proof.
  intros Hs. unfold inner_lr_lambda.
  destruct (Z.ltb_spec s w).
  - apply warmup_ramp_range. lia.
  - apply cosine_part_range.
Qed.

(** X20.  On steps that are not negative the multiplier of
    [get_cosine_schedule_with_warmup] lies in [[0, 1]], whatever the warmup
    length, the number of training steps and the number of cycles. *)
Theorem cosine_multiplier_range (w t : Z) (c : R) (s : Z) :
  (0 <= s)%Z -> 0 <= Cosine.lr_lambda w t c s <= 1.
Proof.
  intros Hs. unfold Cosine.lr_lambda.
  destruct (Z.ltb_spec s w).
  - apply warmup_ramp_range. lia.
  - apply cosine_part_range.
Qed.

(** X21.  With a positive period the multiplier of
    [get_restarting_cosine_schedule_with_warmup] lies in [[0, 1]] on steps
    that are not negative. *)
Theorem restart_multiplier_range (w p : Z) (c : R) (s : Z) :
  (0 < p)%Z -> (0 <= s)%Z -> 0 <= lr_lambda w p c s <= 1.
Proof.
  intros Hp Hs. unfold lr_lambda. cbv zeta.
  apply inner_lr_lambda_range.
  apply Z.mod_pos_bound. lia.
Qed.

(** X22.  The cosine schedule is not held at its final value.  With the
    default half cycle and a warmup shorter than the training, the
    multiplier is 1 when the warmup ends, 0 at [num_training_steps], and 1
    again at step [2 * num_training_steps - num_warmup_steps]: a run that
    goes on past [num_training_steps] has its rate raised back to the
    full one. *)
Theorem cosine_returns_to_full_rate (w t : Z) :
  (w < t)%Z ->
  Cosine.lr_lambda w t 0.5 w = 1 /\
  Cosine.lr_lambda w t 0.5 t = 0 /\
  Cosine.lr_lambda w t 0.5 (2 * t - w) = 1.
Proof.
  intros Hwt.
  assert (Hmax : Z.max 1 (t - w) = (t - w)%Z) by lia.
  assert (Hpos : 0 < IZR (t - w)) by (apply IZR_lt; lia).
  unfold Cosine.lr_lambda. cbv zeta. rewrite Hmax.
  rewrite Z.ltb_irrefl.
  destruct (Z.ltb_spec t w); [lia |].
  destruct (Z.ltb_spec (2 * t - w) w); [lia |].
  replace (PI * 0.5 * 2.0) with PI by lra.
  split; [| split].
  - rewrite Z.sub_diag. set (D := IZR (t - w)) in *.
    replace (PI * (0 / D)) with 0 by (field; lra).
    rewrite cos_0. unfold py_max. destruct (Rgt_dec _ _); lra.
  - set (D := IZR (t - w)) in *.
    replace (PI * (D / D)) with PI by (field; lra).
    rewrite cos_PI. unfold py_max. destruct (Rgt_dec _ _); lra.
  - assert (E : IZR (2 * t - w - w) = 2 * IZR (t - w))
      by (rewrite <- mult_IZR; f_equal; lia).
    rewrite E. set (D := IZR (t - w)) in *.
    replace (PI * (2 * D / D)) with (2 * PI) by (field; lra).
    rewrite cos_2PI. unfold py_max. destruct (Rgt_dec _ _); lra.
Qed.

(** X23.  The linear schedule lies in [[0, 1]] on steps that are not
    negative, never rises once the warmup is over, and is held at 0 from
    [num_training_steps] on. *)
Theorem linear_schedule_shape (w t s s' : Z) :
  ((0 <= s)%Z -> 0 <= Linear.lr_lambda w t s <= 1) /\
  ((w <= s <= s')%Z -> Linear.lr_lambda w t s' <= Linear.lr_lambda w t s) /\
  ((w <= s)%Z -> (t <= s)%Z -> Linear.lr_lambda w t s = 0).
Proof.
  assert (Hm : 0 < IZR (Z.max 1 (t - w))) by (apply IZR_lt; lia).
  assert (Hi : 0 < / IZR (Z.max 1 (t - w))) by by apply Rinv_0_lt_compat.
  unfold Linear.lr_lambda. replace 0.0 with 0 by lra. split; [| split].
  - intros Hs. destruct (Z.ltb_spec s w).
    + apply warmup_ramp_range. lia.
    + rewrite py_max_Rmax. split; [apply Rmax_l |].
      apply Rmax_lub; [lra |].
      apply (Rmult_le_reg_r (IZR (Z.max 1 (t - w)))); [done |].
      unfold Rdiv. rewrite Rmult_assoc, Rinv_l by lra.
      rewrite Rmult_1_r, Rmult_1_l. apply IZR_le. lia.
  - intros Hs.
    destruct (Z.ltb_spec s w); [lia |].
    destruct (Z.ltb_spec s' w); [lia |].
    rewrite !py_max_Rmax. apply Rle_max_compat_l.
    unfold Rdiv. apply Rmult_le_compat_r; [lra |]. apply IZR_le. lia.
  - intros Hw Ht.
    destruct (Z.ltb_spec s w); [lia |].
    rewrite py_max_Rmax. apply Rmax_left.
    assert (IZR (t - s) <= 0) by (apply IZR_le; lia).
    unfold Rdiv. nra.
Qed.

(** X24.  Every restart begins at the full rate: at a step that is a
    positive multiple of the period the multiplier is 1, whatever the
    warmup length, which is only used in the first period. *)
Theorem restart_begins_at_full_rate (w p : Z) (c : R) (k : Z) :
  (0 < p)%Z -> (1 <= k)%Z -> lr_lambda w p c (k * p) = 1.
Proof.
  intros Hp Hk.
  rewrite lr_lambda_later by nia.
  rewrite Z.mod_mul by lia.
  unfold inner_lr_lambda. rewrite Z.ltb_irrefl. cbv zeta.
  change (0 - 0)%Z with 0%Z.
  replace (PI * c * 2.0 * (0 / IZR (Z.max 1 (p - 0)))) with 0
    by (unfold Rdiv; rewrite Rmult_0_l, Rmult_0_r; reflexivity).
  rewrite cos_0. unfold py_max. destruct (Rgt_dec _ _); lra.
Qed.

End ScheduleRanges.

Lemma cosine_multiplier_range_witness :
  (0 <= Cosine.lr_lambda 2 10 0.5 7 <= 1)%R.
Proof. exact (cosine_multiplier_range 2 10 0.5 7 ltac:(lia)). Defined.

Lemma restart_multiplier_range_witness :
  (0 <= Schedule.lr_lambda 2 4 0.5 9 <= 1)%R.
Proof.
  exact (restart_multiplier_range 2 4 0.5 9 ltac:(lia) ltac:(lia)).
Defined.

Lemma cosine_returns_to_full_rate_witness :
  Cosine.lr_lambda 2 6 0.5 2 = 1%R /\
  Cosine.lr_lambda 2 6 0.5 6 = 0%R /\
  Cosine.lr_lambda 2 6 0.5 (2 * 6 - 2) = 1%R.
Proof. exact (cosine_returns_to_full_rate 2 6 ltac:(lia)). Defined.

Lemma spike_test_is_two_sided_witness :
  Spike.spike [1%R; 3%R] 0%R = Spike.spike [1%R; 3%R] 4%R.
Proof.
  apply spike_test_is_two_sided.
  unfold Spike.mean, Spike.sum. simpl. lra.
Defined.

Lemma linear_schedule_shape_witness :
  (0 <= Linear.lr_lambda 2 10 5 <= 1)%R /\
  (Linear.lr_lambda 2 10 7 <= Linear.lr_lambda 2 10 5)%R /\
  Linear.lr_lambda 2 10 12 = 0%R.
Proof.
  split; [| split].
  - exact (proj1 (linear_schedule_shape 2 10 5 7) ltac:(lia)).
  - exact (proj1 (proj2 (linear_schedule_shape 2 10 5 7)) ltac:(lia)).
  - exact (proj2 (proj2 (linear_schedule_shape 2 10 12 12)) ltac:(lia)
             ltac:(lia)).
Defined.

Lemma restart_begins_at_full_rate_witness :
  Schedule.lr_lambda 2 4 0.5 (3 * 4) = 1%R.
Proof.
  exact (restart_begins_at_full_rate 2 4 0.5 3 ltac:(lia) ltac:(lia)).
Defined.

(* --------------------------------------------------------------------- *)
(** ** [main] before the configuration is built *)

Section LaunchFacts.

Import Py Launch.

(** X25.  [create_new_run] is checked against [continue_run] after the
    restart block has run, so a checkpoint left by an interrupted trial
    switches the check off: [main] raises here exactly when
    [create_new_run] is set, [continue_run] is not, and no such checkpoint
    is present.  When one is present [main] goes on as a continued run
    that loads this checkpoint, whatever [continue_run] and [load_file]
    were on the command line. *)
Theorem check_arguments_after_restart (E : env) (a : args) :
  makedirs_succeeds E a ->
  (raised (check_arguments E a) <->
     create_new_run a = true /\ continue_run a = false /\
     restart_checkpoint E a = false) /\
  (restart_checkpoint E a = true ->
     exists d,
       st_checkpoint_dir a = Some d /\
       check_arguments E a
       = Ok (mkArgs (Some d) (Some d) true
               (Some (PathIn d "checkpoint.mothernet")) (create_new_run a))).
Proof.
  intros Hmk. unfold check_arguments, handle_restart, restart_checkpoint,
    raised.
  destruct a as [[d |] bp cr lf nw]; simpl in *.
  - rewrite (Hmk d eq_refl).
    destruct (file_exists E d "checkpoint.mothernet"); simpl.
    + split.
      * rewrite andb_false_r. split; [done | by intros (_ & _ & ?)].
      * intros _. exists d. by rewrite andb_false_r.
    + split; [| done].
      destruct nw, cr; simpl; split;
        first [ by intros (? & ? & ?) | done ].
  - split; [| done].
    destruct nw, cr; simpl; split;
      first [ by intros (? & ? & ?) | done ].
Qed.

End LaunchFacts.

Lemma check_arguments_after_restart_witness :
  Launch.check_arguments trial_with_checkpoint
    (Launch.mkArgs (Some "trial") None false (Some (Launch.Str "old.cpkt"))
       true)
  = Py.Ok (Launch.mkArgs (Some "trial") (Some "trial") true
             (Some (Launch.PathIn "trial" "checkpoint.mothernet")) true).
Proof.
  destruct (proj2 (check_arguments_after_restart trial_with_checkpoint
              (Launch.mkArgs (Some "trial") None false
                 (Some (Launch.Str "old.cpkt")) true)
              ltac:(intros d _; reflexivity)) eq_refl) as (d & Hd & Hr).
  assert (d = "trial") as -> by (simpl in Hd; congruence). exact Hr.
Defined.

Lemma handshake_stops_at_first_success_witness :
  Tracking.set_experiment_loop (flaky_server 2 []) "exp" 6
    (Tracking.mkLoop 0 0 [])
  = Some (Tracking.mkLoop 2 3
            ([] ++ retries_from 0 2 ++ [Tracking.SetExperiment "exp"])).
Proof.
  refine (handshake_stops_at_first_success (flaky_server 2 []) "exp" 2 6 []
            ltac:(lia) ltac:(lia) _ eq_refl).
  intros j Hj. apply Nat.ltb_lt. exact Hj.
Defined.

Lemma continued_run_identity_witness :
  Tracking.tabpfn_tracking (flaky_server 0 ["r1"; "r2"]) "exp" 6 false true
    false "m"
  = Some ([Tracking.SetTrackingUri; Tracking.SetExperiment "exp";
           Tracking.SearchRuns "m"],
          Py.Raise (Py.ValueError ("Found more than one run with name " +:+ "m"))).
Proof.
  exact (proj1 (proj2 (continued_run_identity (flaky_server 0 ["r1"; "r2"])
                         "exp" 6 "m" eq_refl ltac:(lia)))
           "r1" "r2" [] eq_refl).
Defined.

(* --------------------------------------------------------------------- *)
(** ** [product_dict] *)

Section GridFacts.

Import Grid.
Context {K V : Type}.

Lemma product_length {A : Type} (pools : list (list A)) :
  length (product pools) = foldr (fun pool n => length pool * n)%nat 1%nat pools.
Proof.
  induction pools as [| pool pools IH]; [done |]. simpl.
  rewrite <- IH. clear IH.
  induction pool as [| x pool IHp]; [done |]. simpl.
  by rewrite length_app, length_map, IHp.
Qed.

Lemma elem_of_product {A : Type} (pools : list (list A)) (l : list A) :
  l ∈ product pools <-> Forall2 (fun x pool => x ∈ pool) l pools.
Proof.
  revert l. induction pools as [| pool pools IH]; intros l; simpl.
  - rewrite list_elem_of_singleton. split; [by intros -> |].
    by inversion 1.
  - rewrite list_elem_of_In, in_flat_map. split.
    + intros (x & Hx & Hl). apply list_elem_of_In in Hx.
      apply list_elem_of_In, list_elem_of_fmap in Hl as (r & -> & Hr).
      constructor; [done |]. by apply IH.
    + inversion 1 as [| x pool' r pools' Hx Hr]; subst.
      exists x. split; [by apply list_elem_of_In |].
      apply list_elem_of_In, list_elem_of_fmap. exists r.
      split; [done |]. by apply IH.
Qed.

(** X26.  [product_dict] yields exactly the dicts that have the keys of
    [dic], in the same order, each with one of the values listed for it;
    it yields as many dicts as the product of the lengths of the value
    lists, so a single empty dict for an empty [dic] and none at all when
    one of the lists is empty. *)
Theorem product_dict_yields (dic : list (K * list V)) (d : list (K * V)) :
  (d ∈ product_dict dic <->
     Forall2 (fun kv kvs => kv.1 = kvs.1 /\ kv.2 ∈ kvs.2) d dic) /\
  length (product_dict dic)
  = foldr (fun kvs n => length kvs.2 * n)%nat 1%nat dic.
Proof.
  unfold product_dict. cbv zeta. split.
  - rewrite list_elem_of_fmap. split.
    + intros (inst & -> & Hin). apply elem_of_product in Hin.
      revert inst Hin. induction dic as [| [k vs] dic IH]; intros inst Hin.
      * by inversion Hin.
      * inversion Hin as [| v vs' inst' ? Hv Hrest]; subst. simpl.
        constructor; [done |]. by apply IH.
    + intros Hd. exists (map snd d). split.
      * induction Hd as [| [k v] [k' vs] d dic [Hk _] _ IH]; [done |].
        simpl in *. by rewrite Hk, <- IH.
      * apply elem_of_product.
        induction Hd as [| [k v] [k' vs] d dic [_ Hv] _ IH]; simpl;
          by constructor.
  - rewrite length_map, product_length.
    induction dic as [| [k vs] dic IH]; [done |]. simpl. by rewrite IH.
Qed.

End GridFacts.
